(** * NeuraSentinel front end: the swing capture and analytics engine

    A shallow embedding of the engine code of the React pages
    (ProfilePage.tsx, AnalyticsPage.tsx, DashboardPage.tsx, DevicePage.tsx)
    and the properties the specification states about it.

    JavaScript numbers are IEEE 754 binary64 values: they are modelled by
    the Standard Library's [spec_float] with the binary64 operations
    (round to nearest, ties to even), so every rounding of the source is
    present in the model.  A swing count is an integer (the type of services/api.ts
    is not among the sources; the specification gives [count: int >= 0]):
    a [Z], which enters the arithmetic of the pages as the double
    [JS.of_Z count].  The sums of counts are accumulated as the code
    accumulates them, in doubles, one rounded addition per turn of a
    loop; they are the integer sums as long as these stay below 2^53.
    Two counts are compared as integers.  Strings are the UTF-8 bytes of the
    source's texts.  The React state of a page is an explicit record and
    each handler a function on it; what a handler awaits from outside
    (Web Bluetooth, the classifier, the clock) is an argument.  The
    handlers of the device page are also given piece by piece, from one
    [await] to the next, with the listeners they add. *)

From Stdlib Require Import ZArith List String Ascii Bool Lia.
From Stdlib Require Import Floats.SpecFloat DecimalString.
From Stdlib Require Import Permutation.
Import ListNotations.

Local Open Scope string_scope.
Local Open Scope Z_scope.

(* ================================================================== *)
(** ** JavaScript numbers *)
(* ================================================================== *)

Module JS.

Definition number : Type := spec_float.

Definition prec : Z := 53.
Definition emax : Z := 1024.
Definition emin : Z := SpecFloat.emin prec emax.

Definition add : number -> number -> number := SFadd prec emax.
Definition sub : number -> number -> number := SFsub prec emax.
Definition mul : number -> number -> number := SFmul prec emax.
Definition div : number -> number -> number := SFdiv prec emax.
Definition neg : number -> number := SFopp.
Definition abs : number -> number := SFabs.

(** [a < b], [a <= b], [a > b], [a >= b]: all false when an operand is NaN. *)
Definition lt (a b : number) : bool := SFltb a b.
Definition le (a b : number) : bool := SFleb a b.
Definition gt (a b : number) : bool := SFltb b a.
Definition ge (a b : number) : bool := SFleb b a.

Definition zero : number := S754_zero false.
Definition NaN : number := S754_nan.

(** The number an integer denotes (rounded when it needs more than 53 bits). *)
Definition of_Z (z : Z) : number := binary_normalize prec emax z 0 false.

(** The decimal literal [n/d] with [n] and [d] exactly representable
    ([0.8] is [dec 8 10]): division is correctly rounded, so this is the
    double nearest to the literal, the value the engine parses. *)
Definition dec (n d : Z) : number := div (of_Z n) (of_Z d).

Definition is_finite (x : number) : bool :=
  match x with
  | S754_zero _ | S754_finite _ _ _ => true
  | _ => false
  end.

Definition is_nan (x : number) : bool :=
  match x with
  | S754_nan => true
  | _ => false
  end.

Definition is_zero (x : number) : bool :=
  match x with
  | S754_zero _ => true
  | _ => false
  end.

(** A number in a condition: [0], [-0] and [NaN] are falsy. *)
Definition truthy (x : number) : bool := negb (is_zero x || is_nan x).

(** The sign a rendering shows: set for the negative non-zero numbers. *)
Definition is_negative (x : number) : bool :=
  match x with
  | S754_finite s _ _ | S754_infinity s => s
  | _ => false
  end.


(** The sign bit, where a number has one. *)
Definition signbit (x : number) : bool :=
  match x with
  | S754_zero s | S754_infinity s | S754_finite s _ _ => s
  | S754_nan => false
  end.

(** *** Number.prototype.toFixed *)

Definition digits (n : Z) : string :=
  NilZero.string_of_uint (N.to_uint (Z.to_N n)).

Fixpoint zeros (k : nat) : string :=
  match k with
  | O => ""
  | S k' => "0" ++ zeros k'
  end.

(** [m * 2^e >= 10^21], exactly. *)
Definition ge_1e21 (m : positive) (e : Z) : bool :=
  match e with
  | Zneg p => 10 ^ 21 * 2 ^ Zpos p <=? Zpos m
  | _ => 10 ^ 21 <=? Zpos m * 2 ^ e
  end.

(** The integer [n] for which [n / 10^f - m * 2^e] is as close to zero as
    possible, the larger one when there are two. *)
Definition scaled_round (m : positive) (e : Z) (f : nat) : Z :=
  let num := Zpos m * 10 ^ Z.of_nat f in
  match e with
  | Zneg p => (2 * num + 2 ^ Zpos p) / 2 ^ (Zpos p + 1)
  | _ => num * 2 ^ e
  end.

(** Steps 10 and 11 of toFixed: the decimal digits of [n] with a point
    before the last [f] of them, zero-padded on the left to [f + 1] digits. *)
Definition place_point (n : Z) (f : nat) : string :=
  let m := digits n in
  match f with
  | O => m
  | _ =>
    let k := String.length m in
    let m := if (k <=? f)%nat then zeros (f + 1 - k) ++ m else m in
    let k := String.length m in
    substring 0 (k - f) m ++ "." ++ substring (k - f) f m
  end.

Section ToFixed.

(** Number::toString on the finite numbers of magnitude at least 10^21:
    ECMAScript leaves its last digit to the implementation, toFixed only
    delegates to it, and no value of the engine reaches it. *)
Variable numberToString : number -> string.

Definition toFixed (x : number) (fractionDigits : nat) : string :=
  match x with
  | S754_nan => "NaN"
  | S754_infinity s => if s then "-Infinity" else "Infinity"
  | S754_zero _ => place_point 0 fractionDigits
  | S754_finite s m e =>
    (if s then "-" else "") ++
    (if ge_1e21 m e then numberToString (abs x)
     else place_point (scaled_round m e fractionDigits) fractionDigits)
  end.

End ToFixed.

End JS.

(* ================================================================== *)
(** ** Arrays *)
(* ================================================================== *)

Module JSArray.

Section Arrays.
Context {A : Type}.

(** [a[i]]: [undefined] outside the array. *)
Definition index (a : list A) (i : Z) : option A :=
  if i <? 0 then None else nth_error a (Z.to_nat i).

(** [a.slice(-n)] for [n > 0]: the last [n] elements, the whole array
    when it has fewer. *)
Definition slice_last (n : nat) (a : list A) : list A :=
  skipn (List.length a - n) a.

(** Array.prototype.sort with a comparator.  The sort is stable, and for a
    consistent comparator its result is determined: [x] moves behind a
    later [y] only when [cmp x y > 0]. *)
Fixpoint sort_insert (cmp : A -> A -> Z) (x : A) (sorted : list A) : list A :=
  match sorted with
  | [] => [x]
  | y :: rest =>
    if cmp x y >? 0 then y :: sort_insert cmp x rest else x :: sorted
  end.

Definition sort (cmp : A -> A -> Z) (a : list A) : list A :=
  fold_right (sort_insert cmp) [] a.

End Arrays.

End JSArray.

(* ================================================================== *)
(** ** services/api: the types the pages exchange with the back end *)
(* ================================================================== *)

Module Api.

(** Modelled from the spec: services/api.ts, which declares the types the
    pages import, is not among the sources.  ShotStats is the spec's
    [{shot_type, count: int >= 0, average_confidence: float in [0,1],
    average_speed_mps: float >= 0}] (section 3); the pages read exactly
    these four fields.  The count is the integer of the spec, the two
    averages are numbers. *)
Record ShotStats : Type := {
  shot_type : string;
  count : Z;
  average_confidence : JS.number;
  average_speed_mps : JS.number
}.

(** Modelled from the spec: an element of [PlayerHistoryResponse.sessions],
    the ordered ShotStats of one session id (SessionAggregate, section 3);
    the pages read its [shots]. *)
Record SessionStats : Type := {
  session_id : string;
  shots : list ShotStats
}.

(** Modelled from the spec: SensorSample, [{ax, ay, az, gx, gy, gz: float;
    t: float seconds}] (section 3), the object DevicePage.tsx builds. *)
Record SwingSamplePayload : Type := {
  ax : JS.number;
  ay : JS.number;
  az : JS.number;
  gx : JS.number;
  gy : JS.number;
  gz : JS.number;
  t : JS.number
}.

(** Modelled from the spec: ClassificationResult, [{shot_type, confidence,
    speed_mps, accuracy_score}] (section 3). *)
Record ClassificationResult : Type := {
  result_shot_type : string;
  confidence : JS.number;
  speed_mps : JS.number;
  accuracy_score : JS.number
}.

(** Modelled from the spec: the classification request, [{player_id,
    session_id, sampling_rate_hz: int, samples}] (section 6), the object
    DevicePage.tsx passes to [classifySwing]. *)
Record SwingRequest : Type := {
  player_id : string;
  request_session_id : string;
  sampling_rate_hz : Z;
  samples : list SwingSamplePayload
}.

End Api.

(** The length of an array in a condition: [0] is the one falsy length. *)
Definition truthy (n : Z) : bool := negb (n =? 0).

(* ================================================================== *)
(** ** The coaching texts

    ProfilePage.tsx and AnalyticsPage.tsx write the same template
    literals, character for character; [pct] stands for the rendered
    percentage and [shot] for [primaryShot.shot_type]. *)
(* ================================================================== *)

Module Text.

Definition getStarted : string :=
  "No swings recorded yet. Start a relaxed practice session on the dashboard and focus on smooth, consistent motion first.".

Definition amazingStart (pct shot : string) : string :=
  "Amazing start! Your overall accuracy is " ++ pct ++
  "%. Keep reinforcing your " ++ shot ++
  " and slowly add more advanced variations when you feel comfortable.".

Definition greatFoundation (shot : string) : string :=
  "Great foundation. You already have solid accuracy—keep polishing your " ++
  shot ++ " by focusing on smooth swings and a relaxed grip.".

Definition beginning (shot : string) : string :=
  "You are at the beginning of a strong journey. Start with controlled " ++
  shot ++
  " swings at lower speed and celebrate small improvements as your form gets more stable.".

Definition improvement (pct : string) : string :=
  "Nice improvement! Your average accuracy improved by " ++ pct ++
  "% compared to your last session. Whatever you changed is working—keep that routine and add a few fun challenges to push your stronger shots even further.".

Definition regression (pct shot : string) : string :=
  "Today was a slightly tougher session: accuracy was " ++ pct ++
  "% lower than last time, which is totally normal. Try a slower pace next time and focus on clean, repeatable " ++
  shot ++ " swings—your consistency will come back quickly.".

Definition stable (shot : string) : string :=
  "Your accuracy is stable compared to your last session—a good sign of consistency. For your next session, set a small goal: pick one shot (e.g. " ++
  shot ++
  ") and aim for a 5–10% accuracy boost while keeping your swing relaxed.".

End Text.

(* ================================================================== *)
(** ** ProfilePage.tsx *)
(* ================================================================== *)

Module ProfilePage.
Import Api.

Record Summary : Type := {
  avgAccuracy : JS.number;
  avgSpeed : JS.number
}.

(** One turn of the loop of [summarizeShots] over
    [(totalCount, sumAccuracy, sumSpeed)], three numbers. *)
Definition summarize_step (acc : JS.number * JS.number * JS.number)
  (s : ShotStats) : JS.number * JS.number * JS.number :=
  let '(totalCount, sumAccuracy, sumSpeed) := acc in
  (JS.add totalCount (JS.of_Z (count s)),
   JS.add sumAccuracy (JS.mul (average_confidence s) (JS.of_Z (count s))),
   JS.add sumSpeed (JS.mul (average_speed_mps s) (JS.of_Z (count s)))).

Definition summarizeShots (shots : list ShotStats) : Summary :=
  match shots with
  | [] => {| avgAccuracy := JS.zero; avgSpeed := JS.zero |}
  | _ =>
    let '(totalCount, sumAccuracy, sumSpeed) :=
      fold_left summarize_step shots (JS.zero, JS.zero, JS.zero) in
    {| avgAccuracy :=
         if JS.truthy totalCount then JS.div sumAccuracy totalCount
         else JS.zero;
       avgSpeed :=
         if JS.truthy totalCount then JS.div sumSpeed totalCount
         else JS.zero |}
  end.

Definition noSummary : Summary :=
  {| avgAccuracy := JS.zero; avgSpeed := JS.zero |}.

Inductive Level : Type := Amateur | Veteran | Pro.

Definition level_of (overallCount overallAccuracy : JS.number) : Level :=
  if JS.ge overallCount (JS.of_Z 400) && JS.ge overallAccuracy (JS.dec 8 10)
  then Pro
  else if JS.ge overallCount (JS.of_Z 200) &&
          JS.ge overallAccuracy (JS.dec 65 100)
  then Veteran
  else Amateur.

(** One turn of the inner loop of the career aggregate over
    [(overallCount, overallAccSum)], two numbers.  The same turn fills
    [perShotAggregate]: that part of the loop is [Career.aggregate_step]
    below.  Its statements read and write nothing of the two numbers
    here, and they complete whenever the shot types name no member of
    [Object.prototype]; after a shot type [__proto__] they write on
    [Object.prototype] itself and a later one can throw. *)
Definition overall_step (acc : JS.number * JS.number) (shot : ShotStats)
  : JS.number * JS.number :=
  let '(overallCount, overallAccSum) := acc in
  (JS.add overallCount (JS.of_Z (count shot)),
   JS.add overallAccSum
     (JS.mul (average_confidence shot) (JS.of_Z (count shot)))).

Section Component.

Variable numberToString : JS.number -> string.

(** [history?.sessions ?? []] *)
Variable sessions : list SessionStats.

Definition latest : option SessionStats :=
  JSArray.index sessions (Z.of_nat (List.length sessions) - 1).

Definition previous : option SessionStats :=
  if Z.of_nat (List.length sessions) >? 1
  then JSArray.index sessions (Z.of_nat (List.length sessions) - 2)
  else None.

Definition latestSummary : Summary :=
  match latest with
  | Some l => summarizeShots (shots l)
  | None => noSummary
  end.

Definition prevSummary : Summary :=
  match previous with
  | Some p => summarizeShots (shots p)
  | None => noSummary
  end.

Definition accuracyDelta : JS.number :=
  JS.sub (avgAccuracy latestSummary) (avgAccuracy prevSummary).

Definition speedDelta : JS.number :=
  JS.sub (avgSpeed latestSummary) (avgSpeed prevSummary).

Definition overallTotals : JS.number * JS.number :=
  fold_left
    (fun acc session => fold_left overall_step (shots session) acc)
    sessions (JS.zero, JS.zero).

Definition overallCount : JS.number := fst overallTotals.
Definition overallAccSum : JS.number := snd overallTotals.

Definition overallAccuracy : JS.number :=
  if JS.truthy overallCount then JS.div overallAccSum overallCount
  else JS.zero.

Definition level : Level := level_of overallCount overallAccuracy.

Definition renderDeltaLabel (delta : JS.number) (unit : string) : string :=
  match previous with
  | None => "no previous data"
  | Some _ =>
    let pct := JS.mul delta (JS.of_Z 100) in
    if JS.lt (JS.abs pct) (JS.dec 1 1000) then "no change in " ++ unit
    else if JS.gt delta JS.zero
    then JS.toFixed numberToString pct 1 ++ "% increase in " ++ unit
    else JS.toFixed numberToString (JS.neg pct) 1 ++ "% decrease in " ++ unit
  end.

(** [(a, b) => b.count - a.count] *)
Definition byCountDescending (a b : ShotStats) : Z := count b - count a.

Definition renderAIFeedback : string :=
  match latest with
  | None => Text.getStarted
  | Some l =>
    match shots l with
    | [] => Text.getStarted
    | first :: _ =>
      (* element 0 of the sorted copy of a non-empty array *)
      let primaryShot := hd first (JSArray.sort byCountDescending (shots l)) in
      let accPct := JS.mul (avgAccuracy latestSummary) (JS.of_Z 100) in
      match previous with
      | None =>
        if JS.ge accPct (JS.of_Z 90)
        then Text.amazingStart (JS.toFixed numberToString accPct 1)
               (shot_type primaryShot)
        else if JS.ge accPct (JS.of_Z 75)
        then Text.greatFoundation (shot_type primaryShot)
        else Text.beginning (shot_type primaryShot)
      | Some _ =>
        if JS.gt accuracyDelta (JS.dec 2 100)
        then Text.improvement
               (JS.toFixed numberToString
                  (JS.mul accuracyDelta (JS.of_Z 100)) 1)
        else if JS.lt accuracyDelta (JS.neg (JS.dec 2 100))
        then Text.regression
               (JS.toFixed numberToString
                  (JS.mul (JS.neg accuracyDelta) (JS.of_Z 100)) 1)
               (shot_type primaryShot)
        else Text.stable (shot_type primaryShot)
      end
    end
  end.

End Component.

End ProfilePage.

(* ================================================================== *)
(** ** AnalyticsPage.tsx

    The page repeats the engine code of ProfilePage.tsx. *)
(* ================================================================== *)

Module AnalyticsPage.
Import Api.

Record Summary : Type := {
  avgAccuracy : JS.number;
  avgSpeed : JS.number
}.

Definition summarize_step (acc : JS.number * JS.number * JS.number)
  (s : ShotStats) : JS.number * JS.number * JS.number :=
  let '(totalCount, sumAccuracy, sumSpeed) := acc in
  (JS.add totalCount (JS.of_Z (count s)),
   JS.add sumAccuracy (JS.mul (average_confidence s) (JS.of_Z (count s))),
   JS.add sumSpeed (JS.mul (average_speed_mps s) (JS.of_Z (count s)))).

Definition summarizeShots (shots : list ShotStats) : Summary :=
  match shots with
  | [] => {| avgAccuracy := JS.zero; avgSpeed := JS.zero |}
  | _ =>
    let '(totalCount, sumAccuracy, sumSpeed) :=
      fold_left summarize_step shots (JS.zero, JS.zero, JS.zero) in
    {| avgAccuracy :=
         if JS.truthy totalCount then JS.div sumAccuracy totalCount
         else JS.zero;
       avgSpeed :=
         if JS.truthy totalCount then JS.div sumSpeed totalCount
         else JS.zero |}
  end.

Definition noSummary : Summary :=
  {| avgAccuracy := JS.zero; avgSpeed := JS.zero |}.

Definition overall_step (acc : JS.number * JS.number) (shot : ShotStats)
  : JS.number * JS.number :=
  let '(overallCount, overallAccSum) := acc in
  (JS.add overallCount (JS.of_Z (count shot)),
   JS.add overallAccSum
     (JS.mul (average_confidence shot) (JS.of_Z (count shot)))).

Definition byCountDescending (a b : ShotStats) : Z := count b - count a.

Section Component.

Variable numberToString : JS.number -> string.
Variable sessions : list SessionStats.

Definition latest : option SessionStats :=
  JSArray.index sessions (Z.of_nat (List.length sessions) - 1).

Definition previous : option SessionStats :=
  if Z.of_nat (List.length sessions) >? 1
  then JSArray.index sessions (Z.of_nat (List.length sessions) - 2)
  else None.

Definition latestSummary : Summary :=
  match latest with
  | Some l => summarizeShots (shots l)
  | None => noSummary
  end.

Definition prevSummary : Summary :=
  match previous with
  | Some p => summarizeShots (shots p)
  | None => noSummary
  end.

Definition accuracyDelta : JS.number :=
  JS.sub (avgAccuracy latestSummary) (avgAccuracy prevSummary).

Definition speedDelta : JS.number :=
  JS.sub (avgSpeed latestSummary) (avgSpeed prevSummary).

Definition overallTotals : JS.number * JS.number :=
  fold_left
    (fun acc session => fold_left overall_step (shots session) acc)
    sessions (JS.zero, JS.zero).

Definition overallCount : JS.number := fst overallTotals.
Definition overallAccSum : JS.number := snd overallTotals.

Definition overallAccuracy : JS.number :=
  if JS.truthy overallCount then JS.div overallAccSum overallCount
  else JS.zero.

Definition renderDeltaLabel (delta : JS.number) (unit : string) : string :=
  match previous with
  | None => "no previous data"
  | Some _ =>
    let pct := JS.mul delta (JS.of_Z 100) in
    if JS.lt (JS.abs pct) (JS.dec 1 1000) then "no change in " ++ unit
    else if JS.gt delta JS.zero
    then JS.toFixed numberToString pct 1 ++ "% increase in " ++ unit
    else JS.toFixed numberToString (JS.neg pct) 1 ++ "% decrease in " ++ unit
  end.

Definition renderAIFeedback : string :=
  match latest with
  | None => Text.getStarted
  | Some l =>
    match shots l with
    | [] => Text.getStarted
    | first :: _ =>
      let primaryShot := hd first (JSArray.sort byCountDescending (shots l)) in
      let accPct := JS.mul (avgAccuracy latestSummary) (JS.of_Z 100) in
      match previous with
      | None =>
        if JS.ge accPct (JS.of_Z 90)
        then Text.amazingStart (JS.toFixed numberToString accPct 1)
               (shot_type primaryShot)
        else if JS.ge accPct (JS.of_Z 75)
        then Text.greatFoundation (shot_type primaryShot)
        else Text.beginning (shot_type primaryShot)
      | Some _ =>
        if JS.gt accuracyDelta (JS.dec 2 100)
        then Text.improvement
               (JS.toFixed numberToString
                  (JS.mul accuracyDelta (JS.of_Z 100)) 1)
        else if JS.lt accuracyDelta (JS.neg (JS.dec 2 100))
        then Text.regression
               (JS.toFixed numberToString
                  (JS.mul (JS.neg accuracyDelta) (JS.of_Z 100)) 1)
               (shot_type primaryShot)
        else Text.stable (shot_type primaryShot)
      end
    end
  end.

End Component.

End AnalyticsPage.

(* ================================================================== *)
(** ** DashboardPage.tsx: the session totals *)
(* ================================================================== *)

Module DashboardPage.
Import Api.

(** One turn of the loop over [shotStatsList], on
    [(totalSwings, accWeightedSum, primaryShot)]. *)
Definition totals_step (acc : JS.number * JS.number * option ShotStats)
  (stat : ShotStats) : JS.number * JS.number * option ShotStats :=
  let '(totalSwings, accWeightedSum, primaryShot) := acc in
  (JS.add totalSwings (JS.of_Z (count stat)),
   JS.add accWeightedSum
     (JS.mul (average_confidence stat) (JS.of_Z (count stat))),
   match primaryShot with
   | None => Some stat
   | Some p => if count stat >? count p then Some stat else Some p
   end).

Section Component.

(** [Object.values(shotStatsByType)] *)
Variable shotStatsList : list ShotStats.

Definition totals : JS.number * JS.number * option ShotStats :=
  fold_left totals_step shotStatsList (JS.zero, JS.zero, None).

Definition totalSwings : JS.number := fst (fst totals).
Definition accWeightedSum : JS.number := snd (fst totals).
Definition primaryShot : option ShotStats := snd totals.

Definition overallAccuracy : JS.number :=
  if JS.truthy totalSwings then JS.div accWeightedSum totalSwings
  else JS.zero.

End Component.

End DashboardPage.

(* ================================================================== *)
(** ** DataView *)
(* ================================================================== *)

Module DataView.

(** A call that returns normally or throws. *)
Inductive completion (A : Type) : Type :=
| Normal (value : A)
| Throw (error : string).
Arguments Normal {A} value.
Arguments Throw {A} error.

Definition bind {A B : Type} (c : completion A) (k : A -> completion B)
  : completion B :=
  match c with
  | Normal a => k a
  | Throw e => Throw e
  end.

Definition view : Type := list Byte.byte.

Definition byteLength (v : view) : nat := List.length v.

Definition byte_at (v : view) (i : nat) : option Z :=
  option_map (fun b => Z.of_N (Byte.to_N b)) (nth_error v i).

(** The binary32 value of a 32-bit word, as the double that equals it. *)
Definition float32_of_bits (w : Z) : JS.number :=
  let s := Z.testbit w 31 in
  let e := Z.land (Z.shiftr w 23) 255 in
  let m := Z.land w (2 ^ 23 - 1) in
  if e =? 255 then (if m =? 0 then S754_infinity s else S754_nan)
  else if e =? 0
  then binary_normalize JS.prec JS.emax (cond_Zopp s m) (-149) s
  else binary_normalize JS.prec JS.emax (cond_Zopp s (m + 2 ^ 23)) (e - 150) s.

(** [v.getFloat32(byteOffset, true)]: the four bytes from [byteOffset],
    least significant first; a RangeError when they pass the end. *)
Definition getFloat32 (v : view) (byteOffset : nat)
  : completion JS.number :=
  match byte_at v byteOffset, byte_at v (byteOffset + 1),
        byte_at v (byteOffset + 2), byte_at v (byteOffset + 3) with
  | Some b0, Some b1, Some b2, Some b3 =>
    Normal (float32_of_bits
              (b0 + Z.shiftl b1 8 + Z.shiftl b2 16 + Z.shiftl b3 24))
  | _, _, _, _ => Throw "RangeError"
  end.

End DataView.

Notation "x <- c ;; k" := (DataView.bind c (fun x => k))
  (at level 61, c at next level, right associativity).

(* ================================================================== *)
(** ** DevicePage.tsx *)
(* ================================================================== *)

Module DevicePage.
Import Api DataView.

Definition DEFAULT_PLAYER_ID : string := "practice_player".
Definition DEFAULT_SESSION_ID : string := "device_session".

(** The component's refs and state. *)
Record State : Type := {
  samplesRef : list SwingSamplePayload;
  startTimeRef : option JS.number;
  deviceRef : option string;
  supported : bool;
  connecting : bool;
  connected : bool;
  deviceName : string;
  error : option string;
  sending : bool;
  lastSample : option SwingSamplePayload;
  lastResult : option ClassificationResult
}.

Definition initial (hasBluetooth : bool) : State :=
  {| samplesRef := []; startTimeRef := None; deviceRef := None;
     supported := hasBluetooth; connecting := false; connected := false;
     deviceName := ""; error := None; sending := false;
     lastSample := None; lastResult := None |}.

(** [(now - startTimeRef.current) / 1000.0] *)
Definition stamp (start now : JS.number) : JS.number :=
  JS.div (JS.sub now start) (JS.of_Z 1000).

(** [now] is the reading of [performance.now()]. *)
Definition addSampleFromNotification (value : DataView.view) (now : JS.number)
  (st : State) : completion State :=
  if (byteLength value <? 24)%nat then Normal st
  else
    ax <- getFloat32 value 0 ;;
    ay <- getFloat32 value 4 ;;
    az <- getFloat32 value 8 ;;
    gx <- getFloat32 value 12 ;;
    gy <- getFloat32 value 16 ;;
    gz <- getFloat32 value 20 ;;
    let '(start, kept) :=
      match startTimeRef st with
      | None => (now, [])
      | Some start => (start, samplesRef st)
      end in
    let sample :=
      {| ax := ax; ay := ay; az := az; gx := gx; gy := gy; gz := gz;
         t := stamp start now |} in
    let pushed := (kept ++ [sample])%list in
    Normal
      {| samplesRef :=
           if (400 <? List.length pushed)%nat
           then JSArray.slice_last 400 pushed else pushed;
         startTimeRef := Some start;
         deviceRef := deviceRef st;
         supported := supported st;
         connecting := connecting st;
         connected := connected st;
         deviceName := deviceName st;
         error := error st;
         sending := sending st;
         lastSample := Some sample;
         lastResult := lastResult st |}.

(** The listener of 'characteristicvaluechanged'; an exception it let
    escape would leave the component as it was. *)
Definition onValueChanged (value : option DataView.view) (now : JS.number)
  (st : State) : State :=
  match value with
  | None => st
  | Some v =>
    match addSampleFromNotification v now st with
    | Normal st' => st'
    | Throw _ => st
    end
  end.

(** How the Web Bluetooth calls of one [handleConnect] end: the link is
    set up, or one of them throws, before or after [requestDevice] gave a
    device.  [handleConnect] below is the handler from its first statement
    to its last with nothing running in between; what other handlers do
    between its awaits, and the listener it adds, are in [DeviceSession]. *)
Inductive Attempt : Type :=
| Linked (name : option string)
| Failed (requested : option (option string)) (message : option string).

(** [x || fallback] on a possibly missing string. *)
Definition orElse (x : option string) (fallback : string) : string :=
  match x with
  | Some "" | None => fallback
  | Some m => m
  end.

Definition handleConnect (attempt : Attempt) (st : State) : State :=
  if negb (supported st) then st
  else
    match attempt with
    | Linked name =>
      {| samplesRef := samplesRef st;
         startTimeRef := startTimeRef st;
         deviceRef := Some (match name with Some n => n | None => "" end);
         supported := supported st;
         connecting := false;
         connected := true;
         deviceName :=
           match name with Some n => n | None => "Unknown device" end;
         error := None;
         sending := sending st;
         lastSample := lastSample st;
         lastResult := None |}
    | Failed requested message =>
      {| samplesRef := samplesRef st;
         startTimeRef := startTimeRef st;
         deviceRef := None;
         supported := supported st;
         connecting := false;
         connected := false;
         deviceName :=
           match requested with
           | Some (Some n) => n
           | Some None => "Unknown device"
           | None => deviceName st
           end;
         error := Some (orElse message "Failed to connect to device.");
         sending := sending st;
         lastSample := lastSample st;
         lastResult := None |}
    end.

Definition handleDisconnect (st : State) : State :=
  {| samplesRef := samplesRef st;
     startTimeRef := startTimeRef st;
     deviceRef := None;
     supported := supported st;
     connecting := connecting st;
     connected := false;
     deviceName := deviceName st;
     error := error st;
     sending := sending st;
     lastSample := lastSample st;
     lastResult := lastResult st |}.

Definition noSamplesMessage : string :=
  "No samples captured yet from the device. Move the bat to generate data.".

(** [handleSendSwing] up to its [await]: the new state and the request
    handed to [classifySwing], if any. *)
Definition handleSendSwing (st : State) : State * option SwingRequest :=
  if negb (truthy (Z.of_nat (List.length (samplesRef st))))
  then
    ({| samplesRef := samplesRef st;
        startTimeRef := startTimeRef st;
        deviceRef := deviceRef st;
        supported := supported st;
        connecting := connecting st;
        connected := connected st;
        deviceName := deviceName st;
        error := Some noSamplesMessage;
        sending := sending st;
        lastSample := lastSample st;
        lastResult := lastResult st |},
     None)
  else
    ({| samplesRef := samplesRef st;
        startTimeRef := startTimeRef st;
        deviceRef := deviceRef st;
        supported := supported st;
        connecting := connecting st;
        connected := connected st;
        deviceName := deviceName st;
        error := None;
        sending := true;
        lastSample := lastSample st;
        lastResult := None |},
     Some {| player_id := DEFAULT_PLAYER_ID;
             request_session_id := DEFAULT_SESSION_ID;
             sampling_rate_hz := 100;
             samples := JSArray.slice_last 100 (samplesRef st) |}).

(** [handleSendSwing] after its [await]. *)
Definition classifySettled (outcome : ClassificationResult + option string)
  (st : State) : State :=
  {| samplesRef := samplesRef st;
     startTimeRef := startTimeRef st;
     deviceRef := deviceRef st;
     supported := supported st;
     connecting := connecting st;
     connected := connected st;
     deviceName := deviceName st;
     error :=
       match outcome with
       | inl _ => error st
       | inr message =>
         Some (orElse message "Failed to classify swing from device data.")
       end;
     sending := false;
     lastSample := lastSample st;
     lastResult :=
       match outcome with
       | inl result => Some result
       | inr _ => lastResult st
       end |}.

(** What happens to the mounted component, one event at a time.
    [ValueChanged] is one call of a 'characteristicvaluechanged'
    listener. *)
Inductive Event : Type :=
| ValueChanged (value : option DataView.view) (now : JS.number)
| Connect (attempt : Attempt)
| Disconnect
| SendSwing
| ClassifySettled (outcome : ClassificationResult + option string).

Definition step (st : State) (e : Event) : State :=
  match e with
  | ValueChanged value now => onValueChanged value now st
  | Connect attempt => handleConnect attempt st
  | Disconnect => handleDisconnect st
  | SendSwing => fst (handleSendSwing st)
  | ClassifySettled outcome => classifySettled outcome st
  end.

Definition run (events : list Event) (st : State) : State :=
  fold_left step events st.

End DevicePage.

(* ================================================================== *)
(** ** The aggregates as the specification words them *)
(* ================================================================== *)

Module Spec.
Import Api.

(** The sum of the counts. *)
Definition totalCount (shots : list ShotStats) : Z :=
  fold_right Z.add 0 (map count shots).

(** The sum over the shot types of [value * count], the terms added in
    the order of the list. *)
Definition weightedSum (value : ShotStats -> JS.number)
  (shots : list ShotStats) : JS.number :=
  fold_left JS.add
    (map (fun s => JS.mul (value s) (JS.of_Z (count s))) shots) JS.zero.

(** The count-weighted mean, [0] when the total count is [0]. *)
Definition weightedMean (value : ShotStats -> JS.number)
  (shots : list ShotStats) : JS.number :=
  if totalCount shots =? 0 then JS.zero
  else JS.div (weightedSum value shots) (JS.of_Z (totalCount shots)).

(** The mean of the per-shot-type averages, each counted once. *)
Definition unweightedMean (value : ShotStats -> JS.number)
  (shots : list ShotStats) : JS.number :=
  JS.div (fold_left JS.add (map value shots) JS.zero)
    (JS.of_Z (Z.of_nat (List.length shots))).

(** All the shot entries of a history, session after session. *)
Definition allShots (sessions : list SessionStats) : list ShotStats :=
  List.concat (map shots sessions).

(** [p] is the entry of [shots] with the highest count, the first such
    entry when several share it. *)
Definition dominant (shots : list ShotStats) (p : ShotStats) : Prop :=
  exists before after,
    shots = (before ++ p :: after)%list /\
    Forall (fun q => count q < count p) before /\
    Forall (fun q => count q <= count p) after.

End Spec.

(* ================================================================== *)
(** ** Frame decoder and capture buffer, as the specification words them *)
(* ================================================================== *)

Module DeviceSpec.
Import Api DataView DevicePage.

(** Byte [i] of a frame, [0] past its end. *)
Definition byte (v : DataView.view) (i : nat) : Z :=
  match byte_at v i with
  | Some b => b
  | None => 0
  end.

(** The little-endian 32-bit float at byte offset [off]. *)
Definition reading (v : DataView.view) (off : nat) : JS.number :=
  float32_of_bits
    (byte v off + Z.shiftl (byte v (off + 1)) 8 +
     Z.shiftl (byte v (off + 2)) 16 + Z.shiftl (byte v (off + 3)) 24).

(** The sample of a frame: the readings at offsets 0, 4, ..., 20 in the
    order ax, ay, az, gx, gy, gz, with the given time stamp. *)
Definition decoded (v : DataView.view) (stampOf : JS.number)
  : SwingSamplePayload :=
  {| ax := reading v 0; ay := reading v 4; az := reading v 8;
     gx := reading v 12; gy := reading v 16; gz := reading v 20;
     t := stampOf |}.

(** A frame the decoder accepts. *)
Definition accepted (v : DataView.view) : Prop := (24 <= byteLength v)%nat.

(** The start of the epoch a frame arriving at [now] belongs to, and the
    samples kept from before it. *)
Definition epochStart (st : State) (now : JS.number) : JS.number :=
  match startTimeRef st with
  | None => now
  | Some start => start
  end.

Definition kept (st : State) : list SwingSamplePayload :=
  match startTimeRef st with
  | None => []
  | Some _ => samplesRef st
  end.

(** The samples of a run of frames in an epoch started at [start]. *)
Definition decodedAll (start : JS.number)
  (frames : list (DataView.view * JS.number)) : list SwingSamplePayload :=
  map (fun f => decoded (fst f) (stamp start (snd f))) frames.

Definition frameEvents (frames : list (DataView.view * JS.number))
  : list Event :=
  map (fun f => ValueChanged (Some (fst f)) (snd f)) frames.

(** The 24 bytes that encode (1.0, 2.0, 3.0, 4.0, 5.0, 6.0). *)
Definition oneToSix : DataView.view :=
  [ Byte.x00; Byte.x00; Byte.x80; Byte.x3f;
    Byte.x00; Byte.x00; Byte.x00; Byte.x40;
    Byte.x00; Byte.x00; Byte.x40; Byte.x40;
    Byte.x00; Byte.x00; Byte.x80; Byte.x40;
    Byte.x00; Byte.x00; Byte.xa0; Byte.x40;
    Byte.x00; Byte.x00; Byte.xc0; Byte.x40 ].

(** A frame of 24 bytes whose first byte is [b]. *)
Definition frameOf (b : Byte.byte) : DataView.view :=
  b :: List.tl oneToSix.

(** [k] frames, one every 10 ms from time 1000. *)
Fixpoint frameStream (k : nat) : list (DataView.view * JS.number) :=
  match k with
  | O => []
  | S k' =>
    (frameStream k' ++
     [ (frameOf (match Byte.of_N (N.of_nat (k' mod 256)) with
                 | Some b => b
                 | None => Byte.x00
                 end),
        JS.of_Z (1000 + 10 * Z.of_nat k')) ])%list
  end.

End DeviceSpec.

(* ================================================================== *)
(** ** Worked inputs *)
(* ================================================================== *)

Module Inputs.
Import Api.

(** A host whose Number::toString is never consulted. *)
Definition noToString (_ : JS.number) : string := "".

Definition entry (name : string) (n : Z) (accuracy : JS.number) : ShotStats :=
  {| shot_type := name; count := n;
     average_confidence := accuracy; average_speed_mps := JS.of_Z 10 |}.

Definition session (id : string) (entries : list ShotStats) : SessionStats :=
  {| session_id := id; shots := entries |}.

(** A previous session at accuracy 0.80 and a latest one at 0.85. *)
Definition from80to85 : list SessionStats :=
  [ session "s1" [entry "Forehand" 1 (JS.dec 80 100)];
    session "s2" [entry "Forehand" 1 (JS.dec 85 100)] ].

(** A first session at accuracy 0.92, Forehand and Smash level on count. *)
Definition firstAt92 : list SessionStats :=
  [ session "s1" [entry "Push" 3 (JS.dec 92 100);
                  entry "Forehand" 5 (JS.dec 92 100);
                  entry "Smash" 5 (JS.dec 92 100)] ].

(** A second session 0.05 below the first. *)
Definition from80to75 : list SessionStats :=
  [ session "s1" [entry "Forehand" 4 (JS.dec 80 100)];
    session "s2" [entry "Block" 2 (JS.dec 75 100);
                  entry "Smash" 6 (JS.dec 75 100)] ].

(** Sessions whose accuracies differ by the double 0.02 exactly. *)
Definition from0to002 : list SessionStats :=
  [ session "s1" [entry "Serve" 1 JS.zero];
    session "s2" [entry "Serve" 1 (JS.dec 2 100)] ].

Definition from002to0 : list SessionStats :=
  [ session "s1" [entry "Serve" 1 (JS.dec 2 100)];
    session "s2" [entry "Serve" 1 JS.zero] ].

(** Two shot types with unequal sample counts: one perfect swing of one,
    three missed swings of the other. *)
Definition unequalCounts : list ShotStats :=
  [ {| shot_type := "Smash"; count := 1;
       average_confidence := JS.of_Z 1; average_speed_mps := JS.of_Z 10 |};
    {| shot_type := "Push"; count := 3;
       average_confidence := JS.zero; average_speed_mps := JS.of_Z 20 |} ].

(** A session whose only entry has no swing and a missing average. *)
Definition emptyEntry : ShotStats :=
  {| shot_type := "Chop"; count := 0;
     average_confidence := JS.NaN; average_speed_mps := JS.NaN |}.

(** 450 frames: the 24 bytes of (1.0, ..., 6.0) at time 0, then again at
    times 10, 20, ..., 4490. *)
Definition frames450 : list (DataView.view * JS.number) :=
  map (fun k => (DeviceSpec.oneToSix, JS.of_Z (10 * Z.of_nat k))) (seq 1 449).

End Inputs.

Import Inputs.

(* ================================================================== *)
(** ** DevicePage.tsx: the frames of an event sequence *)
(* ================================================================== *)

Module DeviceTrace.
Import Api DataView DevicePage.

(** The notifications among the events that the decoder accepts (those of
    at least 24 bytes), in arrival order, each with its clock reading. *)
Fixpoint acceptedFrames (events : list Event)
  : list (DataView.view * JS.number) :=
  match events with
  | [] => []
  | ValueChanged (Some v) now :: rest =>
    if (byteLength v <? 24)%nat then acceptedFrames rest
    else (v, now) :: acceptedFrames rest
  | _ :: rest => acceptedFrames rest
  end.

(** The newest element of an array. *)
Definition newest {A : Type} (a : list A) : option A :=
  JSArray.index a (Z.of_nat (List.length a) - 1).

End DeviceTrace.

(* ================================================================== *)
(** ** DevicePage.tsx: the handlers between their awaits *)
(* ================================================================== *)

Module DeviceSession.
Import Api DataView DevicePage.

(** The mounted component with the 'characteristicvaluechanged'
    listeners its [handleConnect] calls have added so far: one entry per
    [addEventListener], naming the characteristic object it was added to.
    Every call adds a new closure and none is ever removed. *)
Record Page : Type := {
  component : State;
  listeners : list nat
}.

Definition mounted (hasBluetooth : bool) : Page :=
  {| component := initial hasBluetooth; listeners := [] |}.

(** [handleConnect] up to [await requestDevice(...)]. *)
Definition connectClicked (st : State) : State :=
  if negb (supported st) then st
  else
    {| samplesRef := samplesRef st;
       startTimeRef := startTimeRef st;
       deviceRef := deviceRef st;
       supported := supported st;
       connecting := true;
       connected := connected st;
       deviceName := deviceName st;
       error := None;
       sending := sending st;
       lastSample := lastSample st;
       lastResult := None |}.

(** [requestDevice] has given a device: the two statements before
    [await device.gatt?.connect()]. *)
Definition deviceChosen (name : option string) (st : State) : State :=
  {| samplesRef := samplesRef st;
     startTimeRef := startTimeRef st;
     deviceRef := Some (match name with Some n => n | None => "" end);
     supported := supported st;
     connecting := connecting st;
     connected := connected st;
     deviceName := match name with Some n => n | None => "Unknown device" end;
     error := error st;
     sending := sending st;
     lastSample := lastSample st;
     lastResult := lastResult st |}.

(** [startNotifications] has resolved: the rest of the [try] block and
    the [finally] block.  The listener is added in [step]. *)
Definition connectDone (st : State) : State :=
  {| samplesRef := samplesRef st;
     startTimeRef := startTimeRef st;
     deviceRef := deviceRef st;
     supported := supported st;
     connecting := false;
     connected := true;
     deviceName := deviceName st;
     error := error st;
     sending := sending st;
     lastSample := lastSample st;
     lastResult := lastResult st |}.

(** One of the awaited calls has thrown: the [catch] and the [finally]
    block. *)
Definition connectFailed (message : option string) (st : State) : State :=
  {| samplesRef := samplesRef st;
     startTimeRef := startTimeRef st;
     deviceRef := None;
     supported := supported st;
     connecting := false;
     connected := false;
     deviceName := deviceName st;
     error := Some (orElse message "Failed to connect to device.");
     sending := sending st;
     lastSample := lastSample st;
     lastResult := lastResult st |}.

(** What happens to the mounted page, one turn of the event loop at a
    time.  [DisconnectClicked] is [handleDisconnect] up to its [await],
    which changes nothing; [DisconnectSettled] is its [finally] block,
    which follows at once when nothing is awaited.  In a
    [Notification], [clock i] is the reading of [performance.now()] in
    the i-th listener called. *)
Inductive Event : Type :=
| Notification (characteristic : nat) (value : option DataView.view)
    (clock : nat -> JS.number)
| ConnectClicked
| DeviceChosen (name : option string)
| ConnectDone (characteristic : nat)
| ConnectFailed (message : option string)
| DisconnectClicked
| DisconnectSettled
| SendSwing
| ClassifySettled (outcome : ClassificationResult + option string).

(** The listener calls of one notification: one for each listener added
    to its characteristic, in the order they were added. *)
Definition calls (added : list nat) (characteristic : nat)
  (value : option DataView.view) (clock : nat -> JS.number)
  : list DevicePage.Event :=
  map (fun i => ValueChanged value (clock i))
    (seq 0 (count_occ Nat.eq_dec added characteristic)).

Definition step (p : Page) (e : Event) : Page :=
  match e with
  | Notification characteristic value clock =>
    {| component :=
         DevicePage.run (calls (listeners p) characteristic value clock)
           (component p);
       listeners := listeners p |}
  | ConnectClicked =>
    {| component := connectClicked (component p);
       listeners := listeners p |}
  | DeviceChosen name =>
    {| component := deviceChosen name (component p);
       listeners := listeners p |}
  | ConnectDone characteristic =>
    {| component := connectDone (component p);
       listeners := (listeners p ++ [characteristic])%list |}
  | ConnectFailed message =>
    {| component := connectFailed message (component p);
       listeners := listeners p |}
  | DisconnectClicked => p
  | DisconnectSettled =>
    {| component := handleDisconnect (component p);
       listeners := listeners p |}
  | SendSwing =>
    {| component := fst (handleSendSwing (component p));
       listeners := listeners p |}
  | ClassifySettled outcome =>
    {| component := classifySettled outcome (component p);
       listeners := listeners p |}
  end.

Definition run (events : list Event) (p : Page) : Page :=
  fold_left step events p.

(** The listener calls of an event sequence, in order, starting with the
    listeners [added]. *)
Fixpoint listenerCalls (added : list nat) (events : list Event)
  : list DevicePage.Event :=
  match events with
  | [] => []
  | Notification characteristic value clock :: rest =>
    (calls added characteristic value clock ++ listenerCalls added rest)%list
  | ConnectDone characteristic :: rest =>
    listenerCalls (added ++ [characteristic]) rest
  | _ :: rest => listenerCalls added rest
  end.

(** The events of one [handleConnect] that runs undisturbed. *)
Definition attemptEvents (characteristic : nat) (attempt : Attempt)
  : list Event :=
  match attempt with
  | Linked name =>
    [ConnectClicked; DeviceChosen name; ConnectDone characteristic]
  | Failed (Some name) message =>
    [ConnectClicked; DeviceChosen name; ConnectFailed message]
  | Failed None message => [ConnectClicked; ConnectFailed message]
  end.

(** The handler calls that wait at an [await]. *)
Inductive Stage : Type := Idle | Requesting | Linking.

Record Pending : Type := {
  connectStage : Stage;
  disconnects : nat;
  classifications : nat
}.

Definition nonePending : Pending :=
  {| connectStage := Idle; disconnects := 0; classifications := 0 |}.

(** Whether an event can happen: a click needs its button rendered and
    enabled ([disabled={connecting || !supported}], [{connected && ...}],
    [disabled={sending || !connected}]), a continuation needs a handler
    waiting for it. *)
Definition possible (w : Pending) (st : State) (e : Event) : bool :=
  match e with
  | Notification _ _ _ => true
  | ConnectClicked => negb (connecting st || negb (supported st))
  | DeviceChosen _ =>
    match connectStage w with Requesting => true | _ => false end
  | ConnectDone _ =>
    match connectStage w with Linking => true | _ => false end
  | ConnectFailed _ =>
    match connectStage w with Idle => false | _ => true end
  | DisconnectClicked => connected st
  | DisconnectSettled => (0 <? disconnects w)%nat
  | SendSwing => negb (sending st || negb (connected st))
  | ClassifySettled _ => (0 <? classifications w)%nat
  end.

Definition await (w : Pending) (st : State) (e : Event) : Pending :=
  match e with
  | Notification _ _ _ => w
  | ConnectClicked =>
    {| connectStage := Requesting;
       disconnects := disconnects w;
       classifications := classifications w |}
  | DeviceChosen _ =>
    {| connectStage := Linking;
       disconnects := disconnects w;
       classifications := classifications w |}
  | ConnectDone _ | ConnectFailed _ =>
    {| connectStage := Idle;
       disconnects := disconnects w;
       classifications := classifications w |}
  | DisconnectClicked =>
    {| connectStage := connectStage w;
       disconnects := S (disconnects w);
       classifications := classifications w |}
  | DisconnectSettled =>
    {| connectStage := connectStage w;
       disconnects := Nat.pred (disconnects w);
       classifications := classifications w |}
  | SendSwing =>
    {| connectStage := connectStage w;
       disconnects := disconnects w;
       classifications :=
         match snd (handleSendSwing st) with
         | Some _ => S (classifications w)
         | None => classifications w
         end |}
  | ClassifySettled _ =>
    {| connectStage := connectStage w;
       disconnects := disconnects w;
       classifications := Nat.pred (classifications w) |}
  end.

(** Whether the events can happen in this order on the page [p] with the
    handlers [w] waiting. *)
Fixpoint canHappen (events : list Event) (w : Pending) (p : Page) : bool :=
  match events with
  | [] => true
  | e :: rest =>
    possible w (component p) e &&
    canHappen rest (await w (component p) e) (step p e)
  end.

End DeviceSession.

(* ================================================================== *)
(** ** Objects used as dictionaries *)
(* ================================================================== *)

Module JSObject.

(** The string-keyed own properties of an object created by [{}], in
    creation order. *)
Definition object (V : Type) : Type := list (string * V).

(** The names of the members of [Object.prototype], which every such
    object inherits. *)
Definition prototypeNames : list string :=
  ["constructor"; "__defineGetter__"; "__defineSetter__"; "hasOwnProperty";
   "__lookupGetter__"; "__lookupSetter__"; "isPrototypeOf";
   "propertyIsEnumerable"; "toString"; "valueOf"; "__proto__";
   "toLocaleString"].

Definition inherited (k : string) : bool :=
  existsb (String.eqb k) prototypeNames.

Section WithValues.
Context {V : Type}.

Definition empty : object V := [].

(** The own property [k] of [o], which is what [o[k]] reads when [k] is
    not an inherited name. *)
Fixpoint get (o : object V) (k : string) : option V :=
  match o with
  | [] => None
  | (k', v) :: rest => if String.eqb k' k then Some v else get rest k
  end.

(** Writing the own property [k]: an existing key keeps its place, a new
    one goes last. *)
Fixpoint set (o : object V) (k : string) (v : V) : object V :=
  match o with
  | [] => [(k, v)]
  | (k', v') :: rest =>
    if String.eqb k' k then (k', v) :: rest else (k', v') :: set rest k v
  end.

(** [o[k] = v] for an object [v]: every inherited member but one is a
    writable data property, so the assignment writes the own property;
    [__proto__] is an accessor whose setter replaces the prototype of [o]
    and leaves its own properties as they are. *)
Definition assign (o : object V) (k : string) (v : V) : object V :=
  if String.eqb k "__proto__" then o else set o k v.

(** The value of a string of decimal digits, if it is one. *)
Fixpoint digitsValue (s : string) (acc : N) : option N :=
  match s with
  | EmptyString => Some acc
  | String c rest =>
    let n := N_of_ascii c in
    if ((48 <=? n) && (n <=? 57))%N
    then digitsValue rest (10 * acc + (n - 48))%N
    else None
  end.

(** An array index: the canonical decimal form of an integer in
    [0, 2^32 - 2]. *)
Definition arrayIndex (k : string) : option N :=
  match k with
  | EmptyString => None
  | String c rest =>
    if (N_of_ascii c =? 48)%N
    then match rest with EmptyString => Some 0%N | _ => None end
    else
      match digitsValue k 0 with
      | Some n => if (n <? 2 ^ 32 - 1)%N then Some n else None
      | None => None
      end
  end.

Definition isArrayIndex (k : string) : bool :=
  match arrayIndex k with
  | Some _ => true
  | None => false
  end.

Fixpoint insertByIndex (x : N * (string * V))
  (sorted : list (N * (string * V))) : list (N * (string * V)) :=
  match sorted with
  | [] => [x]
  | y :: rest =>
    if (fst x <=? fst y)%N then x :: sorted else y :: insertByIndex x rest
  end.

Fixpoint indexed (o : object V) : list (N * (string * V)) :=
  match o with
  | [] => []
  | (k, v) :: rest =>
    match arrayIndex k with
    | Some n => insertByIndex (n, (k, v)) (indexed rest)
    | None => indexed rest
    end
  end.

(** [Object.entries(o)]: the array indices in ascending numeric order,
    then the other keys in creation order. *)
Definition entries (o : object V) : list (string * V) :=
  (map snd (indexed o) ++
   filter (fun p => negb (isArrayIndex (fst p))) o)%list.

(** [Object.values(o)] *)
Definition values (o : object V) : list V := map snd (entries o).

End WithValues.

End JSObject.

(* ================================================================== *)
(** ** DashboardPage.tsx: the session stats by shot type *)
(* ================================================================== *)

Module DashboardStats.
Import Api.

(** The loop of [refreshSessionStats]: [map[shot.shot_type] = shot]. *)
Definition byType (shots : list ShotStats) : JSObject.object ShotStats :=
  fold_left (fun map shot => JSObject.assign map (shot_type shot) shot)
    shots JSObject.empty.

(** [refreshSessionStats] once [fetchSessionStats] has settled: the new
    [shotStatsByType]; a failed fetch is logged and changes nothing. *)
Definition refreshSessionStats (response : option (list ShotStats))
  (shotStatsByType : JSObject.object ShotStats)
  : JSObject.object ShotStats :=
  match response with
  | Some shots => byType shots
  | None => shotStatsByType
  end.

(** [Object.values(shotStatsByType)] *)
Definition shotStatsList (shotStatsByType : JSObject.object ShotStats)
  : list ShotStats :=
  JSObject.values shotStatsByType.

Definition SHOTS : list string :=
  ["Forehand"; "Backhand"; "Smash"; "Push"; "Block"; "Flick"; "Serve";
   "Chop"].

(** [shotStatsByType[shot]] of a card of the grid, for [shot] in [SHOTS]:
    none of these names is inherited, from [Object.prototype] or from a
    response entry made the prototype, so the read is of the own
    property. *)
Definition card (shotStatsByType : JSObject.object ShotStats)
  (shot : string) : option ShotStats :=
  JSObject.get shotStatsByType shot.

(** The last entry of a response with the given shot type. *)
Definition lastOfType (k : string) (shots : list ShotStats)
  : option ShotStats :=
  find (fun s => String.eqb (shot_type s) k) (rev shots).

End DashboardStats.

(* ================================================================== *)
(** ** ProfilePage.tsx: the per-shot aggregate and the best shot *)
(* ================================================================== *)

Module Career.

Record Aggregate : Type := {
  count : JS.number;
  accSum : JS.number
}.

Record Best : Type := {
  shot_type : string;
  acc : JS.number
}.

(** [existing.count += shot.count; existing.accSum += ...] *)
Definition add_shot (existing : Aggregate) (shot : Api.ShotStats)
  : Aggregate :=
  {| count := JS.add (count existing) (JS.of_Z (Api.count shot));
     accSum :=
       JS.add (accSum existing)
         (JS.mul (Api.average_confidence shot) (JS.of_Z (Api.count shot))) |}.

(** One turn of the career loop on [perShotAggregate].  The read
    [perShotAggregate[shot.shot_type]] goes through the prototype: for a
    shot type naming a member of [Object.prototype] it yields that member
    and not [undefined], and the loop then writes [count] and [accSum] on
    a built-in object.  Such a render is not followed here: the step is
    [None]. *)
Definition aggregate_step
  (perShotAggregate : option (JSObject.object Aggregate))
  (shot : Api.ShotStats) : option (JSObject.object Aggregate) :=
  match perShotAggregate with
  | None => None
  | Some o =>
    if JSObject.inherited (Api.shot_type shot) then None
    else
      let existing :=
        match JSObject.get o (Api.shot_type shot) with
        | Some e => e
        | None => {| count := JS.zero; accSum := JS.zero |}
        end in
      Some (JSObject.set o (Api.shot_type shot) (add_shot existing shot))
  end.

Definition perShotAggregate (sessions : list Api.SessionStats)
  : option (JSObject.object Aggregate) :=
  fold_left
    (fun acc session => fold_left aggregate_step (Api.shots session) acc)
    sessions (Some JSObject.empty).

(** One turn of the loop over [Object.entries(perShotAggregate)]. *)
Definition best_step (bestShot : option Best) (e : string * Aggregate)
  : option Best :=
  let '(shotType, agg) := e in
  if negb (JS.truthy (count agg)) then bestShot
  else
    let avgAcc := JS.div (accSum agg) (count agg) in
    match bestShot with
    | Some b =>
      if JS.gt avgAcc (acc b)
      then Some {| shot_type := shotType; acc := avgAcc |}
      else bestShot
    | None => Some {| shot_type := shotType; acc := avgAcc |}
    end.

Definition bestShot (perShotAggregate : JSObject.object Aggregate)
  : option Best :=
  fold_left best_step (JSObject.entries perShotAggregate) None.

(** The entries of a history with a given shot type, in order. *)
Definition ofType (k : string) (sessions : list Api.SessionStats)
  : list Api.ShotStats :=
  filter (fun s => String.eqb (Api.shot_type s) k) (Spec.allShots sessions).

(** The average accuracy of an aggregate, as the loop computes it. *)
Definition average (agg : Aggregate) : JS.number :=
  JS.div (accSum agg) (count agg).

End Career.

(* ================================================================== *)
(** ** Strings as code units *)
(* ================================================================== *)

Module JSString.

(** A string value: its UTF-16 code units. *)
Definition units : Type := list N.

(** A string literal of the source (all of them are ASCII). *)
Definition ofString (s : string) : units :=
  map N_of_ascii (list_ascii_of_string s).

(** [a === b] *)
Fixpoint eqb (a b : units) : bool :=
  match a, b with
  | [], [] => true
  | x :: a', y :: b' => (x =? y)%N && eqb a' b'
  | _, _ => false
  end.

(** WhiteSpace and LineTerminator, the code points [trim] strips: TAB,
    LF, VT, FF, CR, SP, NBSP, U+1680, U+2000 to U+200A, LS, PS, U+202F,
    U+205F, U+3000 and the byte order mark. *)
Definition isWhiteSpace (c : N) : bool :=
  (existsb (N.eqb c)
     [9; 10; 11; 12; 13; 32; 160; 5760; 8232; 8233; 8239; 8287; 12288;
      65279]
   || ((8192 <=? c) && (c <=? 8202)))%N.

Fixpoint trimStart (s : units) : units :=
  match s with
  | [] => []
  | c :: rest => if isWhiteSpace c then trimStart rest else s
  end.

Definition trimEnd (s : units) : units := rev (trimStart (rev s)).

Definition trim (s : units) : units := trimEnd (trimStart s).

(** [s.split(sep)] for a separator of one code unit. *)
Fixpoint split (sep : N) (s : units) : list units :=
  match s with
  | [] => [[]]
  | c :: rest =>
    if (c =? sep)%N then [] :: split sep rest
    else
      match split sep rest with
      | part :: parts => (c :: part) :: parts
      | [] => [[c]]
      end
  end.

(** [s.split(/\r?\n/)]: a line ends at LF, or at CR LF taken together. *)
Fixpoint splitLines (s : units) : list units :=
  match s with
  | [] => [[]]
  | c :: rest =>
    let more (tail : list units) :=
      match tail with
      | line :: lines => (c :: line) :: lines
      | [] => [[c]]
      end in
    if (c =? 10)%N then [] :: splitLines rest
    else
      match rest with
      | d :: rest' =>
        if ((c =? 13) && (d =? 10))%N then [] :: splitLines rest'
        else more (splitLines rest)
      | [] => more (splitLines rest)
      end
  end.

(** [a.indexOf(x)] on an array of strings. *)
Fixpoint indexOf (a : list units) (x : units) : Z :=
  match a with
  | [] => -1
  | y :: rest =>
    if eqb y x then 0
    else let i := indexOf rest x in if i =? -1 then -1 else i + 1
  end.

(** [a.map((x, i) => f(x, i))], the indices counted from [i]. *)
Fixpoint mapi {A B : Type} (f : A -> Z -> B) (i : Z) (a : list A) : list B :=
  match a with
  | [] => []
  | x :: rest => f x i :: mapi f (i + 1) rest
  end.

End JSString.

(* ================================================================== *)
(** ** DashboardPage.tsx: classifying an uploaded CSV *)
(* ================================================================== *)

Module DashboardCsv.
Import Api DataView.

Definition DEFAULT_PLAYER_ID : string := "practice_player".
Definition DEFAULT_SESSION_ID : string := "practice_session".

Definition required : list string :=
  ["acc_x"; "acc_y"; "acc_z"; "gyro_x"; "gyro_y"; "gyro_z"].

Definition comma : N := 44.

(** The trimmed lines of the text that are not empty. *)
Definition lines (text : JSString.units) : list JSString.units :=
  filter (fun line => 0 <? Z.of_nat (List.length line))
    (map JSString.trim (JSString.splitLines text)).

(** [lines[0].split(',').map((h) => h.trim())] *)
Definition header (first : JSString.units) : list JSString.units :=
  map JSString.trim (JSString.split comma first).

(** The loop over the required columns, filling [idx]. *)
Fixpoint columns (header : list JSString.units) (required : list string)
  (idx : JSObject.object Z) : completion (JSObject.object Z) :=
  match required with
  | [] => Normal idx
  | col :: rest =>
    let i := JSString.indexOf header (JSString.ofString col) in
    if i =? -1
    then Throw ("CSV header missing required column: " ++ col)
    else columns header rest (JSObject.set idx col i)
  end.

Section Samples.

(** The global [parseFloat], applied to a string. *)
Variable parseFloat : JSString.units -> JS.number.

(** [parseFloat(parts[idx[col]])]: a missing cell is [undefined], which
    [parseFloat] reads as the string of that name. *)
Definition reading (idx : JSObject.object Z) (parts : list JSString.units)
  (col : string) : JS.number :=
  parseFloat
    match JSObject.get idx col with
    | Some i =>
      match JSArray.index parts i with
      | Some cell => cell
      | None => JSString.ofString "undefined"
      end
    | None => JSString.ofString "undefined"
    end.

Definition sample (idx : JSObject.object Z) (line : JSString.units) (i : Z)
  : SwingSamplePayload :=
  let parts := JSString.split comma line in
  {| ax := reading idx parts "acc_x";
     ay := reading idx parts "acc_y";
     az := reading idx parts "acc_z";
     gx := reading idx parts "gyro_x";
     gy := reading idx parts "gyro_y";
     gz := reading idx parts "gyro_z";
     t := JS.mul (JS.of_Z i) (JS.div (JS.of_Z 1) (JS.of_Z 200)) |}.

(** The body of the [try] of [handleClassifyCsv] from the text of the
    file to the request it passes to [classifySwing]. *)
Definition request (text : JSString.units) : completion SwingRequest :=
  let lines := lines text in
  if Z.of_nat (List.length lines) <? 2
  then Throw "CSV file has no data rows."
  else
    idx <- columns (header (hd [] lines)) required JSObject.empty ;;
    let samples := JSString.mapi (sample idx) 0 (tl lines) in
    if Z.of_nat (List.length samples) =? 0
    then Throw "No valid samples parsed from CSV."
    else
      Normal {| player_id := DEFAULT_PLAYER_ID;
                request_session_id := DEFAULT_SESSION_ID;
                sampling_rate_hz := 200;
                samples := samples |}.

(** The state [handleClassifyCsv] writes. *)
Record Page : Type := {
  lastResult : option ClassificationResult;
  loading : bool;
  error : option string;
  shotStatsByType : JSObject.object ShotStats
}.

(** [handleClassifyCsv], to the state it leaves.  [selectedFile] is the
    settlement of [selectedFile.text()], [classifySwing] that of the
    request and [fetchSessionStats] that of the refresh; a rejection
    carries [err?.message]. *)
Definition handleClassifyCsv
  (selectedFile : option (JSString.units + option string))
  (classifySwing : SwingRequest -> ClassificationResult + option string)
  (fetchSessionStats : option (list ShotStats)) (page : Page) : Page :=
  let failed (message : option string) :=
    {| lastResult := lastResult page;
       loading := false;
       error :=
         Some (DevicePage.orElse message "Failed to classify CSV swing.");
       shotStatsByType := shotStatsByType page |} in
  match selectedFile with
  | None =>
    {| lastResult := lastResult page;
       loading := loading page;
       error := Some "Please select a CSV file first.";
       shotStatsByType := shotStatsByType page |}
  | Some (inr message) => failed message
  | Some (inl text) =>
    match request text with
    | Throw message => failed (Some message)
    | Normal req =>
      match classifySwing req with
      | inr message => failed message
      | inl result =>
        {| lastResult := Some result;
           loading := false;
           error := None;
           shotStatsByType :=
             DashboardStats.refreshSessionStats fetchSessionStats
               (shotStatsByType page) |}
      end
    end
  end.

End Samples.

End DashboardCsv.

(* ================================================================== *)
(** ** ProfilePage.tsx and AnalyticsPage.tsx: the player id *)
(* ================================================================== *)

Module PlayerId.

(** [useState('practice_player')] *)
Definition initial : JSString.units := JSString.ofString "practice_player".

(** The [onChange] of the player field, on both pages:
    [setPlayerId(e.target.value.trim() || 'practice_player')]. *)
Definition onChange (value : JSString.units) : JSString.units :=
  match JSString.trim value with
  | [] => JSString.ofString "practice_player"
  | trimmed => trimmed
  end.

(** ProfilePage.tsx, on the stored profile:
    [if (data.playerName) setPlayerId(data.playerName)], the name a
    string when it is there. *)
Definition onStoredProfile (playerName : option JSString.units)
  (playerId : JSString.units) : JSString.units :=
  match playerName with
  | Some (c :: rest) => c :: rest
  | Some [] | None => playerId
  end.

Inductive Event : Type :=
| Typed (value : JSString.units)
| Stored (playerName : option JSString.units).

Definition step (playerId : JSString.units) (e : Event) : JSString.units :=
  match e with
  | Typed value => onChange value
  | Stored playerName => onStoredProfile playerName playerId
  end.

(** The player id whose history the page requests, after the events. *)
Definition run (events : list Event) : JSString.units :=
  fold_left step events initial.

End PlayerId.

(* ================================================================== *)
(** ** Notions the further properties are stated with *)
(* ================================================================== *)

(** What the device page keeps true from one event to the next. *)
Definition shown (st : DevicePage.State) : Prop :=
  DevicePage.error st <> Some "" /\
  DevicePage.lastSample st = DeviceTrace.newest (DevicePage.samplesRef st).

(** The characteristics of the [handleConnect] calls that succeeded, in
    order. *)
Fixpoint linked (events : list DeviceSession.Event) : list nat :=
  match events with
  | [] => []
  | DeviceSession.ConnectDone characteristic :: rest =>
    characteristic :: linked rest
  | _ :: rest => linked rest
  end.

(** An event that is neither a send nor the answer to one. *)
Definition quiet (e : DeviceSession.Event) : Prop :=
  match e with
  | DeviceSession.SendSwing | DeviceSession.ClassifySettled _ => False
  | _ => True
  end.

(** An event that is not the failure of a [handleConnect]. *)
Definition noFailure (e : DeviceSession.Event) : Prop :=
  match e with
  | DeviceSession.ConnectFailed _ => False
  | _ => True
  end.

(** The own properties the loop of [refreshSessionStats] writes, from any
    object. *)
Definition byTypeFrom (o : JSObject.object Api.ShotStats)
  (shots : list Api.ShotStats) : JSObject.object Api.ShotStats :=
  fold_left (fun map shot => JSObject.set map (Api.shot_type shot) shot)
    shots o.

(** An entry whose assignment writes an own property. *)
Definition notProto (s : Api.ShotStats) : bool :=
  negb (String.eqb (Api.shot_type s) "__proto__").

(** The counts of a list as the loops add them up: in doubles, one after
    the other, onto [start]. *)
Definition countsFrom (start : JS.number) (shots : list Api.ShotStats)
  : JS.number :=
  fold_left JS.add (map (fun s => JS.of_Z (Api.count s)) shots) start.

(** The terms [value * count] of a list as the loops add them up. *)
Definition termsFrom (value : Api.ShotStats -> JS.number)
  (start : JS.number) (shots : list Api.ShotStats) : JS.number :=
  fold_left JS.add
    (map (fun s => JS.mul (value s) (JS.of_Z (Api.count s))) shots) start.

(** The counts of the entries of each of the shot types [keys], added
    up over the types, in integers. *)
Definition countByTypes (keys : list string) (shots : list Api.ShotStats)
  : Z :=
  fold_right Z.add 0
    (map (fun k =>
            Spec.totalCount
              (filter (fun s => String.eqb (Api.shot_type s) k) shots))
       keys).

(** What the loop for the best shot has established once it has gone
    through [seen]. *)
Definition bestOf (seen : list (string * Career.Aggregate))
  (best : option Career.Best) : Prop :=
  match best with
  | None => Forall (fun p => JS.truthy (Career.count (snd p)) = false) seen
  | Some b =>
    (exists agg,
       In (Career.shot_type b, agg) seen /\
       JS.truthy (Career.count agg) = true /\
       Career.acc b = Career.average agg) /\
    (forall k agg,
       In (k, agg) seen -> JS.truthy (Career.count agg) = true ->
       JS.gt (Career.average agg) (Career.acc b) = false)
  end.

(** The index object the loop over the required columns builds when no
    column is missing. *)
Definition columnsOf (header : list JSString.units) (required : list string)
  (idx : JSObject.object Z) : JSObject.object Z :=
  fold_left
    (fun o col =>
       JSObject.set o col (JSString.indexOf header (JSString.ofString col)))
    required idx.

(** The cell of a data row under the first header cell that reads [col];
    the string [undefined] when the row is too short. *)
Definition under (head : list JSString.units) (row : JSString.units)
  (col : string) : JSString.units :=
  match JSArray.index (JSString.split DashboardCsv.comma row)
          (JSString.indexOf head (JSString.ofString col)) with
  | Some cell => cell
  | None => JSString.ofString "undefined"
  end.

(** The rows of a file written out with a line separator. *)
Fixpoint joinLines (sep : JSString.units) (rows : list JSString.units)
  : JSString.units :=
  match rows with
  | [] => []
  | [row] => row
  | row :: rest => (row ++ sep ++ joinLines sep rest)%list
  end.

(** A row without the CR it may end with. *)
Fixpoint chomp (row : JSString.units) : JSString.units :=
  match row with
  | [] => []
  | [c] => if (c =? 13)%N then [] else [c]
  | c :: rest => c :: chomp rest
  end.

(** A row that is not white space alone. *)
Definition notBlank (row : JSString.units) : bool :=
  0 <? Z.of_nat (List.length (JSString.trim row)).

(* ################################################################## *)
(** * Properties *)
(* ################################################################## *)

(* ================================================================== *)
(** ** Facts about binary64 arithmetic *)
(* ================================================================== *)

Section NumberFacts.

(** The decimal literals of the pages are the doubles the engine parses:
    0.8 = 0x1.999999999999ap-1, 0.65 = 0x1.4cccccccccccdp-1,
    0.02 = 0x1.47ae147ae147bp-6, 1e-3 = 0x1.0624dd2f1a9fcp-10. *)
Example decimal_literals :
  JS.dec 8 10 = S754_finite false 0x1999999999999a (-53) /\
  JS.dec 65 100 = S754_finite false 0x14cccccccccccd (-53) /\
  JS.dec 2 100 = S754_finite false 0x147ae147ae147b (-58) /\
  JS.dec 1 1000 = S754_finite false 0x10624dd2f1a9fc (-62) /\
  JS.of_Z 100 = S754_finite false 0x19000000000000 (-46) /\
  JS.of_Z 1000 = S754_finite false 0x1f400000000000 (-43).
Proof. repeat split. Qed.

(** Binary32 words as doubles: 1.0, -2.5, the least subnormal 2^-149,
    -0, +Infinity and a NaN. *)
Example float32_words :
  DataView.float32_of_bits 0x3f800000 = JS.of_Z 1 /\
  DataView.float32_of_bits 0xc0200000 = JS.dec (-25) 10 /\
  DataView.float32_of_bits 0x00000001 =
    S754_finite false 0x10000000000000 (-201) /\
  DataView.float32_of_bits 0x80000000 = S754_zero true /\
  DataView.float32_of_bits 0x7f800000 = S754_infinity false /\
  DataView.float32_of_bits 0x7fc00000 = S754_nan.
Proof. repeat split. Qed.

(** toFixed rounds the exact value of the double, ties upwards. *)
Example toFixed_values :
  JS.toFixed noToString (JS.dec 625 100) 1 = "6.3" /\
  JS.toFixed noToString (JS.dec 25 100) 1 = "0.3" /\
  JS.toFixed noToString (JS.dec 15 100) 1 = "0.1" /\
  JS.toFixed noToString (JS.dec (-4) 100) 1 = "-0.0" /\
  JS.toFixed noToString (S754_zero true) 1 = "0.0" /\
  JS.toFixed noToString (JS.dec 1234567 1000) 1 = "1234.6" /\
  JS.toFixed noToString (JS.of_Z 92) 0 = "92" /\
  JS.toFixed noToString JS.NaN 1 = "NaN".
Proof. repeat split. Qed.

(** A mantissa of [d] binary digits is at least [2^(d-1)]. *)
Lemma digits2_pos_lower (m : positive) :
  2 ^ (Zpos (digits2_pos m) - 1) <= Zpos m.
Proof.
  induction m as [m IH|m IH|]; cbn [digits2_pos].
  - rewrite Pos2Z.inj_succ.
    replace (Z.succ (Zpos (digits2_pos m)) - 1) with (Z.succ (Zpos (digits2_pos m) - 1)) by lia.
    rewrite Z.pow_succ_r by lia. lia.
  - rewrite Pos2Z.inj_succ.
    replace (Z.succ (Zpos (digits2_pos m)) - 1) with (Z.succ (Zpos (digits2_pos m) - 1)) by lia.
    rewrite Z.pow_succ_r by lia. lia.
  - cbn. lia.
Qed.

(** One step of the right shift halves the mantissa. *)
Lemma shr_1_m (mrs : shr_record) :
  0 <= shr_m mrs -> shr_m (shr_1 mrs) = shr_m mrs / 2.
Proof.
  destruct mrs as [m r s]. cbn [shr_m]. intros H.
  destruct m as [|[p|p|]|p]; cbn [shr_1 shr_m]; try lia.
  - reflexivity.
  - apply Z.div_unique with 1; lia.
  - apply Z.div_unique with 0; lia.
  - reflexivity.
Qed.

Lemma iter_shr_1_m (p : positive) (mrs : shr_record) :
  0 <= shr_m mrs ->
  shr_m (iter_pos shr_1 p mrs) = shr_m mrs / 2 ^ Zpos p.
Proof.
  revert mrs. induction p as [p IH|p IH|]; intros mrs H; cbn [iter_pos].
  - assert (H1 : 0 <= shr_m (shr_1 mrs)).
    { rewrite shr_1_m by exact H. apply Z.div_pos; lia. }
    assert (H2 : 0 <= shr_m (iter_pos shr_1 p (shr_1 mrs))).
    { rewrite IH by exact H1. apply Z.div_pos; [exact H1|]. apply Z.pow_pos_nonneg; lia. }
    rewrite IH by exact H2. rewrite IH by exact H1. rewrite shr_1_m by exact H.
    rewrite !Z.div_div by (try apply Z.pow_pos_nonneg; lia).
    f_equal.
    replace (Zpos p~1) with (1 + Zpos p + Zpos p) by lia.
    rewrite !Z.pow_add_r by lia. lia.
  - assert (H2 : 0 <= shr_m (iter_pos shr_1 p mrs)).
    { rewrite IH by exact H. apply Z.div_pos; [exact H|]. apply Z.pow_pos_nonneg; lia. }
    rewrite IH by exact H2. rewrite IH by exact H.
    rewrite !Z.div_div by (try apply Z.pow_pos_nonneg; lia).
    f_equal.
    replace (Zpos p~0) with (Zpos p + Zpos p) by lia.
    rewrite !Z.pow_add_r by lia. lia.
  - rewrite shr_1_m by exact H. reflexivity.
Qed.

Lemma shr_record_of_loc_m (m : Z) (l : location) :
  shr_m (shr_record_of_loc m l) = m.
Proof. destruct l as [|[ | | ]]; reflexivity. Qed.

(** Shifting to the canonical exponent keeps a positive mantissa
    positive when the exponent is not below [JS.emin]. *)
Lemma shr_fexp_pos (m : positive) (e : Z) (l : location) :
  JS.emin <= e ->
  0 < shr_m (fst (shr_fexp JS.prec JS.emax (Zpos m) e l)) /\
  JS.emin <= snd (shr_fexp JS.prec JS.emax (Zpos m) e l).
Proof.
  intros He. unfold shr_fexp, shr.
  cbn [Zdigits2].
  pose proof (digits2_pos_lower m) as Hd.
  set (d := Zpos (digits2_pos m)) in *.
  assert (Hd1 : 1 <= d) by (subst d; lia).
  destruct (fexp JS.prec JS.emax (d + e) - e) as [|n|n] eqn:En; cbn [fst snd].
  - rewrite shr_record_of_loc_m. lia.
  - rewrite iter_shr_1_m by (rewrite shr_record_of_loc_m; lia).
    rewrite shr_record_of_loc_m.
    assert (Hn : Zpos n <= d - 1).
    { unfold JS.emin, fexp, SpecFloat.emin, JS.prec, JS.emax in *. lia. }
    split; [|unfold JS.emin, fexp, SpecFloat.emin, JS.prec, JS.emax in *; lia].
    apply Z.div_str_pos. split; [apply Z.pow_pos_nonneg; lia|].
    apply Z.le_trans with (2 ^ (d - 1)); [|exact Hd].
    apply Z.pow_le_mono_r; lia.
  - rewrite shr_record_of_loc_m. lia.
Qed.

Lemma round_nearest_even_pos (m : Z) (l : location) :
  0 < m -> 0 < round_nearest_even m l.
Proof.
  intros H. destruct l as [|[ | | ]]; cbn [round_nearest_even]; try lia.
  destruct (Z.even m); lia.
Qed.

(** Rounding a positive mantissa at an exponent not below [emin] gives
    neither a zero nor NaN. *)
Lemma round_aux_nonzero (s : bool) (m : positive) (e : Z) (l : location) :
  JS.emin <= e ->
  JS.is_zero (binary_round_aux JS.prec JS.emax s (Zpos m) e l) = false /\
  JS.is_nan (binary_round_aux JS.prec JS.emax s (Zpos m) e l) = false.
Proof.
  intros He. unfold binary_round_aux.
  destruct (shr_fexp_pos m e l He) as [H1 H2].
  destruct (shr_fexp JS.prec JS.emax (Zpos m) e l) as [mrs' e'].
  cbn [fst snd] in H1, H2.
  pose proof (round_nearest_even_pos (shr_m mrs') (loc_of_shr_record mrs') H1) as H3.
  destruct (round_nearest_even (shr_m mrs') (loc_of_shr_record mrs')) as [|m'|m'];
    try lia.
  destruct (shr_fexp_pos m' e' loc_Exact H2) as [H4 _].
  destruct (shr_fexp JS.prec JS.emax (Zpos m') e' loc_Exact) as [mrs'' e''].
  cbn [fst] in H4.
  destruct (shr_m mrs'') as [|m''|m'']; try lia.
  destruct (e'' <=? JS.emax - JS.prec); split; reflexivity.
Qed.

Lemma binary_round_nonzero (s : bool) (m : positive) :
  JS.is_zero (binary_round JS.prec JS.emax s m 0) = false /\
  JS.is_nan (binary_round JS.prec JS.emax s m 0) = false.
Proof.
  unfold binary_round, shl_align.
  assert (Hf : JS.emin <= fexp JS.prec JS.emax (Zpos (digits2_pos m) + 0)).
  { unfold fexp, JS.emin, SpecFloat.emin. lia. }
  destruct (fexp JS.prec JS.emax (Zpos (digits2_pos m) + 0) - 0) as [|p|p] eqn:E;
    apply round_aux_nonzero; unfold JS.emin, SpecFloat.emin, JS.prec, JS.emax in *; lia.
Qed.

(** The double of a non-zero integer is a non-zero number. *)
Lemma of_Z_nonzero (z : Z) :
  z <> 0 -> JS.is_zero (JS.of_Z z) = false /\ JS.is_nan (JS.of_Z z) = false.
Proof.
  intros H. unfold JS.of_Z, binary_normalize.
  destruct z as [|m|m]; [congruence| |]; apply binary_round_nonzero.
Qed.

(** Rounding keeps the sign it is given. *)
Lemma round_aux_sign (sx : bool) (mx ex : Z) (lx : location) :
  let r := binary_round_aux JS.prec JS.emax sx mx ex lx in
  JS.is_nan r = true \/ JS.signbit r = sx.
Proof.
  unfold binary_round_aux.
  destruct (shr_fexp JS.prec JS.emax mx ex lx) as [mrs' e'].
  destruct (shr_fexp JS.prec JS.emax _ e' loc_Exact) as [mrs'' e''].
  destruct (shr_m mrs'') as [|m|m].
  - now right.
  - destruct (e'' <=? JS.emax - JS.prec); now right.
  - now left.
Qed.

Lemma mul_sign (x y : JS.number) :
  JS.is_nan (JS.mul x y) = true \/
  JS.signbit (JS.mul x y) = xorb (JS.signbit x) (JS.signbit y).
Proof.
  destruct x as [sx|sx| |sx mx ex], y as [sy|sy| |sy my ey]; cbn;
    try (now left); try (now right).
  apply round_aux_sign.
Qed.

Lemma neg_is_abs (x : JS.number) :
  JS.is_nan x = true \/ JS.signbit x = true -> JS.neg x = JS.abs x.
Proof.
  destruct x as [s|s| |s m e]; cbn; intros [H|H];
    try discriminate H; subst; reflexivity.
Qed.

Lemma is_negative_signbit (x : JS.number) :
  JS.signbit x = false -> JS.is_negative x = false.
Proof. destruct x as [s|s| |s m e]; cbn; congruence. Qed.

Lemma neg_signbit (x : JS.number) :
  JS.is_nan x = false -> JS.signbit (JS.neg x) = negb (JS.signbit x).
Proof. destruct x as [s|s| |s m e]; cbn; congruence. Qed.

(** A finite number minus itself is [+0]. *)
Lemma sub_diag (x : JS.number) :
  JS.is_finite x = true -> JS.sub x x = JS.zero.
Proof.
  destruct x as [s|s| |s m e]; cbn; try discriminate; intros _.
  - now destruct s.
  - now rewrite Z.sub_diag.
Qed.

(** [0 * 100] is a zero and below [0.001] in magnitude. *)
Lemma zero_times_100_small (s : bool) :
  JS.lt (JS.abs (JS.mul (S754_zero s) (JS.of_Z 100))) (JS.dec 1 1000) = true.
Proof. now destruct s. Qed.

(** What is not above [0] is NaN, a zero, or carries the sign bit. *)
Lemma not_gt_zero (x : JS.number) :
  JS.gt x JS.zero = false ->
  JS.is_nan x = true \/ (exists s, x = S754_zero s) \/ JS.signbit x = true.
Proof.
  destruct x as [s|s| |s m e]; cbn; intros H.
  - right; left; now exists s.
  - destruct s; [now right; right|discriminate].
  - now left.
  - destruct s; [now right; right|discriminate].
Qed.

(** What is below [-0.02] carries the sign bit and is not NaN. *)
Lemma lt_negative_signbit (x : JS.number) :
  JS.lt x (JS.neg (JS.dec 2 100)) = true ->
  JS.signbit x = true /\ JS.is_nan x = false.
Proof.
  destruct (JS.neg (JS.dec 2 100)) as [s0|s0| |s0 m0 e0] eqn:E;
    vm_compute in E; try discriminate E.
  injection E as <- <- <-.
  unfold JS.lt, SFltb, SFcompare.
  destruct x as [s|s| |s m e]; try destruct s; cbv beta iota;
    intros H; try discriminate H; split; reflexivity.
Qed.

(** *** Integers as doubles *)

Lemma digits2_pos_upper (m : positive) :
  Zpos m < 2 ^ Zpos (digits2_pos m).
Proof.
  induction m as [m IH|m IH|]; cbn [digits2_pos].
  - rewrite Pos2Z.inj_succ, Z.pow_succ_r by lia. lia.
  - rewrite Pos2Z.inj_succ, Z.pow_succ_r by lia. lia.
  - cbn. lia.
Qed.

(** The number of binary digits is the [d] with [2^(d-1) <= m < 2^d]. *)
Lemma digits2_pos_unique (m : positive) (d : Z) :
  2 ^ (d - 1) <= Zpos m < 2 ^ d -> Zpos (digits2_pos m) = d.
Proof.
  intros [L U].
  pose proof (digits2_pos_lower m) as L'.
  pose proof (digits2_pos_upper m) as U'.
  set (d' := Zpos (digits2_pos m)) in *.
  assert (Hd' : 1 <= d') by (subst d'; lia).
  assert (Hd : 0 <= d).
  { destruct (Z.lt_ge_cases d 0) as [N|N]; [|exact N].
    rewrite (Z.pow_neg_r 2 d N) in U. lia. }
  destruct (Z.lt_trichotomy d' d) as [C|[C|C]]; [|exact C|].
  - assert (2 ^ d' <= 2 ^ (d - 1)) by (apply Z.pow_le_mono_r; lia). lia.
  - assert (2 ^ d <= 2 ^ (d' - 1)) by (apply Z.pow_le_mono_r; lia). lia.
Qed.

Lemma digits2_pos_shift (mx M : positive) (n : Z) :
  0 <= n -> Zpos mx = Zpos M * 2 ^ n ->
  Zpos (digits2_pos mx) = Zpos (digits2_pos M) + n.
Proof.
  intros Hn E. apply digits2_pos_unique. rewrite E.
  pose proof (digits2_pos_lower M) as L.
  pose proof (digits2_pos_upper M) as U.
  set (d := Zpos (digits2_pos M)) in *.
  assert (Hd : 1 <= d) by (subst d; lia).
  assert (P : 0 < 2 ^ n) by (apply Z.pow_pos_nonneg; lia).
  replace (d + n - 1) with ((d - 1) + n) by lia.
  rewrite !Z.pow_add_r by lia.
  split; [apply Z.mul_le_mono_nonneg_r; lia|apply Z.mul_lt_mono_pos_r; lia].
Qed.

Lemma digits2_pos_small (m : positive) :
  Zpos m < 2 ^ 53 -> Zpos (digits2_pos m) <= 53.
Proof.
  intros H. pose proof (digits2_pos_lower m) as L.
  destruct (Z.le_gt_cases (Zpos (digits2_pos m)) 53) as [C|C]; [exact C|].
  assert (2 ^ 53 <= 2 ^ (Zpos (digits2_pos m) - 1))
    by (apply Z.pow_le_mono_r; lia).
  lia.
Qed.

Lemma iter_xO (m d : positive) :
  Zpos (Pos.iter xO m d) = Zpos m * 2 ^ Zpos d.
Proof.
  induction d as [|d IH] using Pos.peano_ind.
  - cbn. lia.
  - rewrite Pos.iter_succ, Pos2Z.inj_succ, Z.pow_succ_r by lia.
    rewrite Pos2Z.inj_xO, IH. lia.
Qed.

Lemma shr_1_double (m : Z) :
  0 < m ->
  shr_1 {| shr_m := 2 * m; shr_r := false; shr_s := false |} =
  {| shr_m := m; shr_r := false; shr_s := false |}.
Proof. destruct m as [|p|p]; try lia. reflexivity. Qed.

(** Shifting out [p] zero bits loses nothing. *)
Lemma iter_shr_1_exact (p : positive) (m : Z) :
  0 < m ->
  iter_pos shr_1 p
    {| shr_m := m * 2 ^ Zpos p; shr_r := false; shr_s := false |} =
  {| shr_m := m; shr_r := false; shr_s := false |}.
Proof.
  revert m. induction p as [p IH|p IH|]; intros m H; cbn [iter_pos].
  - replace (m * 2 ^ Zpos p~1) with (2 * ((m * 2 ^ Zpos p) * 2 ^ Zpos p)).
    + assert (0 < m * 2 ^ Zpos p)
        by (apply Z.mul_pos_pos; [lia|apply Z.pow_pos_nonneg; lia]).
      rewrite shr_1_double
        by (apply Z.mul_pos_pos; [lia|apply Z.pow_pos_nonneg; lia]).
      rewrite IH by lia. apply IH. exact H.
    + replace (Zpos p~1) with (1 + Zpos p + Zpos p) by lia.
      rewrite !Z.pow_add_r by lia. lia.
  - replace (m * 2 ^ Zpos p~0) with ((m * 2 ^ Zpos p) * 2 ^ Zpos p).
    + assert (0 < m * 2 ^ Zpos p)
        by (apply Z.mul_pos_pos; [lia|apply Z.pow_pos_nonneg; lia]).
      rewrite IH by lia. apply IH. exact H.
    + replace (Zpos p~0) with (Zpos p + Zpos p) by lia.
      rewrite !Z.pow_add_r by lia. lia.
  - replace (m * 2 ^ 1) with (2 * m) by lia. now apply shr_1_double.
Qed.

(** A mantissa of 53 digits followed by [n] zero bits rounds to the
    mantissa, exactly. *)
Lemma round_aux_exact (s : bool) (mx M : positive) (e0 n : Z) :
  Zpos (digits2_pos M) = 53 ->
  JS.emin <= e0 <= JS.emax - JS.prec ->
  0 <= n ->
  Zpos mx = Zpos M * 2 ^ n ->
  binary_round_aux JS.prec JS.emax s (Zpos mx) (e0 - n) loc_Exact =
  S754_finite s M e0.
Proof.
  intros HM He Hn E.
  assert (D : Zpos (digits2_pos mx) = 53 + n).
  { rewrite (digits2_pos_shift mx M n Hn E). lia. }
  assert (F : forall d, d = 53 -> fexp JS.prec JS.emax (d + e0) = e0).
  { intros d ->. unfold fexp, JS.emin, SpecFloat.emin, JS.prec, JS.emax in *.
    lia. }
  assert (S1 : shr_fexp JS.prec JS.emax (Zpos mx) (e0 - n) loc_Exact =
               ({| shr_m := Zpos M; shr_r := false; shr_s := false |}, e0)).
  { unfold shr_fexp. cbn [Zdigits2 shr_record_of_loc]. rewrite D.
    replace (53 + n + (e0 - n)) with (53 + e0) by lia.
    rewrite (F 53 eq_refl).
    replace (e0 - (e0 - n)) with n by lia.
    destruct n as [|p|p]; [| |lia].
    - cbn [shr]. rewrite Z.sub_0_r. f_equal.
      replace (Zpos mx) with (Zpos M) by (rewrite E; cbn; lia). reflexivity.
    - cbn [shr]. rewrite E, iter_shr_1_exact by lia. f_equal. lia. }
  assert (S2 : shr_fexp JS.prec JS.emax (Zpos M) e0 loc_Exact =
               ({| shr_m := Zpos M; shr_r := false; shr_s := false |}, e0)).
  { unfold shr_fexp. cbn [Zdigits2 shr_record_of_loc]. rewrite HM.
    rewrite (F 53 eq_refl), Z.sub_diag. reflexivity. }
  unfold binary_round_aux. rewrite S1.
  cbn [shr_m loc_of_shr_record round_nearest_even]. rewrite S2.
  cbn [shr_m].
  destruct (Z.leb_spec e0 (JS.emax - JS.prec)) as [_|C]; [reflexivity|lia].
Qed.

(** An integer of at most 53 digits, however it is shifted, rounds to
    itself in canonical form. *)
Lemma binary_round_canon (s : bool) (mx z : positive) (k : Z) :
  0 <= k ->
  Zpos mx = Zpos z * 2 ^ k ->
  Zpos (digits2_pos z) <= 53 ->
  binary_round JS.prec JS.emax s mx (- k) =
  S754_finite s (Z.to_pos (Zpos z * 2 ^ (53 - Zpos (digits2_pos z))))
    (Zpos (digits2_pos z) - 53).
Proof.
  intros Hk E Hz.
  set (dz := Zpos (digits2_pos z)) in *.
  assert (Hdz : 1 <= dz) by (subst dz; lia).
  set (M := Z.to_pos (Zpos z * 2 ^ (53 - dz))).
  assert (P : 0 < 2 ^ (53 - dz)) by (apply Z.pow_pos_nonneg; lia).
  assert (EM : Zpos M = Zpos z * 2 ^ (53 - dz)).
  { subst M. rewrite Z2Pos.id; [reflexivity|]. apply Z.mul_pos_pos; lia. }
  assert (DM : Zpos (digits2_pos M) = 53).
  { rewrite (digits2_pos_shift M z (53 - dz)) by (try exact EM; lia).
    fold dz. lia. }
  assert (D : Zpos (digits2_pos mx) = dz + k)
    by (exact (digits2_pos_shift mx z k Hk E)).
  assert (B : JS.emin <= dz - 53 <= JS.emax - JS.prec).
  { unfold JS.emin, SpecFloat.emin, JS.prec, JS.emax. lia. }
  unfold binary_round, shl_align. rewrite D.
  replace (dz + k + - k) with dz by lia.
  assert (F : fexp JS.prec JS.emax dz = dz - 53).
  { unfold fexp, JS.emin, SpecFloat.emin, JS.prec, JS.emax in *. lia. }
  rewrite F.
  destruct (dz - 53 - - k) as [|p|p] eqn:C.
  - replace (- k) with ((dz - 53) - (k - (53 - dz))) by lia.
    apply round_aux_exact; try assumption; [lia|].
    rewrite E, EM, <- Z.mul_assoc, <- Z.pow_add_r by lia.
    do 2 f_equal. lia.
  - replace (- k) with ((dz - 53) - (k - (53 - dz))) by lia.
    apply round_aux_exact; try assumption; [lia|].
    rewrite E, EM, <- Z.mul_assoc, <- Z.pow_add_r by lia.
    do 2 f_equal. lia.
  - replace (dz - 53) with ((dz - 53) - 0) at 1 by lia.
    apply round_aux_exact; try assumption; [lia|].
    rewrite iter_xO, E, EM, <- Z.mul_assoc, <- Z.pow_add_r by lia.
    rewrite Z.pow_0_r, Z.mul_1_r. do 2 f_equal. lia.
Qed.

(** The double of a positive integer below [2^53] is the integer. *)
Lemma of_Z_canon (z : positive) :
  Zpos z < 2 ^ 53 ->
  JS.of_Z (Zpos z) =
  S754_finite false (Z.to_pos (Zpos z * 2 ^ (53 - Zpos (digits2_pos z))))
    (Zpos (digits2_pos z) - 53).
Proof.
  intros H. unfold JS.of_Z, binary_normalize.
  apply (binary_round_canon false z z 0); [lia|lia|].
  now apply digits2_pos_small.
Qed.

Lemma shl_align_fst (mx : positive) (ex ez : Z) :
  ez <= ex ->
  Zpos (fst (shl_align mx ex ez)) = Zpos mx * 2 ^ (ex - ez).
Proof.
  intros H. unfold shl_align.
  destruct (ez - ex) as [|p|p] eqn:C; cbn [fst].
  - replace (ex - ez) with 0 by lia. lia.
  - lia.
  - rewrite iter_xO. do 2 f_equal. lia.
Qed.

(** Adding two non-negative integers whose sum is below [2^53] is exact. *)
Lemma add_of_Z (a b : Z) :
  0 <= a -> 0 <= b -> a + b < 2 ^ 53 ->
  JS.add (JS.of_Z a) (JS.of_Z b) = JS.of_Z (a + b).
Proof.
  intros Ha Hb H.
  destruct a as [|a|a]; [|clear Ha|lia].
  { change (JS.of_Z 0) with (S754_zero false). rewrite Z.add_0_l.
    destruct b as [|b|b]; [reflexivity| |lia].
    rewrite of_Z_canon by lia. reflexivity. }
  destruct b as [|b|b]; [|clear Hb|lia].
  { change (JS.of_Z 0) with (S754_zero false). rewrite Z.add_0_r.
    rewrite of_Z_canon by lia. reflexivity. }
  change (Zpos a + Zpos b) with (Zpos (a + b)) in *.
  rewrite (of_Z_canon a), (of_Z_canon b), (of_Z_canon (a + b)) by lia.
  pose proof (digits2_pos_small a ltac:(lia)) as Da.
  pose proof (digits2_pos_small b ltac:(lia)) as Db.
  pose proof (digits2_pos_small (a + b) ltac:(lia)) as Dab.
  set (da := Zpos (digits2_pos a)) in *.
  set (db := Zpos (digits2_pos b)) in *.
  assert (Hda : 1 <= da) by (subst da; lia).
  assert (Hdb : 1 <= db) by (subst db; lia).
  set (Ma := Z.to_pos (Zpos a * 2 ^ (53 - da))).
  set (Mb := Z.to_pos (Zpos b * 2 ^ (53 - db))).
  assert (EMa : Zpos Ma = Zpos a * 2 ^ (53 - da)).
  { subst Ma. rewrite Z2Pos.id; [reflexivity|].
    apply Z.mul_pos_pos; [lia|apply Z.pow_pos_nonneg; lia]. }
  assert (EMb : Zpos Mb = Zpos b * 2 ^ (53 - db)).
  { subst Mb. rewrite Z2Pos.id; [reflexivity|].
    apply Z.mul_pos_pos; [lia|apply Z.pow_pos_nonneg; lia]. }
  unfold JS.add, SFadd. cbn [cond_Zopp].
  set (ez := Z.min (da - 53) (db - 53)).
  assert (Hez : ez <= da - 53 /\ ez <= db - 53 /\ ez <= 0) by (subst ez; lia).
  rewrite !shl_align_fst by lia.
  rewrite EMa, EMb, <- !Z.mul_assoc, <- !Z.pow_add_r by lia.
  replace (53 - da + (da - 53 - ez)) with (- ez) by lia.
  replace (53 - db + (db - 53 - ez)) with (- ez) by lia.
  rewrite <- Z.mul_add_distr_r.
  change (Zpos a + Zpos b) with (Zpos (a + b)).
  assert (P : 0 < 2 ^ (- ez)) by (apply Z.pow_pos_nonneg; lia).
  destruct (Zpos (a + b) * 2 ^ (- ez)) as [|sm|sm] eqn:S; [lia| |lia].
  unfold binary_normalize.
  assert (R := binary_round_canon false sm (a + b) (- ez) ltac:(lia)
                 (eq_sym S) Dab).
  rewrite Z.opp_involutive in R. exact R.
Qed.

Lemma shr_fexp_snd (m e : Z) (l : location) :
  snd (shr_fexp JS.prec JS.emax m e l) =
  Z.max e (fexp JS.prec JS.emax (Zdigits2 m + e)).
Proof.
  unfold shr_fexp, shr.
  destruct (fexp JS.prec JS.emax (Zdigits2 m + e) - e) as [|p|p] eqn:C;
    cbn [snd]; lia.
Qed.

(** Rounding a positive mantissa gives an infinity or a finite number
    whose exponent is not below the canonical one of the mantissa. *)
Lemma round_aux_shape (s : bool) (m : positive) (e : Z) (l : location) :
  JS.emin <= e ->
  let r := binary_round_aux JS.prec JS.emax s (Zpos m) e l in
  r = S754_infinity s \/
  exists m' e',
    r = S754_finite s m' e' /\
    Z.max e (Zpos (digits2_pos m) + e - 53) <= e'.
Proof.
  intros He r. subst r. unfold binary_round_aux.
  destruct (shr_fexp_pos m e l He) as [H1 H2].
  pose proof (shr_fexp_snd (Zpos m) e l) as S1.
  destruct (shr_fexp JS.prec JS.emax (Zpos m) e l) as [mrs' e'].
  cbn [fst snd] in H1, H2, S1.
  pose proof (round_nearest_even_pos (shr_m mrs') (loc_of_shr_record mrs') H1)
    as H3.
  destruct (round_nearest_even (shr_m mrs') (loc_of_shr_record mrs'))
    as [|m'|m']; try lia.
  destruct (shr_fexp_pos m' e' loc_Exact H2) as [H4 _].
  pose proof (shr_fexp_snd (Zpos m') e' loc_Exact) as S2.
  destruct (shr_fexp JS.prec JS.emax (Zpos m') e' loc_Exact) as [mrs'' e''].
  cbn [fst snd] in H4, S2.
  destruct (shr_m mrs'') as [|m''|m'']; try lia.
  destruct (e'' <=? JS.emax - JS.prec); [right|now left].
  exists m'', e''. split; [reflexivity|].
  cbn [Zdigits2] in S1.
  unfold fexp, JS.emin, SpecFloat.emin, JS.prec, JS.emax in *. lia.
Qed.

Lemma binary_round_shape (s : bool) (m : positive) :
  let r := binary_round JS.prec JS.emax s m 0 in
  r = S754_infinity s \/
  exists m' e',
    r = S754_finite s m' e' /\ Zpos (digits2_pos m) - 53 <= e'.
Proof.
  intros r. subst r. unfold binary_round, shl_align.
  set (d := Zpos (digits2_pos m)).
  assert (Hd : 1 <= d) by (subst d; lia).
  assert (F : fexp JS.prec JS.emax (d + 0) = d - 53).
  { unfold fexp, JS.emin, SpecFloat.emin, JS.prec, JS.emax. lia. }
  rewrite F.
  destruct (d - 53 - 0) as [|p|p] eqn:C.
  - destruct (round_aux_shape s m 0 loc_Exact) as [R|(m' & e' & R & B)];
      [unfold JS.emin, SpecFloat.emin, JS.prec, JS.emax; lia|now left|].
    right. exists m', e'. split; [exact R|]. fold d in B. lia.
  - destruct (round_aux_shape s m 0 loc_Exact) as [R|(m' & e' & R & B)];
      [unfold JS.emin, SpecFloat.emin, JS.prec, JS.emax; lia|now left|].
    right. exists m', e'. split; [exact R|]. fold d in B. lia.
  - destruct (round_aux_shape s (Pos.iter xO m p) (d - 53) loc_Exact)
      as [R|(m' & e' & R & B)];
      [unfold JS.emin, SpecFloat.emin, JS.prec, JS.emax; lia|now left|].
    right. exists m', e'. split; [exact R|]. lia.
Qed.

(** Between integers of which one is below [2^53], [>=] on the doubles is
    [>=] on the integers. *)
Lemma of_Z_ge (t n : Z) :
  0 < t < 2 ^ 53 ->
  JS.ge (JS.of_Z n) (JS.of_Z t) = (t <=? n).
Proof.
  intros [Ht0 Ht].
  destruct t as [|t|t]; try lia. clear Ht0.
  rewrite (of_Z_canon t Ht).
  pose proof (digits2_pos_small t Ht) as Dt.
  pose proof (digits2_pos_lower t) as Lt_.
  pose proof (digits2_pos_upper t) as Ut.
  set (dt := Zpos (digits2_pos t)) in *.
  assert (Hdt : 1 <= dt) by (subst dt; lia).
  set (Mt := Z.to_pos (Zpos t * 2 ^ (53 - dt))).
  assert (EMt : Zpos Mt = Zpos t * 2 ^ (53 - dt)).
  { subst Mt. rewrite Z2Pos.id; [reflexivity|].
    apply Z.mul_pos_pos; [lia|apply Z.pow_pos_nonneg; lia]. }
  unfold JS.ge, SFleb.
  destruct n as [|n|n].
  - (* 0 *)
    change (JS.of_Z 0) with (S754_zero false). cbn [SFcompare].
    symmetry. apply Z.leb_gt. lia.
  - (* a positive integer *)
    destruct (Z.lt_ge_cases (Zpos n) (2 ^ 53)) as [Hn|Hn].
    + rewrite (of_Z_canon n Hn).
      pose proof (digits2_pos_small n Hn) as Dn.
      pose proof (digits2_pos_lower n) as Ln.
      pose proof (digits2_pos_upper n) as Un.
      set (dn := Zpos (digits2_pos n)) in *.
      assert (Hdn : 1 <= dn) by (subst dn; lia).
      set (Mn := Z.to_pos (Zpos n * 2 ^ (53 - dn))).
      assert (EMn : Zpos Mn = Zpos n * 2 ^ (53 - dn)).
      { subst Mn. rewrite Z2Pos.id; [reflexivity|].
        apply Z.mul_pos_pos; [lia|apply Z.pow_pos_nonneg; lia]. }
      cbn [SFcompare].
      destruct (Z.compare_spec (dt - 53) (dn - 53)) as [C|C|C].
      * assert (D : dt = dn) by lia.
        change (Pos.compare_cont Eq Mt Mn) with (Pos.compare Mt Mn).
        rewrite Pos2Z.inj_compare, EMt, EMn, D.
        assert (P : 0 < 2 ^ (53 - dn)) by (apply Z.pow_pos_nonneg; lia).
        destruct (Z.compare_spec (Zpos t * 2 ^ (53 - dn))
                    (Zpos n * 2 ^ (53 - dn))) as [E|E|E];
          symmetry; [apply Z.leb_le|apply Z.leb_le|apply Z.leb_gt]; nia.
      * symmetry. apply Z.leb_le.
        assert (2 ^ dt <= 2 ^ (dn - 1)) by (apply Z.pow_le_mono_r; lia).
        lia.
      * symmetry. apply Z.leb_gt.
        assert (2 ^ dn <= 2 ^ (dt - 1)) by (apply Z.pow_le_mono_r; lia).
        lia.
    + assert (T : (Zpos t <=? Zpos n) = true) by (apply Z.leb_le; lia).
      rewrite T. unfold JS.of_Z, binary_normalize.
      pose proof (digits2_pos_upper n) as Un.
      assert (Dn : 54 <= Zpos (digits2_pos n)).
      { destruct (Z.lt_ge_cases (Zpos (digits2_pos n)) 54) as [C|C]; [|exact C].
        assert (2 ^ Zpos (digits2_pos n) <= 2 ^ 53)
          by (apply Z.pow_le_mono_r; lia).
        lia. }
      destruct (binary_round_shape false n) as [R|(m' & e' & R & B)];
        rewrite R; cbn [SFcompare]; [reflexivity|].
      destruct (Z.compare_spec (dt - 53) e') as [C|C|C];
        first [reflexivity | lia].
  - (* a negative integer *)
    assert (T : (Zpos t <=? Zneg n) = false) by (apply Z.leb_gt; lia).
    rewrite T. unfold JS.of_Z, binary_normalize.
    destruct (binary_round_shape true n) as [R|(m' & e' & R & B)];
      rewrite R; reflexivity.
Qed.

(** *** Numbers that are not negative *)








End NumberFacts.

(* ================================================================== *)
(** ** Statistics aggregator *)
(* ================================================================== *)

Section Aggregates.
Import Api.

Lemma totalCount_cons (s : ShotStats) (shots : list ShotStats) :
  Spec.totalCount (s :: shots) = count s + Spec.totalCount shots.
Proof. reflexivity. Qed.


Lemma totalCount_nonneg (l : list ShotStats) :
  Forall (fun s => 0 <= count s) l -> 0 <= Spec.totalCount l.
Proof.
  induction 1 as [|s l Hs _ IH]; [cbn; lia|].
  rewrite totalCount_cons. lia.
Qed.


Lemma totalCount_app (l l' : list ShotStats) :
  Spec.totalCount (l ++ l') = Spec.totalCount l + Spec.totalCount l'.
Proof.
  induction l as [|s l IH]; [reflexivity|].
  cbn [app]. rewrite !totalCount_cons, IH. lia.
Qed.

(** As long as the integer total stays below [2^53], the additions of
    the counts in doubles are exact: the loop's total is the double of
    the integer sum. *)
Lemma counts_exact (shots : list ShotStats) (c : Z) :
  0 <= c ->
  Forall (fun s => 0 <= count s) shots ->
  c + Spec.totalCount shots < 2 ^ 53 ->
  countsFrom (JS.of_Z c) shots = JS.of_Z (c + Spec.totalCount shots).
Proof.
  intros Hc H. revert c Hc.
  induction H as [|s l Hs H IH]; intros c Hc B.
  - cbn. now rewrite Z.add_0_r.
  - rewrite totalCount_cons in *.
    pose proof (totalCount_nonneg l H).
    unfold countsFrom in *. cbn [map fold_left].
    rewrite add_of_Z by lia. rewrite IH by lia. f_equal. lia.
Qed.

Lemma counts_exact_zero (shots : list ShotStats) :
  Forall (fun s => 0 <= count s) shots ->
  Spec.totalCount shots < 2 ^ 53 ->
  countsFrom JS.zero shots = JS.of_Z (Spec.totalCount shots).
Proof.
  intros H B. change JS.zero with (JS.of_Z 0).
  rewrite counts_exact by (try exact H; lia). now rewrite Z.add_0_l.
Qed.


Lemma truthy_of_Z (z : Z) : JS.truthy (JS.of_Z z) = negb (z =? 0).
Proof.
  destruct (Z.eqb_spec z 0) as [->|N]; [reflexivity|].
  destruct (of_Z_nonzero z N) as [H1 H2].
  unfold JS.truthy. now rewrite H1, H2.
Qed.

(** The three accumulators of [summarizeShots] are three independent
    sums. *)
Lemma profile_summarize_fold (shots : list ShotStats)
  (tc sa ss : JS.number) :
  fold_left ProfilePage.summarize_step shots (tc, sa, ss) =
  (countsFrom tc shots,
   termsFrom average_confidence sa shots,
   termsFrom average_speed_mps ss shots).
Proof.
  revert tc sa ss. induction shots as [|s shots IH]; intros; [reflexivity|].
  cbn [fold_left ProfilePage.summarize_step]. now rewrite IH.
Qed.

Lemma analytics_summarize_step_eq :
  AnalyticsPage.summarize_step = ProfilePage.summarize_step.
Proof. reflexivity. Qed.

(** A quotient by a total that is the double of the integer total, behind
    the truthiness guard, is the weighted mean. *)
Lemma guarded_quotient (value : ShotStats -> JS.number)
  (shots : list ShotStats) :
  (if JS.truthy (JS.of_Z (Spec.totalCount shots))
   then JS.div (termsFrom value JS.zero shots)
          (JS.of_Z (Spec.totalCount shots))
   else JS.zero) =
  Spec.weightedMean value shots.
Proof.
  rewrite truthy_of_Z. unfold Spec.weightedMean, Spec.weightedSum, termsFrom.
  now destruct (Spec.totalCount shots =? 0).
Qed.

Lemma profile_summarize_weighted (shots : list ShotStats) :
  Forall (fun s => 0 <= count s) shots ->
  Spec.totalCount shots < 2 ^ 53 ->
  ProfilePage.avgAccuracy (ProfilePage.summarizeShots shots) =
    Spec.weightedMean average_confidence shots /\
  ProfilePage.avgSpeed (ProfilePage.summarizeShots shots) =
    Spec.weightedMean average_speed_mps shots.
Proof.
  intros H B.
  destruct shots as [|s shots]; [split; reflexivity|].
  unfold ProfilePage.summarizeShots.
  rewrite profile_summarize_fold.
  rewrite !(counts_exact_zero _ H B).
  cbn [ProfilePage.avgAccuracy ProfilePage.avgSpeed].
  split; apply guarded_quotient.
Qed.

Lemma analytics_summarize_weighted (shots : list ShotStats) :
  Forall (fun s => 0 <= count s) shots ->
  Spec.totalCount shots < 2 ^ 53 ->
  AnalyticsPage.avgAccuracy (AnalyticsPage.summarizeShots shots) =
    Spec.weightedMean average_confidence shots /\
  AnalyticsPage.avgSpeed (AnalyticsPage.summarizeShots shots) =
    Spec.weightedMean average_speed_mps shots.
Proof.
  intros H B.
  destruct shots as [|s shots]; [split; reflexivity|].
  unfold AnalyticsPage.summarizeShots.
  rewrite analytics_summarize_step_eq, profile_summarize_fold.
  rewrite !(counts_exact_zero _ H B).
  cbn [AnalyticsPage.avgAccuracy AnalyticsPage.avgSpeed].
  split; apply guarded_quotient.
Qed.

(** The two accumulators of the career loop, over one session. *)
Lemma overall_step_fold (shots : list ShotStats) (oc os : JS.number) :
  fold_left ProfilePage.overall_step shots (oc, os) =
  (countsFrom oc shots, termsFrom average_confidence os shots).
Proof.
  revert oc os. induction shots as [|s shots IH]; intros; [reflexivity|].
  cbn [fold_left ProfilePage.overall_step]. now rewrite IH.
Qed.

(** The nested loops over the sessions are one loop over all the shots. *)
Lemma nested_fold_concat (sessions : list SessionStats)
  (acc : JS.number * JS.number) :
  fold_left
    (fun acc session =>
       fold_left ProfilePage.overall_step (shots session) acc)
    sessions acc =
  fold_left ProfilePage.overall_step (Spec.allShots sessions) acc.
Proof.
  revert acc.
  induction sessions as [|session sessions IH]; intros acc; [reflexivity|].
  unfold Spec.allShots in *. cbn [fold_left map List.concat].
  now rewrite fold_left_app, IH.
Qed.

Lemma profile_overallTotals (sessions : list SessionStats) :
  ProfilePage.overallTotals sessions =
  (countsFrom JS.zero (Spec.allShots sessions),
   termsFrom average_confidence JS.zero (Spec.allShots sessions)).
Proof.
  unfold ProfilePage.overallTotals.
  now rewrite nested_fold_concat, overall_step_fold.
Qed.

Lemma analytics_overallTotals (sessions : list SessionStats) :
  AnalyticsPage.overallTotals sessions =
  ProfilePage.overallTotals sessions.
Proof. reflexivity. Qed.

Lemma profile_overall_weighted (sessions : list SessionStats) :
  Forall (fun s => 0 <= count s) (Spec.allShots sessions) ->
  Spec.totalCount (Spec.allShots sessions) < 2 ^ 53 ->
  ProfilePage.overallCount sessions =
    JS.of_Z (Spec.totalCount (Spec.allShots sessions)) /\
  ProfilePage.overallAccuracy sessions =
    Spec.weightedMean average_confidence (Spec.allShots sessions).
Proof.
  intros H B.
  unfold ProfilePage.overallAccuracy, ProfilePage.overallCount,
    ProfilePage.overallAccSum.
  rewrite profile_overallTotals. cbn [fst snd].
  rewrite !(counts_exact_zero _ H B).
  split; [reflexivity|apply guarded_quotient].
Qed.

Lemma analytics_overall_weighted (sessions : list SessionStats) :
  Forall (fun s => 0 <= count s) (Spec.allShots sessions) ->
  Spec.totalCount (Spec.allShots sessions) < 2 ^ 53 ->
  AnalyticsPage.overallCount sessions =
    JS.of_Z (Spec.totalCount (Spec.allShots sessions)) /\
  AnalyticsPage.overallAccuracy sessions =
    Spec.weightedMean average_confidence (Spec.allShots sessions).
Proof. exact (profile_overall_weighted sessions). Qed.

(** The dashboard loop: the first two accumulators. *)
Lemma dashboard_totals_fold (shots : list ShotStats)
  (tc sa : JS.number) (ps : option ShotStats) :
  fst (fold_left DashboardPage.totals_step shots (tc, sa, ps)) =
  (countsFrom tc shots, termsFrom average_confidence sa shots).
Proof.
  revert tc sa ps. induction shots as [|s shots IH]; intros; [reflexivity|].
  cbn [fold_left DashboardPage.totals_step]. now rewrite IH.
Qed.

Lemma dashboard_overall_weighted (shotStatsList : list ShotStats) :
  Forall (fun s => 0 <= count s) shotStatsList ->
  Spec.totalCount shotStatsList < 2 ^ 53 ->
  DashboardPage.totalSwings shotStatsList =
    JS.of_Z (Spec.totalCount shotStatsList) /\
  DashboardPage.overallAccuracy shotStatsList =
    Spec.weightedMean average_confidence shotStatsList.
Proof.
  intros H B.
  unfold DashboardPage.overallAccuracy, DashboardPage.totalSwings,
    DashboardPage.accWeightedSum, DashboardPage.totals.
  rewrite dashboard_totals_fold. cbn [fst snd].
  rewrite !(counts_exact_zero _ H B).
  split; [reflexivity|apply guarded_quotient].
Qed.

(** The dashboard computes its overall accuracy as [summarizeShots]
    computes the accuracy of a session. *)
Lemma dashboard_is_summary (shotStatsList : list ShotStats) :
  DashboardPage.overallAccuracy shotStatsList =
    ProfilePage.avgAccuracy (ProfilePage.summarizeShots shotStatsList) /\
  DashboardPage.overallAccuracy shotStatsList =
    AnalyticsPage.avgAccuracy (AnalyticsPage.summarizeShots shotStatsList).
Proof.
  destruct shotStatsList as [|s l]; [split; reflexivity|].
  unfold DashboardPage.overallAccuracy, DashboardPage.totalSwings,
    DashboardPage.accWeightedSum, DashboardPage.totals,
    ProfilePage.summarizeShots, AnalyticsPage.summarizeShots.
  rewrite dashboard_totals_fold, analytics_summarize_step_eq,
    profile_summarize_fold.
  split; reflexivity.
Qed.



(** *** Averages that are numbers *)




End Aggregates.

Section AggregateClaims.
Import Api.

(** C1: the overall accuracy and speed of [summarizeShots] (on both pages)
    and the career-wide overall accuracy over all sessions are the
    count-weighted mean: the sum of average * count over the shot entries
    divided by the sum of the counts, 0 when the total count is 0.  The
    pages add the counts up in doubles; the quotient is by the integer
    sum of the counts for counts that are not negative and whose sum is
    below 2^53, where no addition of counts rounds.  The computation is
    not the unweighted mean of the per-shot averages, from which it
    differs as soon as the counts are unequal. *)
Theorem overall_average_is_count_weighted :
  (forall shots,
     Forall (fun s => 0 <= count s) shots ->
     Spec.totalCount shots < 2 ^ 53 ->
     ProfilePage.avgAccuracy (ProfilePage.summarizeShots shots) =
       Spec.weightedMean average_confidence shots /\
     ProfilePage.avgSpeed (ProfilePage.summarizeShots shots) =
       Spec.weightedMean average_speed_mps shots /\
     AnalyticsPage.avgAccuracy (AnalyticsPage.summarizeShots shots) =
       Spec.weightedMean average_confidence shots /\
     AnalyticsPage.avgSpeed (AnalyticsPage.summarizeShots shots) =
       Spec.weightedMean average_speed_mps shots) /\
  (forall sessions,
     Forall (fun s => 0 <= count s) (Spec.allShots sessions) ->
     Spec.totalCount (Spec.allShots sessions) < 2 ^ 53 ->
     (Forall (fun s => JSObject.inherited (shot_type s) = false)
        (Spec.allShots sessions) ->
      ProfilePage.overallAccuracy sessions =
        Spec.weightedMean average_confidence (Spec.allShots sessions)) /\
     AnalyticsPage.overallAccuracy sessions =
       Spec.weightedMean average_confidence (Spec.allShots sessions)) /\
  (forall value shots,
     Spec.totalCount shots = 0 -> Spec.weightedMean value shots = JS.zero) /\
  (ProfilePage.avgAccuracy (ProfilePage.summarizeShots unequalCounts) =
     JS.dec 25 100 /\
   Spec.unweightedMean average_confidence unequalCounts = JS.dec 5 10 /\
   ProfilePage.avgSpeed (ProfilePage.summarizeShots unequalCounts) =
     JS.dec 175 10 /\
   Spec.unweightedMean average_speed_mps unequalCounts = JS.of_Z 15 /\
   ProfilePage.overallAccuracy
     [ {| session_id := "s1"; shots := unequalCounts |} ] <>
   Spec.unweightedMean average_confidence unequalCounts).
Proof.
  split; [|split; [|split]].
  - intros shots H B.
    destruct (profile_summarize_weighted shots H B) as [P1 P2].
    destruct (analytics_summarize_weighted shots H B) as [A1 A2].
    now repeat split.
  - intros sessions H B. split.
    + intros _. apply (profile_overall_weighted sessions H B).
    + apply (analytics_overall_weighted sessions H B).
  - intros value shots H. unfold Spec.weightedMean. now rewrite H.
  - repeat split. vm_compute. discriminate.
Qed.

Lemma overall_average_is_count_weighted_witness :
  ProfilePage.avgAccuracy (ProfilePage.summarizeShots unequalCounts) =
    Spec.weightedMean average_confidence unequalCounts /\
  Spec.weightedMean average_confidence [emptyEntry; emptyEntry] = JS.zero.
Proof.
  split.
  - apply (proj1 overall_average_is_count_weighted unequalCounts).
    + repeat constructor; cbn; lia.
    + reflexivity.
  - exact (proj1 (proj2 (proj2 overall_average_is_count_weighted))
             average_confidence [emptyEntry; emptyEntry] eq_refl).
Defined.

(** Past 2^53 the additions of counts round, and the quotient is by the
    rounded total: with counts 2^53, 1 and 1 at accuracy 1 the pages
    show 1, where the quotient by the integer total is the double
    below 1. *)
Example counts_beyond_2_53 :
  let shots :=
    [entry "Smash" (2 ^ 53) (JS.of_Z 1); entry "Push" 1 (JS.of_Z 1);
     entry "Block" 1 (JS.of_Z 1)] in
  ProfilePage.avgAccuracy (ProfilePage.summarizeShots shots) = JS.of_Z 1 /\
  Spec.weightedMean average_confidence shots =
    S754_finite false 0x1ffffffffffffe (-53).
Proof. split; vm_compute; reflexivity. Qed.




End AggregateClaims.

(* ================================================================== *)
(** ** Level classifier *)
(* ================================================================== *)

(** C2: the level is a total function of (overallCount, overallAccuracy):
    Pro when the count is at least 400 and the accuracy at least 0.80;
    otherwise Veteran when the count is at least 200 and the accuracy at
    least 0.65; otherwise Amateur.  The Pro test comes first, so an input
    that meets both pairs of thresholds is Pro; (400, 0.80) is Pro,
    (399, 0.80) is Veteran and (150, 0.90) is Amateur.  The count is the
    double of an integer, on which the two tests of the code are the
    comparisons of the integer with 400 and 200; the same rules hold of
    any number in its place. *)
Theorem level_classifier :
  (forall n a,
     let pro := 400 <= n /\ JS.ge a (JS.dec 80 100) = true in
     let veteran := 200 <= n /\ JS.ge a (JS.dec 65 100) = true in
     (pro -> ProfilePage.level_of (JS.of_Z n) a = ProfilePage.Pro) /\
     (~ pro -> veteran ->
      ProfilePage.level_of (JS.of_Z n) a = ProfilePage.Veteran) /\
     (~ pro -> ~ veteran ->
      ProfilePage.level_of (JS.of_Z n) a = ProfilePage.Amateur) /\
     (pro -> veteran -> ProfilePage.level_of (JS.of_Z n) a = ProfilePage.Pro)) /\
  (forall c a,
     let pro :=
       JS.ge c (JS.of_Z 400) = true /\ JS.ge a (JS.dec 80 100) = true in
     let veteran :=
       JS.ge c (JS.of_Z 200) = true /\ JS.ge a (JS.dec 65 100) = true in
     (pro -> ProfilePage.level_of c a = ProfilePage.Pro) /\
     (~ pro -> veteran -> ProfilePage.level_of c a = ProfilePage.Veteran) /\
     (~ pro -> ~ veteran -> ProfilePage.level_of c a = ProfilePage.Amateur)) /\
  (forall n,
     JS.ge (JS.of_Z n) (JS.of_Z 400) = (400 <=? n) /\
     JS.ge (JS.of_Z n) (JS.of_Z 200) = (200 <=? n)) /\
  (forall sessions,
     ProfilePage.level sessions =
     ProfilePage.level_of (ProfilePage.overallCount sessions)
       (ProfilePage.overallAccuracy sessions)) /\
  (forall sessions,
     Forall (fun s => 0 <= Api.count s) (Spec.allShots sessions) ->
     Spec.totalCount (Spec.allShots sessions) < 2 ^ 53 ->
     ProfilePage.overallCount sessions =
     JS.of_Z (Spec.totalCount (Spec.allShots sessions))) /\
  ProfilePage.level_of (JS.of_Z 400) (JS.dec 80 100) = ProfilePage.Pro /\
  ProfilePage.level_of (JS.of_Z 399) (JS.dec 80 100) = ProfilePage.Veteran /\
  ProfilePage.level_of (JS.of_Z 150) (JS.dec 90 100) = ProfilePage.Amateur.
Proof.
  assert (E8 : JS.dec 8 10 = JS.dec 80 100) by reflexivity.
  assert (G : forall n,
            JS.ge (JS.of_Z n) (JS.of_Z 400) = (400 <=? n) /\
            JS.ge (JS.of_Z n) (JS.of_Z 200) = (200 <=? n)).
  { intros n. split; apply of_Z_ge; lia. }
  assert (R : forall c a,
            let pro :=
              JS.ge c (JS.of_Z 400) = true /\ JS.ge a (JS.dec 80 100) = true in
            let veteran :=
              JS.ge c (JS.of_Z 200) = true /\ JS.ge a (JS.dec 65 100) = true in
            (pro -> ProfilePage.level_of c a = ProfilePage.Pro) /\
            (~ pro -> veteran ->
             ProfilePage.level_of c a = ProfilePage.Veteran) /\
            (~ pro -> ~ veteran ->
             ProfilePage.level_of c a = ProfilePage.Amateur)).
  { intros c a pro veteran. subst pro veteran.
    unfold ProfilePage.level_of. rewrite E8.
    destruct (JS.ge c (JS.of_Z 400)) eqn:C4;
      destruct (JS.ge c (JS.of_Z 200)) eqn:C2;
      destruct (JS.ge a (JS.dec 80 100)) eqn:A8;
      destruct (JS.ge a (JS.dec 65 100)) eqn:A6;
      cbv beta iota delta [andb]; repeat split;
      intros; try reflexivity; intuition discriminate. }
  split; [|split; [exact R|split; [exact G|repeat split]]].
  - intros n a pro veteran. subst pro veteran.
    destruct (G n) as [G4 G2].
    destruct (R (JS.of_Z n) a) as (R1 & R2 & R3).
    rewrite G4 in R1, R2, R3. rewrite G2 in R2, R3.
    pose proof (Z.leb_le 400 n) as L4. pose proof (Z.leb_le 200 n) as L2.
    clear - R1 R2 R3 L4 L2. tauto.
  - intros sessions H B. apply (profile_overall_weighted sessions H B).
Qed.

Lemma level_classifier_witness :
  ProfilePage.level_of (JS.of_Z 400) (JS.dec 80 100) = ProfilePage.Pro /\
  ProfilePage.level_of (JS.of_Z 250) (JS.dec 70 100) = ProfilePage.Veteran /\
  ProfilePage.level_of (JS.of_Z 399) (JS.dec 60 100) = ProfilePage.Amateur.
Proof.
  split; [|split].
  - apply (proj1 (proj1 level_classifier 400 (JS.dec 80 100))).
    split; [lia|reflexivity].
  - apply (proj1 (proj2 (proj1 level_classifier 250 (JS.dec 70 100)))).
    + intros [H _]. lia.
    + split; [lia|reflexivity].
  - apply (proj1 (proj2 (proj2 (proj1 level_classifier 399 (JS.dec 60 100))))).
    + intros [H _]. lia.
    + intros [_ H]. vm_compute in H. discriminate H.
Defined.

(* ================================================================== *)
(** ** Feedback generator *)
(* ================================================================== *)

Section Feedback.
Import Api.

Lemma sort_insert_head {A : Type} (cmp : A -> A -> Z) (x d : A)
  (sorted : list A) :
  hd d (JSArray.sort_insert cmp x sorted) =
  match sorted with
  | [] => x
  | y :: _ => if cmp x y >? 0 then y else x
  end.
Proof.
  destruct sorted as [|y rest]; [reflexivity|].
  cbn [JSArray.sort_insert]. now destruct (cmp x y >? 0).
Qed.

Lemma sort_insert_length {A : Type} (cmp : A -> A -> Z) (x : A)
  (sorted : list A) :
  List.length (JSArray.sort_insert cmp x sorted) = S (List.length sorted).
Proof.
  induction sorted as [|y rest IH]; [reflexivity|].
  cbn [JSArray.sort_insert]. destruct (cmp x y >? 0); cbn [List.length]; congruence.
Qed.

Lemma sort_length {A : Type} (cmp : A -> A -> Z) (a : list A) :
  List.length (JSArray.sort cmp a) = List.length a.
Proof.
  induction a as [|x a IH]; [reflexivity|].
  unfold JSArray.sort in *. cbn [fold_right List.length].
  now rewrite sort_insert_length, IH.
Qed.

Lemma dominant_bounds (shots : list ShotStats) (p : ShotStats) :
  Spec.dominant shots p -> Forall (fun q => count q <= count p) shots.
Proof.
  intros (before & after & -> & Hb & Ha).
  apply Forall_app. split.
  - eapply Forall_impl; [|exact Hb]. cbn. intros; lia.
  - constructor; [lia|exact Ha].
Qed.

(** Element 0 of the array sorted by descending count is the dominant
    entry. *)
Lemma sorted_head_dominant (shots : list ShotStats) (d : ShotStats) :
  shots <> [] ->
  Spec.dominant shots (hd d (JSArray.sort ProfilePage.byCountDescending shots)).
Proof.
  induction shots as [|a rest IH]; [congruence|]. intros _.
  unfold JSArray.sort in *. cbn [fold_right].
  rewrite sort_insert_head.
  destruct rest as [|b rest'].
  - cbn. exists [], []. repeat split; constructor.
  - specialize (IH ltac:(discriminate)).
    pose proof (sort_length ProfilePage.byCountDescending (b :: rest')) as Hlen.
    unfold JSArray.sort in Hlen.
    destruct (fold_right (JSArray.sort_insert ProfilePage.byCountDescending)
                [] (b :: rest')) as [|y ys] eqn:E; [discriminate Hlen|].
    cbn [hd] in IH.
    unfold ProfilePage.byCountDescending at 1.
    destruct (count y - count a >? 0) eqn:C.
    + destruct IH as (before & after & Heq & Hb & Ha).
      exists (a :: before), after. rewrite Heq. repeat split; try assumption.
      constructor; [lia|assumption].
    + exists [], (b :: rest'). repeat split; [constructor|].
      pose proof (dominant_bounds _ _ IH) as Hall.
      eapply Forall_impl; [|exact Hall]. cbn. intros; lia.
Qed.

Lemma dominant_unique (shots : list ShotStats) (p q : ShotStats) :
  Spec.dominant shots p -> Spec.dominant shots q -> p = q.
Proof.
  intros (b1 & a1 & E1 & Hb1 & Ha1) (b2 & a2 & E2 & Hb2 & Ha2).
  subst shots. revert b2 E2 Hb2.
  induction b1 as [|x b1 IH]; intros b2 E2 Hb2.
  - destruct b2 as [|y b2]; cbn in E2.
    + congruence.
    + injection E2 as -> E2. subst a1.
      apply Forall_inv in Hb2.
      rewrite Forall_app in Ha1. destruct Ha1 as [_ Ha1].
      apply Forall_inv in Ha1. lia.
  - destruct b2 as [|y b2]; cbn in E2.
    + injection E2 as -> E2. subst a2.
      apply Forall_inv in Hb1.
      rewrite Forall_app in Ha2. destruct Ha2 as [_ Ha2].
      apply Forall_inv in Ha2. lia.
    + injection E2 as -> E2.
      apply (IH (Forall_inv_tail Hb1) b2 E2 (Forall_inv_tail Hb2)).
Qed.

(** The analytics page computes what the profile page computes. *)
Lemma analytics_summary_eq (shots : list ShotStats) :
  AnalyticsPage.avgAccuracy (AnalyticsPage.summarizeShots shots) =
    ProfilePage.avgAccuracy (ProfilePage.summarizeShots shots) /\
  AnalyticsPage.avgSpeed (AnalyticsPage.summarizeShots shots) =
    ProfilePage.avgSpeed (ProfilePage.summarizeShots shots).
Proof.
  destruct shots as [|s shots]; [split; reflexivity|].
  unfold AnalyticsPage.summarizeShots, ProfilePage.summarizeShots.
  rewrite analytics_summarize_step_eq.
  destruct (fold_left ProfilePage.summarize_step (s :: shots)
              (JS.zero, JS.zero, JS.zero)) as [[tc sa] ss].
  split; reflexivity.
Qed.

Lemma analytics_latest_accuracy_eq (sessions : list SessionStats) :
  AnalyticsPage.avgAccuracy (AnalyticsPage.latestSummary sessions) =
  ProfilePage.avgAccuracy (ProfilePage.latestSummary sessions).
Proof.
  unfold AnalyticsPage.latestSummary, ProfilePage.latestSummary.
  change (AnalyticsPage.latest sessions) with (ProfilePage.latest sessions).
  destruct (ProfilePage.latest sessions); [apply analytics_summary_eq|reflexivity].
Qed.

Lemma analytics_previous_accuracy_eq (sessions : list SessionStats) :
  AnalyticsPage.avgAccuracy (AnalyticsPage.prevSummary sessions) =
  ProfilePage.avgAccuracy (ProfilePage.prevSummary sessions).
Proof.
  unfold AnalyticsPage.prevSummary, ProfilePage.prevSummary.
  change (AnalyticsPage.previous sessions) with (ProfilePage.previous sessions).
  destruct (ProfilePage.previous sessions); [apply analytics_summary_eq|reflexivity].
Qed.

Lemma analytics_accuracyDelta_eq (sessions : list SessionStats) :
  AnalyticsPage.accuracyDelta sessions = ProfilePage.accuracyDelta sessions.
Proof.
  unfold AnalyticsPage.accuracyDelta, ProfilePage.accuracyDelta.
  now rewrite analytics_latest_accuracy_eq, analytics_previous_accuracy_eq.
Qed.

Lemma analytics_feedback_eq (numberToString : JS.number -> string)
  (sessions : list SessionStats) :
  AnalyticsPage.renderAIFeedback numberToString sessions =
  ProfilePage.renderAIFeedback numberToString sessions.
Proof.
  unfold AnalyticsPage.renderAIFeedback, ProfilePage.renderAIFeedback.
  rewrite analytics_latest_accuracy_eq, analytics_accuracyDelta_eq.
  reflexivity.
Qed.

(** The magnitude the regression text cites carries no minus sign. *)
Lemma regression_magnitude_unsigned (delta : JS.number) :
  JS.lt delta (JS.neg (JS.dec 2 100)) = true ->
  JS.is_negative (JS.mul (JS.neg delta) (JS.of_Z 100)) = false.
Proof.
  intros H. apply lt_negative_signbit in H. destruct H as [Hs Hn].
  destruct (mul_sign (JS.neg delta) (JS.of_Z 100)) as [E|E].
  - now destruct (JS.mul (JS.neg delta) (JS.of_Z 100)).
  - apply is_negative_signbit. rewrite E, neg_signbit, Hs by exact Hn.
    reflexivity.
Qed.

End Feedback.

Section FeedbackClaim.
Import Api.

(** C3: the feedback rules, first match winning.  (1) No latest session,
    or one without shot entries: the get-started text.  (2) No previous
    session: accuracy at least 90% gives the amazing-start text, else at
    least 75% the great-foundation text, else the beginning text; exactly
    90% and exactly 75% take the higher branch.  (3) A previous session:
    a delta above 0.02 gives the improvement text, a delta below -0.02 the
    regression text citing the magnitude without a sign, anything else the
    stable text; exactly +0.02 and exactly -0.02 are stable.  The shot the
    texts name is the entry of the latest session with the highest count,
    the first one among equals.  The seven texts are written out: they
    differ from one another from their first words on, the amazing-start,
    improvement and regression texts carry the rendered percentage, and
    all but the get-started and improvement texts name the shot. *)
Theorem feedback_rules (numberToString : JS.number -> string)
  (sessions : list SessionStats) :
  let feedback := ProfilePage.renderAIFeedback numberToString sessions in
  let accPct :=
    JS.mul (ProfilePage.avgAccuracy (ProfilePage.latestSummary sessions))
      (JS.of_Z 100) in
  let delta := ProfilePage.accuracyDelta sessions in
  let render := fun x => JS.toFixed numberToString x 1 in
  let getStarted :=
    "No swings recorded yet. Start a relaxed practice session on the dashboard and focus on smooth, consistent motion first." in
  let amazingStart := fun pct shot : string =>
    "Amazing start! Your overall accuracy is " ++ pct ++
    "%. Keep reinforcing your " ++ shot ++
    " and slowly add more advanced variations when you feel comfortable." in
  let greatFoundation := fun shot : string =>
    "Great foundation. You already have solid accuracy—keep polishing your " ++
    shot ++ " by focusing on smooth swings and a relaxed grip." in
  let beginning := fun shot : string =>
    "You are at the beginning of a strong journey. Start with controlled " ++
    shot ++
    " swings at lower speed and celebrate small improvements as your form gets more stable." in
  let improvement := fun pct : string =>
    "Nice improvement! Your average accuracy improved by " ++ pct ++
    "% compared to your last session. Whatever you changed is working—keep that routine and add a few fun challenges to push your stronger shots even further." in
  let regression := fun pct shot : string =>
    "Today was a slightly tougher session: accuracy was " ++ pct ++
    "% lower than last time, which is totally normal. Try a slower pace next time and focus on clean, repeatable " ++
    shot ++ " swings—your consistency will come back quickly." in
  let stable := fun shot : string =>
    "Your accuracy is stable compared to your last session—a good sign of consistency. For your next session, set a small goal: pick one shot (e.g. " ++
    shot ++
    ") and aim for a 5–10% accuracy boost while keeping your swing relaxed." in
  AnalyticsPage.renderAIFeedback numberToString sessions = feedback /\
  ((ProfilePage.latest sessions = None \/
    exists l, ProfilePage.latest sessions = Some l /\ shots l = []) ->
   feedback = getStarted) /\
  (forall l,
     ProfilePage.latest sessions = Some l -> shots l <> [] ->
     exists p,
       Spec.dominant (shots l) p /\
       (forall q, Spec.dominant (shots l) q -> q = p) /\
       (ProfilePage.previous sessions = None ->
        (JS.ge accPct (JS.of_Z 90) = true ->
         feedback = amazingStart (render accPct) (shot_type p)) /\
        (JS.ge accPct (JS.of_Z 90) = false ->
         JS.ge accPct (JS.of_Z 75) = true ->
         feedback = greatFoundation (shot_type p)) /\
        (JS.ge accPct (JS.of_Z 90) = false ->
         JS.ge accPct (JS.of_Z 75) = false ->
         feedback = beginning (shot_type p)) /\
        (accPct = JS.of_Z 90 ->
         feedback = amazingStart "90.0" (shot_type p)) /\
        (accPct = JS.of_Z 75 ->
         feedback = greatFoundation (shot_type p))) /\
       (ProfilePage.previous sessions <> None ->
        (JS.gt delta (JS.dec 2 100) = true ->
         feedback =
         improvement (render (JS.mul delta (JS.of_Z 100)))) /\
        (JS.gt delta (JS.dec 2 100) = false ->
         JS.lt delta (JS.neg (JS.dec 2 100)) = true ->
         feedback =
         regression (render (JS.mul (JS.neg delta) (JS.of_Z 100)))
           (shot_type p) /\
         JS.is_negative (JS.mul (JS.neg delta) (JS.of_Z 100)) = false) /\
        (JS.gt delta (JS.dec 2 100) = false ->
         JS.lt delta (JS.neg (JS.dec 2 100)) = false ->
         feedback = stable (shot_type p)) /\
        (delta = JS.dec 2 100 \/ delta = JS.neg (JS.dec 2 100) ->
         feedback = stable (shot_type p)))).
Proof.
  intros feedback accPct delta render getStarted amazingStart greatFoundation
    beginning improvement regression stable.
  split; [apply analytics_feedback_eq|].
  split.
  { intros [H | (l & H & Hs)]; subst feedback;
      unfold ProfilePage.renderAIFeedback; rewrite H; [reflexivity|].
    now rewrite Hs. }
  intros l Hl Hne.
  destruct (shots l) as [|first rest] eqn:Es; [congruence|].
  exists (hd first (JSArray.sort ProfilePage.byCountDescending (first :: rest))).
  split; [apply sorted_head_dominant; discriminate|].
  split.
  { intros q Hq. apply (dominant_unique (first :: rest)); [exact Hq|].
    apply sorted_head_dominant. discriminate. }
  subst feedback. unfold ProfilePage.renderAIFeedback. rewrite Hl, Es.
  fold accPct. fold delta.
  split.
  - intros Hp. rewrite Hp.
    repeat split.
    + intros H. now rewrite H.
    + intros H1 H2. now rewrite H1, H2.
    + intros H1 H2. now rewrite H1, H2.
    + intros H. rewrite H. reflexivity.
    + intros H. rewrite H. reflexivity.
  - intros Hp.
    destruct (ProfilePage.previous sessions) as [prev|]; [|congruence].
    split; [|split; [|split]].
    + intros H. now rewrite H.
    + intros H1 H2. split; [rewrite H1, H2; reflexivity|].
      apply regression_magnitude_unsigned. exact H2.
    + intros H1 H2. now rewrite H1, H2.
    + intros [H|H]; rewrite H; reflexivity.
Qed.

Lemma feedback_rules_witness :
  ProfilePage.renderAIFeedback noToString [session "s1" []] =
  "No swings recorded yet. Start a relaxed practice session on the dashboard and focus on smooth, consistent motion first." /\
  exists p,
    Spec.dominant
      [entry "Block" 2 (JS.dec 75 100); entry "Smash" 6 (JS.dec 75 100)] p /\
    ProfilePage.renderAIFeedback noToString from80to75 =
    "Today was a slightly tougher session: accuracy was " ++ "5.0" ++
    "% lower than last time, which is totally normal. Try a slower pace next time and focus on clean, repeatable " ++
    shot_type p ++ " swings—your consistency will come back quickly.".
Proof.
  split.
  - apply (proj1 (proj2 (feedback_rules noToString [session "s1" []]))).
    right. exists (session "s1" []). split; reflexivity.
  - destruct (proj2 (proj2 (feedback_rules noToString from80to75))
                (session "s2" [entry "Block" 2 (JS.dec 75 100);
                               entry "Smash" 6 (JS.dec 75 100)])
                eq_refl ltac:(discriminate))
      as (p & Hd & _ & _ & Hprev).
    exists p. split; [exact Hd|].
    destruct (Hprev ltac:(discriminate)) as (_ & Hregress & _).
    destruct (Hregress eq_refl eq_refl) as [Hmsg _].
    rewrite Hmsg. reflexivity.
Defined.

End FeedbackClaim.

(* ================================================================== *)
(** ** Trend engine *)
(* ================================================================== *)

Section Rendering.

Lemma length_append (a b : string) :
  String.length (a ++ b) = (String.length a + String.length b)%nat.
Proof. induction a as [|c a IH]; cbn; congruence. Qed.

Lemma length_zeros (k : nat) : String.length (JS.zeros k) = k.
Proof. induction k as [|k IH]; cbn; congruence. Qed.

Lemma length_substring (n m : nat) (s : string) :
  (n + m <= String.length s)%nat -> String.length (substring n m s) = m.
Proof.
  revert n m. induction s as [|c s IH]; intros n m H; cbn in H.
  - assert (n = O) by lia. assert (m = O) by lia. now subst.
  - destruct n as [|n]; cbn.
    + destruct m as [|m]; [reflexivity|]. cbn. rewrite IH; [reflexivity|lia].
    + apply IH. lia.
Qed.

(** A number placed with one fraction digit: digits, a point, one digit. *)
Lemma place_point_one_decimal (n : Z) :
  exists whole fraction,
    JS.place_point n 1 = whole ++ "." ++ fraction /\
    (1 <= String.length whole)%nat /\ String.length fraction = 1%nat.
Proof.
  unfold JS.place_point.
  set (m := if (String.length (JS.digits n) <=? 1)%nat
            then JS.zeros (1 + 1 - String.length (JS.digits n)) ++ JS.digits n
            else JS.digits n).
  assert (Hm : (2 <= String.length m)%nat).
  { subst m. destruct (Nat.leb_spec (String.length (JS.digits n)) 1) as [H|H].
    - rewrite length_append, length_zeros. lia.
    - lia. }
  exists (substring 0 (String.length m - 1) m),
         (substring (String.length m - 1) 1 m).
  split; [reflexivity|].
  rewrite !length_substring by lia. lia.
Qed.

(** [toFixed(1)] of a finite number below 10^21 in magnitude shows one
    decimal place. *)
Lemma toFixed_one_decimal (numberToString : JS.number -> string)
  (x : JS.number) :
  JS.is_finite x = true ->
  match x with
  | S754_finite _ m e => JS.ge_1e21 m e = false
  | _ => True
  end ->
  exists sign whole fraction,
    JS.toFixed numberToString x 1 = sign ++ whole ++ "." ++ fraction /\
    (sign = "" \/ sign = "-") /\
    (1 <= String.length whole)%nat /\ String.length fraction = 1%nat.
Proof.
  destruct x as [s|s| |s m e]; cbn [JS.is_finite]; try discriminate;
    intros _ Hsmall.
  - destruct (place_point_one_decimal 0) as (w & f & E & Hw & Hf).
    exists "", w, f. cbn [JS.toFixed]. rewrite E. auto.
  - destruct (place_point_one_decimal (JS.scaled_round m e 1))
      as (w & f & E & Hw & Hf).
    exists (if s then "-" else ""), w, f.
    cbn [JS.toFixed]. rewrite Hsmall, E.
    destruct s; auto.
Qed.

End Rendering.

Section Trend.
Import Api.

Lemma signbit_100 : JS.signbit (JS.of_Z 100) = false.
Proof. reflexivity. Qed.

(** In the decrease branch the rendered number, [-pct], is [|pct|]. *)
Lemma decrease_renders_magnitude (delta : JS.number) :
  JS.lt (JS.abs (JS.mul delta (JS.of_Z 100))) (JS.dec 1 1000) = false ->
  JS.gt delta JS.zero = false ->
  JS.neg (JS.mul delta (JS.of_Z 100)) = JS.abs (JS.mul delta (JS.of_Z 100)).
Proof.
  intros Hsmall Hgt.
  destruct (not_gt_zero delta Hgt) as [Hn | [[s ->] | Hs]].
  - destruct delta; try discriminate Hn. reflexivity.
  - rewrite zero_times_100_small in Hsmall. discriminate Hsmall.
  - apply neg_is_abs.
    destruct (mul_sign delta (JS.of_Z 100)) as [E|E]; [now left|right].
    now rewrite E, Hs, signbit_100.
Qed.

(** No change between two sessions of the same finite accuracy. *)
Lemma equal_accuracy_no_change (numberToString : JS.number -> string)
  (sessions : list SessionStats) :
  ProfilePage.previous sessions <> None ->
  ProfilePage.avgAccuracy (ProfilePage.latestSummary sessions) =
  ProfilePage.avgAccuracy (ProfilePage.prevSummary sessions) ->
  JS.is_finite (ProfilePage.avgAccuracy (ProfilePage.latestSummary sessions))
  = true ->
  ProfilePage.renderDeltaLabel numberToString sessions
    (ProfilePage.accuracyDelta sessions) "accuracy" = "no change in accuracy".
Proof.
  intros Hp Heq Hfin.
  unfold ProfilePage.renderDeltaLabel, ProfilePage.accuracyDelta.
  destruct (ProfilePage.previous sessions); [|congruence].
  rewrite <- Heq, sub_diag by exact Hfin.
  reflexivity.
Qed.

End Trend.

Section TrendClaims.
Import Api.

(** C4: the trend label.  Without a previous session it is
    "no previous data".  Otherwise, with pct = delta * 100: "no change in
    <unit>" when |pct| < 0.001; "<pct>% increase in <unit>" when
    delta > 0; "<|pct|>% decrease in <unit>" otherwise; the percentage is
    rendered by toFixed(1), one decimal place for every finite percentage
    below 10^21.  When the latest and the previous session have the same
    finite accuracy the label is "no change in accuracy". *)
Theorem delta_label (numberToString : JS.number -> string)
  (sessions : list SessionStats) (delta : JS.number) (unit : string) :
  let label :=
    ProfilePage.renderDeltaLabel numberToString sessions delta unit in
  let pct := JS.mul delta (JS.of_Z 100) in
  let render := fun x => JS.toFixed numberToString x 1 in
  AnalyticsPage.renderDeltaLabel numberToString sessions delta unit = label /\
  (ProfilePage.previous sessions = None -> label = "no previous data") /\
  (ProfilePage.previous sessions <> None ->
   (JS.lt (JS.abs pct) (JS.dec 1 1000) = true ->
    label = "no change in " ++ unit) /\
   (JS.lt (JS.abs pct) (JS.dec 1 1000) = false ->
    JS.gt delta JS.zero = true ->
    label = render pct ++ "% increase in " ++ unit) /\
   (JS.lt (JS.abs pct) (JS.dec 1 1000) = false ->
    JS.gt delta JS.zero = false ->
    label = render (JS.abs pct) ++ "% decrease in " ++ unit)) /\
  (forall x,
     JS.is_finite x = true ->
     match x with
     | S754_finite _ m e => JS.ge_1e21 m e = false
     | _ => True
     end ->
     exists sign whole fraction,
       render x = sign ++ whole ++ "." ++ fraction /\
       (sign = "" \/ sign = "-") /\
       (1 <= String.length whole)%nat /\ String.length fraction = 1%nat) /\
  (ProfilePage.previous sessions <> None ->
   ProfilePage.avgAccuracy (ProfilePage.latestSummary sessions) =
   ProfilePage.avgAccuracy (ProfilePage.prevSummary sessions) ->
   JS.is_finite (ProfilePage.avgAccuracy (ProfilePage.latestSummary sessions))
   = true ->
   ProfilePage.renderDeltaLabel numberToString sessions
     (ProfilePage.accuracyDelta sessions) "accuracy" =
   "no change in accuracy" /\
   AnalyticsPage.renderDeltaLabel numberToString sessions
     (AnalyticsPage.accuracyDelta sessions) "accuracy" =
   "no change in accuracy").
Proof.
  intros label pct render.
  split; [reflexivity|]. split; [|split; [|split]].
  - intros H. subst label. unfold ProfilePage.renderDeltaLabel. now rewrite H.
  - intros Hp. subst label. unfold ProfilePage.renderDeltaLabel.
    destruct (ProfilePage.previous sessions); [|congruence].
    fold pct. split; [|split].
    + intros H. now rewrite H.
    + intros H1 H2. now rewrite H1, H2.
    + intros H1 H2. rewrite H1, H2.
      subst pct render. cbv beta.
      now rewrite decrease_renders_magnitude.
  - intros x. apply toFixed_one_decimal.
  - intros Hp Heq Hfin.
    split; [now apply equal_accuracy_no_change|].
    rewrite analytics_accuracyDelta_eq.
    exact (equal_accuracy_no_change numberToString sessions Hp Heq Hfin).
Qed.

Lemma delta_label_witness :
  ProfilePage.renderDeltaLabel noToString [] JS.zero "accuracy" =
    "no previous data" /\
  ProfilePage.renderDeltaLabel noToString from80to75
    (ProfilePage.accuracyDelta from80to75) "accuracy" =
    "5.0% decrease in accuracy".
Proof.
  split.
  - exact (proj1 (proj2 (delta_label noToString [] JS.zero "accuracy"))
             eq_refl).
  - exact (proj2 (proj2
             (proj1 (proj2 (proj2
                (delta_label noToString from80to75
                   (ProfilePage.accuracyDelta from80to75) "accuracy")))
                ltac:(discriminate)))
             eq_refl eq_refl).
Defined.

End TrendClaims.

(* ================================================================== *)
(** ** Worked histories *)
(* ================================================================== *)

Section Histories.
Import Api.

Example feedback_examples :
  ProfilePage.renderAIFeedback noToString [] = Text.getStarted /\
  ProfilePage.renderAIFeedback noToString [session "s1" []] = Text.getStarted /\
  ProfilePage.renderAIFeedback noToString firstAt92 =
    Text.amazingStart "92.0" "Forehand" /\
  ProfilePage.renderAIFeedback noToString
    [session "s1" [entry "Chop" 10 (JS.dec 9 10)]] =
    Text.amazingStart "90.0" "Chop" /\
  ProfilePage.renderAIFeedback noToString
    [session "s1" [entry "Chop" 10 (JS.dec 75 100)]] =
    Text.greatFoundation "Chop" /\
  ProfilePage.renderAIFeedback noToString
    [session "s1" [entry "Chop" 10 (JS.dec 74 100)]] =
    Text.beginning "Chop" /\
  ProfilePage.renderAIFeedback noToString from80to85 =
    Text.improvement "5.0" /\
  ProfilePage.renderAIFeedback noToString from80to75 =
    Text.regression "5.0" "Smash" /\
  ProfilePage.accuracyDelta from0to002 = JS.dec 2 100 /\
  ProfilePage.renderAIFeedback noToString from0to002 = Text.stable "Serve" /\
  ProfilePage.accuracyDelta from002to0 = JS.neg (JS.dec 2 100) /\
  ProfilePage.renderAIFeedback noToString from002to0 = Text.stable "Serve".
Proof. repeat split; vm_compute; reflexivity. Qed.

Example label_examples :
  ProfilePage.renderDeltaLabel noToString [] JS.zero "accuracy" =
    "no previous data" /\
  ProfilePage.renderDeltaLabel noToString from80to85
    (ProfilePage.accuracyDelta from80to85) "accuracy" =
    "5.0% increase in accuracy" /\
  ProfilePage.renderDeltaLabel noToString from80to75
    (ProfilePage.accuracyDelta from80to75) "accuracy" =
    "5.0% decrease in accuracy" /\
  ProfilePage.renderDeltaLabel noToString from80to85
    (ProfilePage.speedDelta from80to85) "speed" = "no change in speed" /\
  ProfilePage.renderDeltaLabel noToString from002to0
    (ProfilePage.speedDelta from002to0) "speed" = "no change in speed".
Proof. repeat split; vm_compute; reflexivity. Qed.

End Histories.

Section TrendExample.
Import Api.

(** C5, as the specification words it: latest 0.85 against previous 0.80
    would read "6.3% increase in accuracy".  It does not. *)
Lemma label_85_80_is_not_6_3 :
  ~ (forall (numberToString : JS.number -> string)
       (sessions : list SessionStats),
       ProfilePage.avgAccuracy (ProfilePage.latestSummary sessions) =
       JS.dec 85 100 ->
       ProfilePage.avgAccuracy (ProfilePage.prevSummary sessions) =
       JS.dec 80 100 ->
       ProfilePage.renderDeltaLabel numberToString sessions
         (ProfilePage.accuracyDelta sessions) "accuracy" =
       "6.3% increase in accuracy").
Proof.
  intros H.
  specialize (H noToString from80to85 eq_refl eq_refl).
  vm_compute in H. discriminate H.
Qed.

(** C5, amended: the label states the difference in percentage points,
    (0.85 - 0.80) * 100 rendered to one decimal place: latest 0.85 against
    previous 0.80 reads "5.0% increase in accuracy", on both pages. *)
Theorem label_85_80 (numberToString : JS.number -> string)
  (sessions : list SessionStats) :
  ProfilePage.avgAccuracy (ProfilePage.latestSummary sessions) =
  JS.dec 85 100 ->
  ProfilePage.avgAccuracy (ProfilePage.prevSummary sessions) =
  JS.dec 80 100 ->
  ProfilePage.renderDeltaLabel numberToString sessions
    (ProfilePage.accuracyDelta sessions) "accuracy" =
  "5.0% increase in accuracy" /\
  AnalyticsPage.renderDeltaLabel numberToString sessions
    (AnalyticsPage.accuracyDelta sessions) "accuracy" =
  "5.0% increase in accuracy".
Proof.
  intros Hl Hp.
  assert (P : ProfilePage.renderDeltaLabel numberToString sessions
                (ProfilePage.accuracyDelta sessions) "accuracy" =
              "5.0% increase in accuracy").
  { unfold ProfilePage.renderDeltaLabel, ProfilePage.accuracyDelta.
    rewrite Hl, Hp.
    unfold ProfilePage.prevSummary in Hp.
    destruct (ProfilePage.previous sessions).
    - vm_compute. reflexivity.
    - vm_compute in Hp. discriminate Hp. }
  split; [exact P|].
  rewrite analytics_accuracyDelta_eq. exact P.
Qed.

Lemma label_85_80_witness :
  ProfilePage.renderDeltaLabel noToString from80to85
    (ProfilePage.accuracyDelta from80to85) "accuracy" =
  "5.0% increase in accuracy" /\
  AnalyticsPage.renderDeltaLabel noToString from80to85
    (AnalyticsPage.accuracyDelta from80to85) "accuracy" =
  "5.0% increase in accuracy".
Proof. exact (label_85_80 noToString from80to85 eq_refl eq_refl). Defined.

End TrendExample.

(* ================================================================== *)
(** ** Slices *)
(* ================================================================== *)

Section Slices.
Context {A : Type}.

Lemma slice_last_short (n : nat) (a : list A) :
  (List.length a <= n)%nat -> JSArray.slice_last n a = a.
Proof.
  intros H. unfold JSArray.slice_last.
  now replace (List.length a - n)%nat with O by lia.
Qed.

Lemma slice_last_length (n : nat) (a : list A) :
  List.length (JSArray.slice_last n a) = Nat.min n (List.length a).
Proof. unfold JSArray.slice_last. rewrite length_skipn. lia. Qed.

(** Trimming before appending does not change what a later trim keeps. *)
Lemma slice_last_app (n : nat) (a b : list A) :
  JSArray.slice_last n (JSArray.slice_last n a ++ b) =
  JSArray.slice_last n (a ++ b).
Proof.
  destruct (Nat.le_gt_cases (List.length a) n) as [H|H].
  - now rewrite (slice_last_short n a H).
  - unfold JSArray.slice_last.
    rewrite !length_app, length_skipn, !skipn_app, skipn_skipn, length_skipn.
    f_equal; f_equal; lia.
Qed.

Lemma slice_last_snoc (n : nat) (a : list A) (x : A) :
  (1 <= n)%nat ->
  JSArray.slice_last n (a ++ [x]) =
  (JSArray.slice_last (n - 1) a ++ [x])%list.
Proof.
  intros H. unfold JSArray.slice_last.
  rewrite length_app, skipn_app. cbn [List.length].
  replace (List.length a + 1 - n)%nat with (List.length a - (n - 1))%nat by lia.
  replace (List.length a - (n - 1) - List.length a)%nat with O by lia.
  reflexivity.
Qed.

(** The slice is the tail of the array, index for index. *)
Lemma slice_last_nth (n : nat) (a : list A) (i : nat) :
  nth_error (JSArray.slice_last n a) i =
  nth_error a (List.length a - n + i).
Proof. unfold JSArray.slice_last. apply nth_error_skipn. Qed.

End Slices.

(* ================================================================== *)
(** ** Frame decoder *)
(* ================================================================== *)

Section Decoder.
Import Api DataView DevicePage DeviceSpec.

Lemma byte_at_in_range (v : DataView.view) (i : nat) :
  (i < byteLength v)%nat -> byte_at v i = Some (byte v i).
Proof.
  intros H. unfold byte, byte_at.
  destruct (nth_error v i) as [b|] eqn:E; [reflexivity|].
  apply nth_error_None in E. unfold byteLength in H. lia.
Qed.

Lemma getFloat32_reading (v : DataView.view) (off : nat) :
  (off + 4 <= byteLength v)%nat ->
  getFloat32 v off = Normal (reading v off).
Proof.
  intros H. unfold getFloat32.
  rewrite !byte_at_in_range by lia. reflexivity.
Qed.

Lemma getFloat32_out_of_range (v : DataView.view) (off : nat) :
  (byteLength v < off + 4)%nat -> getFloat32 v off = Throw "RangeError".
Proof.
  intros H. unfold getFloat32.
  assert (E : byte_at v (off + 3) = None).
  { unfold byte_at. replace (nth_error v (off + 3)) with (@None Byte.byte);
      [reflexivity|].
    symmetry. apply nth_error_None. unfold byteLength in H. lia. }
  rewrite E.
  destruct (byte_at v off), (byte_at v (off + 1)), (byte_at v (off + 2));
    reflexivity.
Qed.

(** The bytes after the first 24 are not read. *)
Lemma reading_firstn (v : DataView.view) (n off : nat) :
  (off + 4 <= n)%nat -> reading (firstn n v) off = reading v off.
Proof.
  intros H. unfold reading, byte, byte_at.
  rewrite !nth_error_firstn.
  destruct (Nat.ltb_spec off n); [|lia].
  destruct (Nat.ltb_spec (off + 1) n); [|lia].
  destruct (Nat.ltb_spec (off + 2) n); [|lia].
  destruct (Nat.ltb_spec (off + 3) n); [|lia].
  reflexivity.
Qed.

Lemma decoded_firstn (v : DataView.view) (stampOf : JS.number) :
  decoded (firstn 24 v) stampOf = decoded v stampOf.
Proof. unfold decoded. now rewrite !reading_firstn by lia. Qed.

Lemma addSample_short (v : DataView.view) (now : JS.number) (st : State) :
  (byteLength v < 24)%nat -> addSampleFromNotification v now st = Normal st.
Proof.
  intros H. unfold addSampleFromNotification.
  destruct (Nat.ltb_spec (byteLength v) 24); [reflexivity|lia].
Qed.

(** What an accepted frame does to the component. *)
Lemma addSample_accepted (v : DataView.view) (now : JS.number) (st : State) :
  accepted v ->
  exists st',
    addSampleFromNotification v now st = Normal st' /\
    samplesRef st' =
      JSArray.slice_last 400
        (kept st ++ [decoded v (stamp (epochStart st now) now)]) /\
    startTimeRef st' = Some (epochStart st now) /\
    lastSample st' = Some (decoded v (stamp (epochStart st now) now)) /\
    connected st' = connected st /\ supported st' = supported st.
Proof.
  unfold accepted. intros H. unfold addSampleFromNotification.
  destruct (Nat.ltb_spec (byteLength v) 24); [lia|].
  rewrite !getFloat32_reading by lia.
  unfold bind, kept, epochStart.
  destruct (startTimeRef st) as [start|]; eexists; (split; [reflexivity|]);
    cbn [samplesRef startTimeRef lastSample connected supported].
  - fold (decoded v (stamp start now)). repeat split.
    destruct (Nat.ltb_spec 400
                (List.length (samplesRef st ++ [decoded v (stamp start now)])));
      [reflexivity|].
    symmetry. apply slice_last_short. lia.
  - fold (decoded v (stamp now now)). repeat split.
Qed.

Lemma onValueChanged_short (v : DataView.view) (now : JS.number) (st : State) :
  (byteLength v < 24)%nat -> onValueChanged (Some v) now st = st.
Proof.
  intros H. unfold onValueChanged. now rewrite addSample_short.
Qed.

Lemma onValueChanged_accepted (v : DataView.view) (now : JS.number)
  (st : State) :
  accepted v ->
  samplesRef (onValueChanged (Some v) now st) =
    JSArray.slice_last 400
      (kept st ++ [decoded v (stamp (epochStart st now) now)]) /\
  startTimeRef (onValueChanged (Some v) now st) = Some (epochStart st now) /\
  lastSample (onValueChanged (Some v) now st) =
    Some (decoded v (stamp (epochStart st now) now)).
Proof.
  intros H. unfold onValueChanged.
  destruct (addSample_accepted v now st H) as (st' & -> & Hs & Ht & Hl & _).
  auto.
Qed.

End Decoder.

Section DecoderClaim.
Import Api DataView DevicePage DeviceSpec.

(** C6: the decoder appends a sample exactly when the notification holds
    at least 24 bytes.  A shorter buffer leaves the component as it was
    and raises nothing (the guard stops before the read at offset 20, which
    would be out of range); from a buffer of at least 24 bytes the sample's
    ax, ay, az, gx, gy, gz are the little-endian 32-bit floats at byte
    offsets 0, 4, 8, 12, 16, 20, and the bytes after the first 24 are not
    read.  The 24 bytes of (1.0, ..., 6.0) decode to ax = 1.0 ... gz = 6.0,
    and their first 23 bytes give no sample. *)
Theorem frame_decoder (v : DataView.view) (now : JS.number) (st : State) :
  (exists st', addSampleFromNotification v now st = Normal st') /\
  ((byteLength v < 24)%nat ->
   addSampleFromNotification v now st = Normal st /\
   onValueChanged (Some v) now st = st /\
   getFloat32 v 20 = Throw "RangeError") /\
  ((24 <= byteLength v)%nat ->
   exists st' sample older,
     addSampleFromNotification v now st = Normal st' /\
     samplesRef st' = (older ++ [sample])%list /\
     lastSample st' = Some sample /\
     getFloat32 v 0 = Normal (ax sample) /\
     getFloat32 v 4 = Normal (ay sample) /\
     getFloat32 v 8 = Normal (az sample) /\
     getFloat32 v 12 = Normal (gx sample) /\
     getFloat32 v 16 = Normal (gy sample) /\
     getFloat32 v 20 = Normal (gz sample) /\
     sample = decoded v (stamp (epochStart st now) now) /\
     addSampleFromNotification (firstn 24 v) now st = Normal st') /\
  (decoded oneToSix JS.zero =
     {| ax := JS.of_Z 1; ay := JS.of_Z 2; az := JS.of_Z 3;
        gx := JS.of_Z 4; gy := JS.of_Z 5; gz := JS.of_Z 6; t := JS.zero |} /\
   samplesRef (onValueChanged (Some oneToSix) now (initial true)) =
     [ {| ax := JS.of_Z 1; ay := JS.of_Z 2; az := JS.of_Z 3;
          gx := JS.of_Z 4; gy := JS.of_Z 5; gz := JS.of_Z 6;
          t := stamp now now |} ] /\
   samplesRef (onValueChanged (Some (firstn 23 oneToSix)) now (initial true)) =
     []).
Proof.
  assert (Short : (byteLength v < 24)%nat ->
                  addSampleFromNotification v now st = Normal st)
    by apply addSample_short.
  split; [|split; [|split]].
  - destruct (Nat.lt_ge_cases (byteLength v) 24) as [H|H].
    + exists st. auto.
    + destruct (addSample_accepted v now st H) as (st' & E & _). now exists st'.
  - intros H. split; [auto|]. split; [now apply onValueChanged_short|].
    apply getFloat32_out_of_range. lia.
  - intros H.
    destruct (addSample_accepted v now st H) as (st' & E & Hs & _ & Hl & _).
    exists st', (decoded v (stamp (epochStart st now) now)),
      (JSArray.slice_last 399 (kept st)).
    split; [exact E|].
    split; [rewrite Hs; apply (slice_last_snoc 400); lia|].
    split; [exact Hl|].
    unfold decoded at 1 2 3 4 5 6. cbn [ax ay az gx gy gz].
    repeat (split; [apply getFloat32_reading; lia|]).
    split; [reflexivity|].
    rewrite <- E. unfold addSampleFromNotification.
    assert (L : byteLength (firstn 24 v) = 24%nat).
    { unfold byteLength in *. rewrite length_firstn. lia. }
    rewrite L.
    destruct (Nat.ltb_spec 24 24); [lia|].
    destruct (Nat.ltb_spec (byteLength v) 24); [lia|].
    rewrite !(getFloat32_reading (firstn 24 v)) by lia.
    rewrite !(getFloat32_reading v) by lia.
    now rewrite !reading_firstn by lia.
  - repeat split.
Qed.

Lemma frame_decoder_witness :
  addSampleFromNotification (firstn 23 oneToSix) JS.zero (initial true) =
    Normal (initial true) /\
  exists st' sample older,
    addSampleFromNotification oneToSix JS.zero (initial true) = Normal st' /\
    samplesRef st' = (older ++ [sample])%list /\
    gz sample = JS.of_Z 6.
Proof.
  pose proof (frame_decoder (firstn 23 oneToSix) JS.zero (initial true)) as S.
  pose proof (frame_decoder oneToSix JS.zero (initial true)) as L.
  split.
  - apply (proj1 (proj2 S)). cbv. lia.
  - destruct (proj1 (proj2 (proj2 L)) ltac:(cbv; lia))
      as (st' & sample & older & E & Hs & _ & _ & _ & _ & _ & _ & _ & Hd & _).
    exists st', sample, older. repeat split; try assumption.
    rewrite Hd. reflexivity.
Defined.

End DecoderClaim.

(* ================================================================== *)
(** ** Sliding capture buffer *)
(* ================================================================== *)

Section Buffer.
Import Api DataView DevicePage DeviceSpec.

Lemma handleConnect_capture (attempt : Attempt) (st : State) :
  samplesRef (handleConnect attempt st) = samplesRef st /\
  startTimeRef (handleConnect attempt st) = startTimeRef st.
Proof.
  unfold handleConnect.
  destruct (negb (supported st)); [now split|].
  destruct attempt; now split.
Qed.

Lemma handleDisconnect_capture (st : State) :
  samplesRef (handleDisconnect st) = samplesRef st /\
  startTimeRef (handleDisconnect st) = startTimeRef st.
Proof. now split. Qed.

Lemma handleSendSwing_capture (st : State) :
  samplesRef (fst (handleSendSwing st)) = samplesRef st /\
  startTimeRef (fst (handleSendSwing st)) = startTimeRef st.
Proof.
  unfold handleSendSwing.
  destruct (negb (truthy (Z.of_nat (List.length (samplesRef st))))); now split.
Qed.

(** An event leaves the capture alone unless it is an accepted frame. *)
Lemma step_capture (st : State) (e : Event) :
  (samplesRef (step st e) = samplesRef st /\
   startTimeRef (step st e) = startTimeRef st) \/
  (exists v now,
     e = ValueChanged (Some v) now /\ accepted v /\
     samplesRef (step st e) =
       JSArray.slice_last 400
         (kept st ++ [decoded v (stamp (epochStart st now) now)]) /\
     startTimeRef (step st e) = Some (epochStart st now)).
Proof.
  destruct e as [[v|] now|attempt| | |outcome]; cbn [step].
  - destruct (Nat.lt_ge_cases (byteLength v) 24) as [H|H].
    + left. now rewrite onValueChanged_short.
    + right. exists v, now.
      destruct (onValueChanged_accepted v now st H) as (Hs & Ht & _).
      auto.
  - left. now split.
  - left. apply handleConnect_capture.
  - left. apply handleDisconnect_capture.
  - left. apply handleSendSwing_capture.
  - left. now split.
Qed.

Lemma step_bounded (st : State) (e : Event) :
  (List.length (samplesRef st) <= 400)%nat ->
  (List.length (samplesRef (step st e)) <= 400)%nat.
Proof.
  intros H.
  destruct (step_capture st e) as [[-> _] | (v & now & _ & _ & -> & _)];
    [exact H|].
  rewrite slice_last_length. lia.
Qed.

Lemma run_bounded (events : list Event) (st : State) :
  (List.length (samplesRef st) <= 400)%nat ->
  (List.length (samplesRef (run events st)) <= 400)%nat.
Proof.
  revert st. induction events as [|e events IH]; intros st H; [exact H|].
  unfold run in *. cbn [fold_left]. apply IH. now apply step_bounded.
Qed.

(** The epoch, once started, is never restarted. *)
Lemma step_epoch (st : State) (e : Event) (start : JS.number) :
  startTimeRef st = Some start -> startTimeRef (step st e) = Some start.
Proof.
  intros H.
  destruct (step_capture st e) as [[_ ->] | (v & now & _ & _ & _ & ->)];
    [exact H|].
  unfold epochStart. now rewrite H.
Qed.

Lemma run_epoch (events : list Event) (st : State) (start : JS.number) :
  startTimeRef st = Some start -> startTimeRef (run events st) = Some start.
Proof.
  revert st. induction events as [|e events IH]; intros st H; [exact H|].
  unfold run in *. cbn [fold_left]. apply IH. now apply step_epoch.
Qed.

(** A run of accepted frames inside a started epoch. *)
Lemma run_frames (frames : list (DataView.view * JS.number)) (st : State)
  (start : JS.number) :
  startTimeRef st = Some start ->
  (List.length (samplesRef st) <= 400)%nat ->
  Forall accepted (map fst frames) ->
  samplesRef (run (frameEvents frames) st) =
  JSArray.slice_last 400 (samplesRef st ++ decodedAll start frames).
Proof.
  revert st. induction frames as [|[v now] frames IH]; intros st Hs Hb Hf.
  - cbn. rewrite app_nil_r. symmetry. now apply slice_last_short.
  - apply Forall_cons_iff in Hf. destruct Hf as [Hv Hf]. cbn [fst] in Hv.
    unfold run in *. cbn [frameEvents map fold_left fst snd step].
    destruct (onValueChanged_accepted v now st Hv) as (E & Et & _).
    unfold kept, epochStart in E, Et. rewrite Hs in E, Et.
    fold (frameEvents frames).
    rewrite (IH _ Et); [|rewrite E, slice_last_length; lia|exact Hf].
    rewrite E, slice_last_app, <- app_assoc. reflexivity.
Qed.

Lemma run_frames_initial (hasBluetooth : bool)
  (first : DataView.view * JS.number)
  (rest : list (DataView.view * JS.number)) :
  Forall accepted (map fst (first :: rest)) ->
  samplesRef (run (frameEvents (first :: rest)) (initial hasBluetooth)) =
  JSArray.slice_last 400 (decodedAll (snd first) (first :: rest)).
Proof.
  destruct first as [v now]. intros Hf.
  apply Forall_cons_iff in Hf. destruct Hf as [Hv Hf]. cbn [fst] in Hv.
  unfold run. cbn [frameEvents map fold_left fst snd step].
  destruct (onValueChanged_accepted v now (initial hasBluetooth) Hv)
    as (E & Et & _).
  change (kept (initial hasBluetooth)) with (@nil SwingSamplePayload) in E.
  change (epochStart (initial hasBluetooth) now) with now in E, Et.
  cbn [app] in E. rewrite slice_last_short in E by (cbn; lia).
  fold (frameEvents rest). fold (run (frameEvents rest)
    (onValueChanged (Some v) now (initial hasBluetooth))).
  rewrite (run_frames rest _ now Et); [|rewrite E; cbn; lia|exact Hf].
  now rewrite E.
Qed.

End Buffer.

Section BufferClaims.
Import Api DataView DevicePage DeviceSpec.

(** C7: the capture buffer never holds more than 400 samples, whatever
    happens to the mounted component.  An accepted frame appends one
    sample, and once the buffer is full the oldest samples leave from the
    front so that exactly 400 remain.  After a run of accepted frames the
    buffer holds the last 400 of their samples in arrival order; after 450
    frames, samples 50 to 449. *)
Theorem capture_buffer_cap :
  (forall hasBluetooth events,
     (List.length (samplesRef (run events (initial hasBluetooth))) <= 400)%nat) /\
  (forall st e,
     (List.length (samplesRef st) <= 400)%nat ->
     (List.length (samplesRef (step st e)) <= 400)%nat) /\
  (forall st v now,
     accepted v ->
     let sample := decoded v (stamp (epochStart st now) now) in
     let after := samplesRef (onValueChanged (Some v) now st) in
     after = JSArray.slice_last 400 (kept st ++ [sample]) /\
     ((List.length (kept st) < 400)%nat -> after = (kept st ++ [sample])%list) /\
     ((400 <= List.length (kept st))%nat ->
      after = (skipn (List.length (kept st) - 399) (kept st) ++ [sample])%list /\
      List.length after = 400%nat)) /\
  (forall hasBluetooth first rest,
     Forall accepted (map fst (first :: rest)) ->
     samplesRef (run (frameEvents (first :: rest)) (initial hasBluetooth)) =
     JSArray.slice_last 400 (decodedAll (snd first) (first :: rest))) /\
  (forall hasBluetooth first rest,
     Forall accepted (map fst (first :: rest)) ->
     List.length (first :: rest) = 450%nat ->
     let all := decodedAll (snd first) (first :: rest) in
     let buffer :=
       samplesRef (run (frameEvents (first :: rest)) (initial hasBluetooth)) in
     buffer = skipn 50 all /\
     List.length buffer = 400%nat /\
     forall i, nth_error buffer i = nth_error all (50 + i)).
Proof.
  split; [|split; [|split; [|split]]].
  - intros hb events. apply run_bounded. cbn. lia.
  - apply step_bounded.
  - intros st v now Hv sample after.
    destruct (onValueChanged_accepted v now st Hv) as (E & _).
    fold sample in E. fold after in E.
    split; [exact E|]. split.
    + intros H. rewrite E. apply slice_last_short.
      rewrite length_app. cbn [List.length]. lia.
    + intros H. rewrite E. rewrite (slice_last_snoc 400) by lia.
      split; [reflexivity|].
      rewrite length_app, slice_last_length. cbn [List.length]. lia.
  - apply run_frames_initial.
  - intros hb first rest Hf Hlen all buffer.
    assert (E : buffer = JSArray.slice_last 400 all)
      by (apply run_frames_initial; exact Hf).
    assert (La : List.length all = 450%nat).
    { subst all. unfold decodedAll. now rewrite length_map. }
    assert (S50 : JSArray.slice_last 400 all = skipn 50 all).
    { unfold JSArray.slice_last. now rewrite La. }
    rewrite E, S50. split; [reflexivity|]. split.
    + rewrite length_skipn, La. reflexivity.
    + intros i. apply nth_error_skipn.
Qed.

Lemma capture_buffer_cap_witness :
  let all := decodedAll JS.zero ((oneToSix, JS.zero) :: frames450) in
  let buffer :=
    samplesRef
      (run (frameEvents ((oneToSix, JS.zero) :: frames450)) (initial true)) in
  buffer = skipn 50 all /\
  List.length buffer = 400%nat /\
  forall i, nth_error buffer i = nth_error all (50 + i).
Proof.
  apply (proj2 (proj2 (proj2 (proj2 capture_buffer_cap))) true
           (oneToSix, JS.zero) frames450).
  - cbn [map fst]. apply Forall_cons; [cbv; lia|].
    unfold frames450. rewrite map_map. cbn [fst].
    apply Forall_forall. intros v Hin.
    apply in_map_iff in Hin. destruct Hin as (k & <- & _). cbv. lia.
  - unfold frames450. cbn [List.length]. now rewrite length_map, length_seq.
Defined.

(** 450 frames that differ in their first byte, 10 ms apart from
    1000 ms: the buffer ends as frames 50 to 449, stamped 0.5 s onwards. *)
Example capture_450_frames :
  let buffer :=
    samplesRef (run (frameEvents (frameStream 450)) (initial true)) in
  buffer = skipn 50 (decodedAll (JS.of_Z 1000) (frameStream 450)) /\
  List.length buffer = 400%nat /\
  option_map t (hd_error buffer) = Some (JS.dec 5 10).
Proof. vm_compute. repeat split. Qed.

(** The code at the input of C8: a frame at 1000 ms, a disconnect, a
    reconnect, a frame at 5000 ms.  The second frame is stamped 4 s, not 0,
    and the sample of the first connection is still in the buffer; no
    event restarts an epoch once it has begun. *)
Theorem reconnect_keeps_first_epoch :
  (let events :=
     [ Connect (Linked (Some "NeuraBat"));
       ValueChanged (Some oneToSix) (JS.of_Z 1000);
       Disconnect;
       Connect (Linked (Some "NeuraBat"));
       ValueChanged (Some oneToSix) (JS.of_Z 5000) ] in
   let st := run events (initial true) in
   map t (samplesRef st) = [JS.zero; JS.of_Z 4] /\
   startTimeRef st = Some (JS.of_Z 1000) /\
   connected st = true) /\
  (forall attempt st,
     samplesRef (handleConnect attempt st) = samplesRef st /\
     startTimeRef (handleConnect attempt st) = startTimeRef st) /\
  (forall st,
     samplesRef (handleDisconnect st) = samplesRef st /\
     startTimeRef (handleDisconnect st) = startTimeRef st) /\
  (forall events st start,
     startTimeRef st = Some start ->
     startTimeRef (run events st) = Some start).
Proof.
  split; [vm_compute; repeat split|].
  split; [apply handleConnect_capture|].
  split; [apply handleDisconnect_capture|].
  intros events st start. apply run_epoch.
Qed.

(** C9: sending a swing refuses exactly when the buffer is empty: it then
    reports that no samples were captured and hands no request to the
    classifier.  From a non-empty buffer the request carries the most
    recent min(100, length) samples, index for index the tail of the
    buffer (of a buffer of 400, elements 300 to 399), with
    sampling_rate_hz = 100.  The buffer itself is left as it was. *)
Theorem window_extraction (st : State) :
  let buffer := samplesRef st in
  let after := fst (handleSendSwing st) in
  let sent := snd (handleSendSwing st) in
  (sent = None <-> buffer = []) /\
  (buffer = [] -> error after = Some noSamplesMessage) /\
  (buffer <> [] ->
   exists request,
     sent = Some request /\
     samples request = JSArray.slice_last 100 buffer /\
     List.length (samples request) = Nat.min 100 (List.length buffer) /\
     (forall i,
        nth_error (samples request) i =
        nth_error buffer (List.length buffer - 100 + i)) /\
     sampling_rate_hz request = 100 /\
     error after = None) /\
  (List.length buffer = 400%nat ->
   exists request,
     sent = Some request /\
     samples request = skipn 300 buffer /\
     List.length (samples request) = 100%nat /\
     forall i, nth_error (samples request) i = nth_error buffer (300 + i)) /\
  samplesRef after = buffer /\
  startTimeRef after = startTimeRef st /\
  (forall outcome, samplesRef (classifySettled outcome after) = buffer).
Proof.
  intros buffer after sent. subst after sent.
  unfold handleSendSwing. fold buffer.
  destruct buffer as [|x rest] eqn:E.
  - cbn. repeat split; congruence.
  - assert (T : negb (truthy (Z.of_nat (List.length (x :: rest)))) = false).
    { unfold truthy. rewrite negb_involutive.
      apply Z.eqb_neq. cbn [List.length]. lia. }
    rewrite T. cbn [fst snd error samplesRef startTimeRef].
    split; [split; congruence|].
    split; [congruence|].
    split.
    { intros _. eexists. split; [reflexivity|].
      cbn [samples sampling_rate_hz].
      split; [reflexivity|].
      split; [apply slice_last_length|].
      split; [intros i; apply slice_last_nth|].
      split; reflexivity. }
    split.
    { intros L. eexists. split; [reflexivity|].
      cbn [samples].
      assert (S300 : JSArray.slice_last 100 (x :: rest) = skipn 300 (x :: rest)).
      { unfold JSArray.slice_last. now rewrite L. }
      rewrite S300.
      split; [reflexivity|].
      split; [rewrite length_skipn, L; reflexivity|].
      intros i. apply nth_error_skipn. }
    repeat split.
Qed.

Lemma window_extraction_witness :
  error (fst (handleSendSwing (initial true))) = Some noSamplesMessage /\
  exists request,
    snd (handleSendSwing
           (onValueChanged (Some oneToSix) JS.zero (initial true))) =
    Some request /\
    List.length (samples request) = 1%nat /\
    sampling_rate_hz request = 100.
Proof.
  split.
  - exact (proj1 (proj2 (window_extraction (initial true))) eq_refl).
  - destruct (proj1 (proj2 (proj2
                (window_extraction
                   (onValueChanged (Some oneToSix) JS.zero (initial true)))))
                ltac:(discriminate))
      as (request & Hs & _ & Hl & _ & Hr & _).
    exists request. repeat split; assumption.
Defined.

End BufferClaims.

(* ################################################################## *)
(** * Further properties of the pages *)
(* ################################################################## *)

(* ================================================================== *)
(** ** DevicePage.tsx: capture over arbitrary event sequences *)
(* ================================================================== *)

Section DeviceTraces.
Import Api DataView DevicePage DeviceSpec DeviceTrace.

Lemma slice_last_twice {A : Type} (m n : nat) (a : list A) :
  (m <= n)%nat ->
  JSArray.slice_last m (JSArray.slice_last n a) = JSArray.slice_last m a.
Proof.
  intros H. unfold JSArray.slice_last.
  rewrite skipn_skipn, length_skipn. f_equal. lia.
Qed.

(** An event that is not an accepted frame leaves the capture alone. *)
Lemma step_other (st : State) (e : Event) :
  acceptedFrames [e] = [] ->
  samplesRef (step st e) = samplesRef st /\
  startTimeRef (step st e) = startTimeRef st /\
  lastSample (step st e) = lastSample st.
Proof.
  destruct e as [[v|] now|attempt| | |outcome]; cbn [acceptedFrames step].
  - destruct (Nat.ltb_spec (byteLength v) 24) as [H|H]; [|discriminate].
    intros _. now rewrite onValueChanged_short.
  - now repeat split.
  - intros _. unfold handleConnect.
    destruct (negb (supported st)); [now repeat split|].
    destruct attempt; now repeat split.
  - now repeat split.
  - intros _. unfold handleSendSwing.
    destruct (negb (truthy (Z.of_nat (List.length (samplesRef st)))));
      now repeat split.
  - now repeat split.
Qed.

Lemma acceptedFrames_cons (e : Event) (events : list Event) :
  acceptedFrames (e :: events) = (acceptedFrames [e] ++ acceptedFrames events)%list.
Proof.
  destruct e as [[v|] now|attempt| | |outcome]; cbn [acceptedFrames];
    try reflexivity.
  destruct (byteLength v <? 24)%nat; reflexivity.
Qed.

Lemma acceptedFrames_one (e : Event) :
  acceptedFrames [e] = [] \/
  exists v now,
    e = ValueChanged (Some v) now /\ accepted v /\
    acceptedFrames [e] = [(v, now)].
Proof.
  destruct e as [[v|] now|attempt| | |outcome]; cbn [acceptedFrames];
    try (now left).
  destruct (Nat.ltb_spec (byteLength v) 24) as [H|H]; [now left|].
  right. exists v, now. now repeat split.
Qed.

(** Inside a started epoch the buffer is the tail of what it held
    followed by the accepted frames. *)
Lemma run_started (events : list Event) (st : State) (start : JS.number) :
  startTimeRef st = Some start ->
  (List.length (samplesRef st) <= 400)%nat ->
  samplesRef (run events st) =
    JSArray.slice_last 400
      (samplesRef st ++ decodedAll start (acceptedFrames events)) /\
  startTimeRef (run events st) = Some start.
Proof.
  revert st. induction events as [|e events IH]; intros st Hs Hb.
  - cbn. rewrite app_nil_r. split; [|exact Hs].
    symmetry. now apply slice_last_short.
  - rewrite acceptedFrames_cons. unfold run in *. cbn [fold_left].
    destruct (acceptedFrames_one e) as [E | (v & now & -> & Hv & E)].
    + destruct (step_other st e E) as (H1 & H2 & _).
      rewrite E. cbn [app].
      destruct (IH (step st e)) as [I1 I2]; [congruence|congruence|].
      rewrite I1, I2, H1. now split.
    + rewrite E. cbn [app step].
      destruct (onValueChanged_accepted v now st Hv) as (H1 & H2 & _).
      unfold kept, epochStart in H1, H2. rewrite Hs in H1, H2.
      destruct (IH (onValueChanged (Some v) now st)) as [I1 I2];
        [exact H2|rewrite H1, slice_last_length; lia|].
      rewrite I1, I2, H1, slice_last_app, <- app_assoc. now split.
Qed.

Lemma run_from_mount (events : list Event) (st : State) :
  startTimeRef st = None ->
  samplesRef (run events st) =
    match acceptedFrames events with
    | [] => samplesRef st
    | first :: _ =>
      JSArray.slice_last 400 (decodedAll (snd first) (acceptedFrames events))
    end /\
  startTimeRef (run events st) =
    option_map snd (hd_error (acceptedFrames events)).
Proof.
  revert st. induction events as [|e events IH]; intros st Hs.
  - cbn. now split.
  - rewrite acceptedFrames_cons. unfold run in *. cbn [fold_left].
    destruct (acceptedFrames_one e) as [E | (v & now & -> & Hv & E)].
    + destruct (step_other st e E) as (H1 & H2 & _).
      rewrite E. cbn [app].
      destruct (IH (step st e)) as [I1 I2]; [congruence|].
      rewrite I1, I2, H1. now split.
    + rewrite E. cbn [app step hd_error option_map snd].
      destruct (onValueChanged_accepted v now st Hv) as (H1 & H2 & _).
      unfold kept, epochStart in H1, H2. rewrite Hs in H1, H2.
      cbn [app] in H1. rewrite slice_last_short in H1 by (cbn; lia).
      destruct (run_started events (onValueChanged (Some v) now st) now)
        as [I1 I2]; [exact H2|rewrite H1; cbn; lia|].
      unfold run in I1, I2. rewrite I1, I2, H1. now split.
Qed.

(** What a listener call does to the capture depends on the capture
    alone. *)
Lemma step_same_capture (s1 s2 : State) (e : Event) :
  samplesRef s1 = samplesRef s2 ->
  startTimeRef s1 = startTimeRef s2 ->
  lastSample s1 = lastSample s2 ->
  samplesRef (step s1 e) = samplesRef (step s2 e) /\
  startTimeRef (step s1 e) = startTimeRef (step s2 e) /\
  lastSample (step s1 e) = lastSample (step s2 e).
Proof.
  intros H1 H2 H3.
  destruct (acceptedFrames_one e) as [E | (v & now & -> & Hv & E)].
  - destruct (step_other s1 e E) as (A1 & A2 & A3).
    destruct (step_other s2 e E) as (B1 & B2 & B3).
    repeat split; congruence.
  - cbn [step].
    destruct (onValueChanged_accepted v now s1 Hv) as (A1 & A2 & A3).
    destruct (onValueChanged_accepted v now s2 Hv) as (B1 & B2 & B3).
    unfold kept, epochStart in *.
    rewrite A1, A2, A3, B1, B2, B3, H1, H2. now repeat split.
Qed.

Lemma run_same_capture (events : list Event) (s1 s2 : State) :
  samplesRef s1 = samplesRef s2 ->
  startTimeRef s1 = startTimeRef s2 ->
  lastSample s1 = lastSample s2 ->
  samplesRef (run events s1) = samplesRef (run events s2) /\
  startTimeRef (run events s1) = startTimeRef (run events s2) /\
  lastSample (run events s1) = lastSample (run events s2).
Proof.
  revert s1 s2. induction events as [|e events IH]; intros s1 s2 H1 H2 H3.
  - now repeat split.
  - unfold run in *. cbn [fold_left].
    destruct (step_same_capture s1 s2 e H1 H2 H3) as (A1 & A2 & A3).
    now apply IH.
Qed.

(** The capture of the page is the capture its listener calls build. *)
Lemma session_capture (events : list DeviceSession.Event)
  (p : DeviceSession.Page) (st : State) :
  samplesRef (DeviceSession.component p) = samplesRef st ->
  startTimeRef (DeviceSession.component p) = startTimeRef st ->
  lastSample (DeviceSession.component p) = lastSample st ->
  let st' := DeviceSession.component (DeviceSession.run events p) in
  let calls :=
    DeviceSession.listenerCalls (DeviceSession.listeners p) events in
  samplesRef st' = samplesRef (run calls st) /\
  startTimeRef st' = startTimeRef (run calls st) /\
  lastSample st' = lastSample (run calls st).
Proof.
  cbv zeta. revert p st.
  induction events as [|e events IH]; intros p st H1 H2 H3.
  - now repeat split.
  - unfold DeviceSession.run in *. cbn [fold_left].
    destruct e as [ch value clock| |name|ch|message| | | |outcome];
      cbn [DeviceSession.listenerCalls].
    1: { unfold run. rewrite !fold_left_app.
         apply (IH (DeviceSession.step p
                      (DeviceSession.Notification ch value clock))
                  (run (DeviceSession.calls (DeviceSession.listeners p)
                          ch value clock) st)).
         all: cbn [DeviceSession.step DeviceSession.component];
           now apply run_same_capture. }
    all: match goal with
         | S : _ = samplesRef ?s
           |- context [fold_left DeviceSession.step _
                         (DeviceSession.step ?q ?e)] =>
           apply (IH (DeviceSession.step q e) s)
         end.
    all: cbn [DeviceSession.step DeviceSession.component
              DeviceSession.connectDone DeviceSession.deviceChosen
              DeviceSession.connectFailed handleDisconnect classifySettled
              samplesRef startTimeRef lastSample];
      try assumption.
    all: try (unfold DeviceSession.connectClicked;
              destruct (negb (supported _)); assumption).
    all: unfold handleSendSwing;
      destruct (negb (truthy _)); assumption.
Qed.

Lemma session_from_mount (hasBluetooth : bool)
  (events : list DeviceSession.Event) :
  let frames := acceptedFrames (DeviceSession.listenerCalls [] events) in
  let st :=
    DeviceSession.component
      (DeviceSession.run events (DeviceSession.mounted hasBluetooth)) in
  samplesRef st =
    match frames with
    | [] => []
    | first :: _ => JSArray.slice_last 400 (decodedAll (snd first) frames)
    end /\
  startTimeRef st = option_map snd (hd_error frames) /\
  List.length (samplesRef st) = Nat.min 400 (List.length frames).
Proof.
  cbv zeta.
  destruct (session_capture events (DeviceSession.mounted hasBluetooth)
              (initial hasBluetooth) eq_refl eq_refl eq_refl)
    as (S1 & S2 & _).
  cbv zeta in S1, S2. cbn [DeviceSession.mounted DeviceSession.listeners] in *.
  destruct (run_from_mount (DeviceSession.listenerCalls [] events)
              (initial hasBluetooth) eq_refl) as [H1 H2].
  rewrite S1, S2, H1, H2. split; [reflexivity|]. split; [reflexivity|].
  destruct (acceptedFrames _) as [|first rest] eqn:E; [reflexivity|].
  rewrite slice_last_length. unfold decodedAll. now rewrite length_map.
Qed.

Lemma session_listeners (events : list DeviceSession.Event)
  (p : DeviceSession.Page) :
  DeviceSession.listeners (DeviceSession.run events p) =
  (DeviceSession.listeners p ++ linked events)%list.
Proof.
  revert p. induction events as [|e events IH]; intros p.
  - cbn. now rewrite app_nil_r.
  - unfold DeviceSession.run in *. cbn [fold_left]. rewrite IH.
    destruct e; cbn [DeviceSession.step DeviceSession.listeners linked];
      try reflexivity.
    now rewrite <- app_assoc.
Qed.

(** X1: whatever happens to the mounted page, in whatever order its
    handlers are resumed, the capture buffer is determined by the calls
    of the 'characteristicvaluechanged' listeners alone: it holds the
    samples of the last 400 calls that carried at least 24 bytes, in
    call order, each stamped with the seconds elapsed since the first of
    them.  Short and empty values, clicks and the continuations of the
    handlers are never counted.  A notification is one call for each
    listener added to its characteristic, and every [handleConnect] that
    succeeds adds one and removes none; so after a reconnect on the same
    characteristic every notification counts twice
    ([reconnect_doubles_notifications]). *)
Theorem capture_is_last_accepted_frames
  (hasBluetooth : bool) (events : list DeviceSession.Event) :
  let frames := acceptedFrames (DeviceSession.listenerCalls [] events) in
  let p := DeviceSession.run events (DeviceSession.mounted hasBluetooth) in
  let st := DeviceSession.component p in
  samplesRef st =
    match frames with
    | [] => []
    | first :: _ => JSArray.slice_last 400 (decodedAll (snd first) frames)
    end /\
  startTimeRef st = option_map snd (hd_error frames) /\
  List.length (samplesRef st) = Nat.min 400 (List.length frames) /\
  DeviceSession.listeners p = linked events /\
  (forall characteristic value clock,
     DeviceSession.listenerCalls (DeviceSession.listeners p)
       [DeviceSession.Notification characteristic value clock] =
     map (fun i => ValueChanged value (clock i))
       (seq 0 (count_occ Nat.eq_dec (linked events) characteristic))).
Proof.
  cbv zeta.
  destruct (session_from_mount hasBluetooth events) as (H1 & H2 & H3).
  split; [exact H1|]. split; [exact H2|]. split; [exact H3|].
  assert (L := session_listeners events (DeviceSession.mounted hasBluetooth)).
  cbn [DeviceSession.mounted DeviceSession.listeners app] in L.
  split; [exact L|].
  intros characteristic value clock. rewrite L.
  cbn [DeviceSession.listenerCalls]. now rewrite app_nil_r.
Qed.

(** A second [handleConnect] on the characteristic of the first: the one
    notification that follows is appended twice. *)
Example reconnect_doubles_notifications :
  let events :=
    (DeviceSession.attemptEvents 0 (Linked (Some "NeuraBat")) ++
     DeviceSession.attemptEvents 0 (Linked (Some "NeuraBat")) ++
     [DeviceSession.Notification 0 (Some oneToSix)
        (fun _ => JS.of_Z 1000)])%list in
  let p := DeviceSession.run events (DeviceSession.mounted true) in
  DeviceSession.canHappen events DeviceSession.nonePending
    (DeviceSession.mounted true) = true /\
  DeviceSession.listeners p = [0%nat; 0%nat] /\
  samplesRef (DeviceSession.component p) =
    [decoded oneToSix JS.zero; decoded oneToSix JS.zero].
Proof. vm_compute. repeat split. Qed.

(** One [handleConnect] that runs undisturbed is the handler taken as a
    whole. *)
Lemma attempt_undisturbed (characteristic : nat) (attempt : Attempt)
  (p : DeviceSession.Page) :
  supported (DeviceSession.component p) = true ->
  DeviceSession.component
    (DeviceSession.run (DeviceSession.attemptEvents characteristic attempt) p)
  = handleConnect attempt (DeviceSession.component p).
Proof.
  intros S. unfold handleConnect. rewrite S. cbn [negb].
  destruct attempt as [name|[name|] message];
    cbn [DeviceSession.attemptEvents DeviceSession.run fold_left
         DeviceSession.step DeviceSession.component];
    unfold DeviceSession.connectClicked; rewrite S; reflexivity.
Qed.

Lemma handleSendSwing_request (st : State) :
  snd (handleSendSwing st) =
  match samplesRef st with
  | [] => None
  | _ :: _ =>
    Some {| player_id := DEFAULT_PLAYER_ID;
            request_session_id := DEFAULT_SESSION_ID;
            sampling_rate_hz := 100;
            samples := JSArray.slice_last 100 (samplesRef st) |}
  end.
Proof.
  unfold handleSendSwing.
  destruct (samplesRef st) as [|x rest] eqn:E; [reflexivity|].
  assert (T : negb (truthy (Z.of_nat (List.length (x :: rest)))) = false).
  { unfold truthy. rewrite negb_involutive.
    apply Z.eqb_neq. cbn [List.length]. lia. }
  rewrite T. reflexivity.
Qed.

(** X2: a swing sent after any sequence of events carries the samples of
    the last min(100, n) of the n listener calls accepted so far, stamped
    as in the buffer, with sampling_rate_hz = 100; the send is refused
    exactly when no listener call has been accepted yet. *)
Theorem window_is_last_accepted_frames
  (hasBluetooth : bool) (events : list DeviceSession.Event) :
  let frames := acceptedFrames (DeviceSession.listenerCalls [] events) in
  let st :=
    DeviceSession.component
      (DeviceSession.run events (DeviceSession.mounted hasBluetooth)) in
  let sent := snd (handleSendSwing st) in
  (sent = None <-> frames = []) /\
  (forall first rest,
     frames = first :: rest ->
     sent =
       Some {| player_id := DEFAULT_PLAYER_ID;
               request_session_id := DEFAULT_SESSION_ID;
               sampling_rate_hz := 100;
               samples :=
                 JSArray.slice_last 100 (decodedAll (snd first) frames) |} /\
     List.length
       (JSArray.slice_last 100 (decodedAll (snd first) frames)) =
     Nat.min 100 (List.length frames)).
Proof.
  cbv zeta. rewrite handleSendSwing_request.
  destruct (session_from_mount hasBluetooth events) as (H1 & _ & H3).
  cbv zeta in H1, H3.
  destruct (acceptedFrames (DeviceSession.listenerCalls [] events))
    as [|first rest] eqn:E.
  - rewrite H1. split; [now split|]. intros f r H. discriminate H.
  - destruct (samplesRef _) as [|x buf] eqn:B.
    + cbn in H3. lia.
    + split; [split; intros H; discriminate H|].
      intros f r H. injection H as <- <-.
      rewrite H1, slice_last_twice by lia.
      split; [reflexivity|].
      rewrite slice_last_length. unfold decodedAll. now rewrite length_map.
Qed.

(** X3: the first frame accepted after mount discards whatever the buffer
    held and, for a finite clock reading, is stamped t = +0. *)
Theorem first_sample_at_zero (st : State) (v : DataView.view)
  (now : JS.number) :
  startTimeRef st = None ->
  accepted v ->
  JS.is_finite now = true ->
  samplesRef (onValueChanged (Some v) now st) = [decoded v JS.zero] /\
  startTimeRef (onValueChanged (Some v) now st) = Some now /\
  lastSample (onValueChanged (Some v) now st) = Some (decoded v JS.zero).
Proof.
  intros Hs Hv Hf.
  destruct (onValueChanged_accepted v now st Hv) as (H1 & H2 & H3).
  unfold kept, epochStart in H1, H2, H3. rewrite Hs in H1, H2, H3.
  assert (Z0 : stamp now now = JS.zero).
  { unfold stamp. rewrite sub_diag by exact Hf. reflexivity. }
  rewrite Z0 in H1, H3. cbn [app] in H1.
  rewrite slice_last_short in H1 by (cbn; lia).
  now repeat split.
Qed.

Lemma first_sample_at_zero_witness :
  samplesRef
    (onValueChanged (Some oneToSix) (JS.of_Z 1000) (initial true)) =
  [decoded oneToSix JS.zero].
Proof.
  apply (first_sample_at_zero (initial true) oneToSix (JS.of_Z 1000)).
  - reflexivity.
  - cbv. lia.
  - reflexivity.
Defined.

End DeviceTraces.

(* ================================================================== *)
(** ** DevicePage.tsx: what the page shows *)
(* ================================================================== *)

Section DevicePageState.
Import Api DataView DevicePage DeviceSpec DeviceTrace.

Lemma orElse_nonempty (x : option string) (fallback : string) :
  fallback <> "" -> orElse x fallback <> "".
Proof.
  intros H. destruct x as [[|c m]|]; cbn; [exact H|discriminate|exact H].
Qed.

(** A listener call changes nothing but the capture and the last sample. *)
Lemma onValueChanged_frame (value : option DataView.view) (now : JS.number)
  (st : State) :
  error (onValueChanged value now st) = error st /\
  deviceRef (onValueChanged value now st) = deviceRef st /\
  connected (onValueChanged value now st) = connected st /\
  sending (onValueChanged value now st) = sending st /\
  lastResult (onValueChanged value now st) = lastResult st.
Proof.
  destruct value as [v|]; [|now repeat split].
  unfold onValueChanged, addSampleFromNotification.
  destruct (Nat.ltb_spec (byteLength v) 24) as [H|H]; [now repeat split|].
  rewrite !getFloat32_reading by lia. unfold bind.
  destruct (startTimeRef st); now repeat split.
Qed.

(** So do the listener calls of one notification. *)
Lemma calls_frame (added : list nat) (characteristic : nat)
  (value : option DataView.view) (clock : nat -> JS.number) (st : State) :
  let st' :=
    run (DeviceSession.calls added characteristic value clock) st in
  error st' = error st /\ sending st' = sending st /\
  lastResult st' = lastResult st.
Proof.
  cbv zeta. unfold DeviceSession.calls.
  generalize (seq 0 (count_occ Nat.eq_dec added characteristic)).
  intros l. revert st. induction l as [|i l IH]; intros st.
  - now repeat split.
  - unfold run in *. cbn [map fold_left step].
    destruct (IH (onValueChanged value (clock i) st)) as (E1 & E2 & E3).
    destruct (onValueChanged_frame value (clock i) st)
      as (F1 & _ & _ & F4 & F5).
    rewrite E1, E2, E3. now repeat split.
Qed.

Lemma newest_snoc {A : Type} (a : list A) (x : A) :
  newest (a ++ [x]) = Some x.
Proof.
  unfold newest, JSArray.index. rewrite length_app. cbn [List.length].
  destruct (Z.ltb_spec (Z.of_nat (List.length a + 1) - 1) 0) as [H|H]; [lia|].
  replace (Z.to_nat (Z.of_nat (List.length a + 1) - 1)) with (List.length a)
    by lia.
  rewrite nth_error_app2 by lia. now rewrite Nat.sub_diag.
Qed.

Lemma onValueChanged_shown (value : option DataView.view) (now : JS.number)
  (st : State) :
  shown st -> shown (onValueChanged value now st).
Proof.
  intros (He & Hl). unfold shown.
  destruct (onValueChanged_frame value now st) as (E1 & _).
  rewrite E1. split; [exact He|].
  destruct (acceptedFrames_one (ValueChanged value now))
    as [E | (v & now' & Heq & Hv & _)].
  - destruct (step_other st _ E) as (H1 & _ & H3). cbn [step] in H1, H3.
    now rewrite H1, H3.
  - injection Heq as -> ->.
    destruct (onValueChanged_accepted v now' st Hv) as (H1 & _ & H3).
    rewrite H1, H3, (slice_last_snoc 400) by lia.
    now rewrite newest_snoc.
Qed.

Lemma session_step_shown (p : DeviceSession.Page) (e : DeviceSession.Event) :
  shown (DeviceSession.component p) ->
  shown (DeviceSession.component (DeviceSession.step p e)).
Proof.
  destruct e as [ch value clock| |name|ch|message| | | |outcome];
    cbn [DeviceSession.step DeviceSession.component].
  - unfold DeviceSession.calls.
    generalize (seq 0 (count_occ Nat.eq_dec (DeviceSession.listeners p) ch)).
    generalize (DeviceSession.component p).
    intros st l. revert st. induction l as [|i l IH]; intros st I; [exact I|].
    unfold run in *. cbn [map fold_left step].
    apply IH. now apply onValueChanged_shown.
  - unfold DeviceSession.connectClicked.
    destruct (negb (supported (DeviceSession.component p)));
      [tauto|].
    intros (He & Hl). split; [discriminate|exact Hl].
  - intros (He & Hl). split; assumption.
  - intros (He & Hl). split; assumption.
  - intros (He & Hl). split; [|exact Hl].
    cbn [DeviceSession.connectFailed error].
    intros H. injection H as H. revert H. now apply orElse_nonempty.
  - tauto.
  - intros (He & Hl). split; assumption.
  - intros (He & Hl). unfold handleSendSwing.
    destruct (negb (truthy _)); cbn [fst error lastSample samplesRef];
      (split; [discriminate|exact Hl]).
  - intros (He & Hl). split; [|exact Hl].
    cbn [classifySettled error].
    destruct outcome as [result|message]; [exact He|].
    intros H. injection H as H. revert H. now apply orElse_nonempty.
Qed.

(** X5: whatever happens to the mounted page, in whatever order its
    handlers are resumed, the error it shows is never the empty text and
    the sample it displays is the newest sample of the buffer.  (That a
    connected page holds a device is not kept by the page:
    [disconnect_during_reconnect].) *)
Theorem page_state_invariants (hasBluetooth : bool)
  (events : list DeviceSession.Event) :
  let st :=
    DeviceSession.component
      (DeviceSession.run events (DeviceSession.mounted hasBluetooth)) in
  error st <> Some "" /\
  lastSample st = newest (samplesRef st).
Proof.
  cbv zeta.
  change (shown (DeviceSession.component
                   (DeviceSession.run events
                      (DeviceSession.mounted hasBluetooth)))).
  assert (I : shown (DeviceSession.component
                       (DeviceSession.mounted hasBluetooth))).
  { unfold shown. cbn. split; [discriminate|reflexivity]. }
  revert I. generalize (DeviceSession.mounted hasBluetooth).
  induction events as [|e events IH]; intros p I; [exact I|].
  unfold DeviceSession.run in *. cbn [fold_left].
  apply IH. now apply session_step_shown.
Qed.

(** A click on Disconnect while a reconnect waits for the link: the
    handler of the click clears the device and the connected flag, the
    reconnect then sets the flag again.  The page shows a connected
    device and holds none. *)
Example disconnect_during_reconnect :
  let events :=
    (DeviceSession.attemptEvents 0 (Linked (Some "NeuraBat")) ++
     [ DeviceSession.ConnectClicked;
       DeviceSession.DeviceChosen (Some "NeuraBat");
       DeviceSession.DisconnectClicked;
       DeviceSession.DisconnectSettled;
       DeviceSession.ConnectDone 0 ])%list in
  let st :=
    DeviceSession.component
      (DeviceSession.run events (DeviceSession.mounted true)) in
  DeviceSession.canHappen events DeviceSession.nonePending
    (DeviceSession.mounted true) = true /\
  connected st = true /\ deviceRef st = None.
Proof. vm_compute. repeat split. Qed.

Lemma quiet_step (p : DeviceSession.Page) (e : DeviceSession.Event) :
  quiet e ->
  let st := DeviceSession.component p in
  let st' := DeviceSession.component (DeviceSession.step p e) in
  sending st' = sending st /\
  (lastResult st = None -> lastResult st' = None) /\
  (noFailure e -> error st = None -> error st' = None).
Proof.
  cbv zeta.
  destruct e as [ch value clock| |name|ch|message| | | |outcome];
    cbn [quiet noFailure DeviceSession.step DeviceSession.component];
    intros Q; try contradiction; try (now repeat split).
  - destruct (calls_frame (DeviceSession.listeners p) ch value clock
                (DeviceSession.component p)) as (E1 & E2 & E3).
    cbv zeta in E1, E2, E3. rewrite E1, E2, E3. now repeat split.
  - unfold DeviceSession.connectClicked.
    destruct (negb (supported (DeviceSession.component p)));
      now repeat split.
Qed.

Lemma quiet_run (between : list DeviceSession.Event)
  (p : DeviceSession.Page) :
  Forall quiet between ->
  let st := DeviceSession.component p in
  let st' := DeviceSession.component (DeviceSession.run between p) in
  sending st' = sending st /\
  (lastResult st = None -> lastResult st' = None) /\
  (Forall noFailure between -> error st = None -> error st' = None).
Proof.
  cbv zeta. intros Q. revert p.
  induction Q as [|e between Qe Q IH]; intros p; [now repeat split|].
  unfold DeviceSession.run in *. cbn [fold_left].
  destruct (IH (DeviceSession.step p e)) as (I1 & I2 & I3).
  destruct (quiet_step p e Qe) as (S1 & S2 & S3). cbv zeta in S1, S2, S3.
  split; [congruence|]. split; [auto|].
  intros F E. inversion F; subst. auto.
Qed.

(** While the sending flag is up the send button is disabled: of the
    events that can happen, those before the classifier's answer are
    quiet. *)
Lemma busy_is_quiet (between : list DeviceSession.Event)
  (w : DeviceSession.Pending) (p : DeviceSession.Page) :
  sending (DeviceSession.component p) = true ->
  DeviceSession.canHappen between w p = true ->
  Forall (fun e => forall outcome,
            e <> DeviceSession.ClassifySettled outcome) between ->
  Forall quiet between.
Proof.
  intros S C F. revert w p S C.
  induction F as [|e between Fe F IH]; intros w p S C; [constructor|].
  cbn [DeviceSession.canHappen] in C. apply andb_prop in C.
  destruct C as [C1 C2].
  assert (Q : quiet e).
  { destruct e; cbn [quiet]; try exact I.
    - cbn [DeviceSession.possible] in C1. rewrite S in C1. discriminate C1.
    - now apply (Fe outcome). }
  constructor; [exact Q|].
  apply (IH _ _ (eq_trans (proj1 (quiet_step p e Q)) S) C2).
Qed.

(** X4: a send from a non-empty buffer raises the sending flag, clears
    the previous result and error, and asks for the last 100 samples the
    buffer holds at that moment.  Until the classifier settles, whatever
    else happens (notifications, connects, disconnects), the flag stays
    up and no result is shown.  When the classifier answers, the flag
    drops and the page shows the result, with the error the events in
    between have left: none unless a connect failed among them.  When it
    fails, the flag drops and the page shows a non-empty error and no
    result.  A connect that fails while the classifier is busy thus
    leaves the result shown beside an error ([result_beside_error]).
    The events in between are taken to hold no send and no answer: while
    the flag is up no other send can be clicked ([busy_is_quiet]). *)
Theorem send_then_settle (p : DeviceSession.Page)
  (between : list DeviceSession.Event)
  (outcome : ClassificationResult + option string) :
  samplesRef (DeviceSession.component p) <> [] ->
  Forall quiet between ->
  let waiting := DeviceSession.step p DeviceSession.SendSwing in
  let before := DeviceSession.run between waiting in
  let settled :=
    DeviceSession.step before (DeviceSession.ClassifySettled outcome) in
  snd (handleSendSwing (DeviceSession.component p)) =
    Some {| player_id := DEFAULT_PLAYER_ID;
            request_session_id := DEFAULT_SESSION_ID;
            sampling_rate_hz := 100;
            samples :=
              JSArray.slice_last 100
                (samplesRef (DeviceSession.component p)) |} /\
  sending (DeviceSession.component waiting) = true /\
  lastResult (DeviceSession.component waiting) = None /\
  error (DeviceSession.component waiting) = None /\
  sending (DeviceSession.component before) = true /\
  lastResult (DeviceSession.component before) = None /\
  (Forall noFailure between ->
   error (DeviceSession.component before) = None) /\
  sending (DeviceSession.component settled) = false /\
  match outcome with
  | inl result =>
    lastResult (DeviceSession.component settled) = Some result /\
    error (DeviceSession.component settled) =
      error (DeviceSession.component before)
  | inr _ =>
    lastResult (DeviceSession.component settled) = None /\
    exists message,
      error (DeviceSession.component settled) = Some message /\
      message <> ""
  end.
Proof.
  intros N Q waiting before settled.
  assert (R := handleSendSwing_request (DeviceSession.component p)).
  assert (W : DeviceSession.component waiting =
              fst (handleSendSwing (DeviceSession.component p)))
    by reflexivity.
  assert (W1 : sending (DeviceSession.component waiting) = true /\
               lastResult (DeviceSession.component waiting) = None /\
               error (DeviceSession.component waiting) = None).
  { rewrite W. unfold handleSendSwing.
    destruct (samplesRef (DeviceSession.component p)) as [|x rest] eqn:E;
      [contradiction|].
    assert (T : negb (truthy (Z.of_nat (List.length (x :: rest)))) = false).
    { unfold truthy. rewrite negb_involutive.
      apply Z.eqb_neq. cbn [List.length]. lia. }
    rewrite T. now repeat split. }
  destruct W1 as (W1 & W2 & W3).
  destruct (quiet_run between waiting Q) as (B1 & B2 & B3).
  cbv zeta in B1, B2, B3. fold before in B1, B2, B3.
  split.
  { rewrite R.
    destruct (samplesRef (DeviceSession.component p));
      [contradiction|reflexivity]. }
  split; [exact W1|]. split; [exact W2|]. split; [exact W3|].
  split; [congruence|]. split; [auto|]. split; [auto|].
  subst settled.
  cbn [DeviceSession.step DeviceSession.component classifySettled
       sending lastResult error].
  split; [reflexivity|].
  destruct outcome as [result|message]; [now split|].
  split; [auto|].
  eexists. split; [reflexivity|]. now apply orElse_nonempty.
Qed.

Lemma send_then_settle_witness :
  let ready :=
    DeviceSession.run
      (DeviceSession.attemptEvents 0 (Linked (Some "NeuraBat")) ++
       [DeviceSession.Notification 0 (Some oneToSix) (fun _ => JS.zero)])
      (DeviceSession.mounted true) in
  let between :=
    [DeviceSession.Notification 0 (Some oneToSix) (fun _ => JS.of_Z 10)] in
  let waiting := DeviceSession.step ready DeviceSession.SendSwing in
  let before := DeviceSession.run between waiting in
  sending (DeviceSession.component waiting) = true /\
  sending (DeviceSession.component before) = true /\
  sending
    (DeviceSession.component
       (DeviceSession.step before
          (DeviceSession.ClassifySettled (inr None)))) = false.
Proof.
  cbv zeta.
  pose proof
    (send_then_settle
       (DeviceSession.run
          (DeviceSession.attemptEvents 0 (Linked (Some "NeuraBat")) ++
           [DeviceSession.Notification 0 (Some oneToSix) (fun _ => JS.zero)])
          (DeviceSession.mounted true))
       [DeviceSession.Notification 0 (Some oneToSix) (fun _ => JS.of_Z 10)]
       (inr None)) as H.
  cbv zeta in H.
  destruct H as (_ & H1 & _ & _ & H2 & _ & _ & H3 & _).
  - vm_compute. discriminate.
  - repeat constructor.
  - split; [exact H1|]. split; [exact H2|exact H3].
Defined.

(** A send, then a reconnect that fails while the classifier is busy,
    then the classifier's answer: the result is shown beside the error of
    the connect. *)
Example result_beside_error :
  let result :=
    {| result_shot_type := "Smash"; confidence := JS.dec 9 10;
       speed_mps := JS.of_Z 12; accuracy_score := JS.dec 8 10 |} in
  let events :=
    (DeviceSession.attemptEvents 0 (Linked (Some "NeuraBat")) ++
     [ DeviceSession.Notification 0 (Some oneToSix) (fun _ => JS.zero);
       DeviceSession.SendSwing ] ++
     DeviceSession.attemptEvents 0 (Failed None (Some "User cancelled")) ++
     [ DeviceSession.ClassifySettled (inl result) ])%list in
  let st :=
    DeviceSession.component
      (DeviceSession.run events (DeviceSession.mounted true)) in
  DeviceSession.canHappen events DeviceSession.nonePending
    (DeviceSession.mounted true) = true /\
  lastResult st = Some result /\
  error st = Some "User cancelled".
Proof. vm_compute. repeat split. Qed.

End DevicePageState.

(* ================================================================== *)
(** ** DashboardPage.tsx: the session summary *)
(* ================================================================== *)

Section DashboardSummary.
Import Api.

(** The running primary shot stays the first entry of highest count. *)
Lemma totals_primary_fold (entries seen : list ShotStats) (p : ShotStats)
  (tc sa : JS.number) :
  Spec.dominant seen p ->
  exists q,
    snd (fold_left DashboardPage.totals_step entries (tc, sa, Some p)) =
    Some q /\
    Spec.dominant (seen ++ entries) q.
Proof.
  revert seen p tc sa.
  induction entries as [|x entries IH]; intros seen p tc sa Hp.
  - exists p. rewrite app_nil_r. now split.
  - cbn [fold_left DashboardPage.totals_step].
    replace (seen ++ x :: entries)%list with ((seen ++ [x]) ++ entries)%list
      by (rewrite <- app_assoc; reflexivity).
    destruct (count x >? count p) eqn:C; apply IH.
    + exists seen, []. repeat split; [|constructor].
      pose proof (dominant_bounds seen p Hp) as Hall.
      eapply Forall_impl; [|exact Hall]. cbn. intros; lia.
    + destruct Hp as (before & after & -> & Hb & Ha).
      exists before, (after ++ [x])%list.
      split; [rewrite <- app_assoc; reflexivity|].
      split; [exact Hb|].
      apply Forall_app. split; [exact Ha|]. constructor; [lia|constructor].
Qed.

(** X6: the primary shot of the dashboard (a running maximum under a
    strict comparison) is absent exactly for an empty list and is
    otherwise the entry of highest count, the first one among equals; it
    is the shot the feedback of the profile and analytics pages names for
    the same entries (element 0 of the stable sort by descending count). *)
Theorem dashboard_primary_shot (shotStatsList : list ShotStats) :
  (DashboardPage.primaryShot shotStatsList = None <-> shotStatsList = []) /\
  (forall p,
     DashboardPage.primaryShot shotStatsList = Some p ->
     Spec.dominant shotStatsList p) /\
  (forall first rest,
     shotStatsList = first :: rest ->
     DashboardPage.primaryShot shotStatsList =
       Some (hd first (JSArray.sort ProfilePage.byCountDescending shotStatsList)) /\
     DashboardPage.primaryShot shotStatsList =
       Some (hd first (JSArray.sort AnalyticsPage.byCountDescending shotStatsList))).
Proof.
  unfold DashboardPage.primaryShot, DashboardPage.totals.
  destruct shotStatsList as [|first rest].
  - cbn. repeat split; congruence.
  - cbn [fold_left DashboardPage.totals_step].
    destruct (totals_primary_fold rest [first] first
                (JS.add JS.zero (JS.of_Z (count first)))
                (JS.add JS.zero
                   (JS.mul (average_confidence first) (JS.of_Z (count first)))))
      as (q & Hq & Hd).
    { exists [], []. repeat split; constructor. }
    cbn [app] in Hd. rewrite Hq.
    split; [split; intros H; discriminate H|].
    split; [intros p H; injection H as <-; exact Hd|].
    intros f r H. injection H as <- <-.
    assert (E : q = hd first (JSArray.sort ProfilePage.byCountDescending
                                (first :: rest))).
    { apply (dominant_unique (first :: rest)); [exact Hd|].
      apply sorted_head_dominant. discriminate. }
    split; [now rewrite E|]. rewrite E. reflexivity.
Qed.

(** X7: the dashboard's overall accuracy is, for every list of per-shot
    stats, the number [summarizeShots] of the profile and analytics pages
    computes for it.  For counts that are not negative and sum below 2^53
    its total is the sum of the counts and its accuracy the count-weighted
    mean of the confidences. *)
Theorem dashboard_accuracy_agrees (shotStatsList : list ShotStats) :
  DashboardPage.overallAccuracy shotStatsList =
    ProfilePage.avgAccuracy (ProfilePage.summarizeShots shotStatsList) /\
  DashboardPage.overallAccuracy shotStatsList =
    AnalyticsPage.avgAccuracy (AnalyticsPage.summarizeShots shotStatsList) /\
  (Forall (fun s => 0 <= count s) shotStatsList ->
   Spec.totalCount shotStatsList < 2 ^ 53 ->
   DashboardPage.totalSwings shotStatsList =
     JS.of_Z (Spec.totalCount shotStatsList) /\
   DashboardPage.overallAccuracy shotStatsList =
     Spec.weightedMean average_confidence shotStatsList).
Proof.
  destruct (dashboard_is_summary shotStatsList) as [P A].
  split; [exact P|]. split; [exact A|].
  apply dashboard_overall_weighted.
Qed.

Lemma dashboard_accuracy_agrees_witness :
  DashboardPage.totalSwings unequalCounts = JS.of_Z 4 /\
  DashboardPage.overallAccuracy unequalCounts =
    Spec.weightedMean average_confidence unequalCounts.
Proof.
  apply (proj2 (proj2 (dashboard_accuracy_agrees unequalCounts))).
  - repeat constructor; cbn; lia.
  - reflexivity.
Defined.

End DashboardSummary.

(* ================================================================== *)
(** ** Objects used as dictionaries: lookup, update, enumeration *)
(* ================================================================== *)

Section ObjectFacts.
Context {V : Type}.

Lemma get_set_same (o : JSObject.object V) (k : string) (v : V) :
  JSObject.get (JSObject.set o k v) k = Some v.
Proof.
  induction o as [|[k' v'] o IH]; cbn.
  - now rewrite String.eqb_refl.
  - destruct (String.eqb k' k) eqn:E; cbn; now rewrite E.
Qed.

Lemma get_set_other (o : JSObject.object V) (k k' : string) (v : V) :
  k <> k' -> JSObject.get (JSObject.set o k v) k' = JSObject.get o k'.
Proof.
  intros H. induction o as [|[k0 v0] o IH]; cbn.
  - destruct (String.eqb_spec k k'); [contradiction|reflexivity].
  - destruct (String.eqb_spec k0 k) as [->|N]; cbn.
    + destruct (String.eqb_spec k k'); [contradiction|reflexivity].
    + now rewrite IH.
Qed.

Lemma get_None (o : JSObject.object V) (k : string) :
  JSObject.get o k = None <-> ~ In k (map fst o).
Proof.
  induction o as [|[k' v'] o IH]; cbn.
  - tauto.
  - destruct (String.eqb_spec k' k) as [->|N].
    + split; [discriminate|]. intros H. exfalso. apply H. now left.
    + rewrite IH. split; [intros H [E|I]; [contradiction|now apply H]|tauto].
Qed.

Lemma set_keys (o : JSObject.object V) (k : string) (v : V) :
  map fst (JSObject.set o k v) =
  if in_dec string_dec k (map fst o) then map fst o
  else (map fst o ++ [k])%list.
Proof.
  induction o as [|[k' v'] o IH]; cbn [JSObject.set map fst].
  - now destruct (in_dec string_dec k []).
  - destruct (String.eqb_spec k' k) as [->|N]; cbn [map fst].
    + destruct (in_dec string_dec k (k :: map fst o)) as [_|H];
        [reflexivity|exfalso; apply H; now left].
    + rewrite IH.
      destruct (in_dec string_dec k (map fst o)) as [I|I];
        destruct (in_dec string_dec k (k' :: map fst o)) as [J|J];
        try reflexivity.
      * exfalso. apply J. now right.
      * destruct J as [J|J]; [congruence|contradiction].
Qed.

(** Writing keeps the keys distinct. *)
Lemma set_NoDup (o : JSObject.object V) (k : string) (v : V) :
  NoDup (map fst o) -> NoDup (map fst (JSObject.set o k v)).
Proof.
  intros H. rewrite set_keys.
  destruct (in_dec string_dec k (map fst o)) as [I|I]; [exact H|].
  apply NoDup_app; [exact H|repeat constructor; intros []|].
  intros x Hx [<-|[]]. contradiction.
Qed.

Lemma get_In (o : JSObject.object V) (k : string) (v : V) :
  NoDup (map fst o) -> (JSObject.get o k = Some v <-> In (k, v) o).
Proof.
  induction o as [|[k' v'] o IH]; cbn [JSObject.get map fst In].
  - intros _. split; [discriminate|tauto].
  - intros H. apply NoDup_cons_iff in H. destruct H as [Hk H].
    destruct (String.eqb_spec k' k) as [->|N].
    + split.
      * intros E. injection E as ->. now left.
      * intros [E|I]; [congruence|].
        exfalso. apply Hk. apply in_map_iff. now exists (k, v).
    + rewrite (IH H). split; [tauto|].
      intros [E|I]; [congruence|exact I].
Qed.

Lemma insertByIndex_perm (x : N * (string * V))
  (l : list (N * (string * V))) :
  Permutation (JSObject.insertByIndex x l) (x :: l).
Proof.
  induction l as [|y l IH]; cbn [JSObject.insertByIndex]; [reflexivity|].
  destruct (fst x <=? fst y)%N; [reflexivity|].
  rewrite IH. apply perm_swap.
Qed.

(** [Object.entries] lists the properties, each once. *)
Lemma entries_perm (o : JSObject.object V) :
  Permutation (JSObject.entries o) o.
Proof.
  unfold JSObject.entries.
  induction o as [|[k v] o IH]; [reflexivity|].
  cbn [JSObject.indexed filter fst]. unfold JSObject.isArrayIndex.
  destruct (JSObject.arrayIndex k) as [n|]; cbn [negb].
  - rewrite insertByIndex_perm. cbn [map snd app].
    now apply perm_skip.
  - rewrite <- Permutation_middle.
    now apply perm_skip.
Qed.

Lemma indexed_none (o : JSObject.object V) :
  Forall (fun p => JSObject.isArrayIndex (fst p) = false) o ->
  JSObject.indexed o = [] /\
  filter (fun p => negb (JSObject.isArrayIndex (fst p))) o = o.
Proof.
  induction 1 as [|[k v] o Hk _ [IH1 IH2]]; [now split|].
  cbn [JSObject.indexed filter fst] in *. unfold JSObject.isArrayIndex in *.
  destruct (JSObject.arrayIndex k); [discriminate|].
  cbn [negb]. now rewrite IH1, IH2.
Qed.

(** With no array index among the keys the enumeration is the creation
    order. *)
Lemma entries_plain (o : JSObject.object V) :
  Forall (fun p => JSObject.isArrayIndex (fst p) = false) o ->
  JSObject.entries o = o.
Proof.
  intros H. unfold JSObject.entries.
  destruct (indexed_none o H) as [-> ->]. reflexivity.
Qed.

End ObjectFacts.

(* ================================================================== *)
(** ** DashboardPage.tsx: the stats by shot type *)
(* ================================================================== *)

Section DashboardByType.
Import Api DashboardStats.

Lemma find_app {A : Type} (f : A -> bool) (l1 l2 : list A) :
  find f (l1 ++ l2) =
  match find f l1 with
  | Some x => Some x
  | None => find f l2
  end.
Proof.
  induction l1 as [|x l1 IH]; cbn; [reflexivity|].
  now destruct (f x).
Qed.

Lemma set_new {V : Type} (o : JSObject.object V) (k : string) (v : V) :
  ~ In k (map fst o) -> JSObject.set o k v = (o ++ [(k, v)])%list.
Proof.
  induction o as [|[k' v'] o IH]; cbn [JSObject.set map fst In app];
    [reflexivity|].
  intros H. destruct (String.eqb_spec k' k) as [E|N]; [tauto|].
  rewrite IH by tauto. reflexivity.
Qed.

Lemma byTypeFrom_get (shots : list ShotStats)
  (o : JSObject.object ShotStats) (k : string) :
  JSObject.get (byTypeFrom o shots) k =
  match lastOfType k shots with
  | Some s => Some s
  | None => JSObject.get o k
  end.
Proof.
  revert o. induction shots as [|s shots IH]; intros o; [reflexivity|].
  unfold byTypeFrom in *. cbn [fold_left]. rewrite IH.
  unfold lastOfType. cbn [rev]. rewrite find_app.
  destruct (find (fun s0 => String.eqb (shot_type s0) k) (rev shots));
    [reflexivity|].
  cbn [find]. destruct (String.eqb_spec (shot_type s) k) as [<-|N].
  - apply get_set_same.
  - now apply get_set_other.
Qed.

Lemma byTypeFrom_NoDup (shots : list ShotStats)
  (o : JSObject.object ShotStats) :
  NoDup (map fst o) -> NoDup (map fst (byTypeFrom o shots)).
Proof.
  revert o. induction shots as [|s shots IH]; intros o H; [exact H|].
  unfold byTypeFrom in *. cbn [fold_left]. apply IH. now apply set_NoDup.
Qed.

Lemma set_keyed (o : JSObject.object ShotStats) (s : ShotStats) :
  Forall (fun p => fst p = shot_type (snd p)) o ->
  Forall (fun p => fst p = shot_type (snd p))
    (JSObject.set o (shot_type s) s).
Proof.
  induction 1 as [|[k v] o Hk H IH]; cbn [JSObject.set].
  - repeat constructor.
  - destruct (String.eqb_spec k (shot_type s)) as [E|N].
    + constructor; [exact E|assumption].
    + constructor; assumption.
Qed.

Lemma byTypeFrom_keyed (shots : list ShotStats)
  (o : JSObject.object ShotStats) :
  Forall (fun p => fst p = shot_type (snd p)) o ->
  Forall (fun p => fst p = shot_type (snd p)) (byTypeFrom o shots).
Proof.
  revert o. induction shots as [|s shots IH]; intros o H; [exact H|].
  unfold byTypeFrom in *. cbn [fold_left]. apply IH. now apply set_keyed.
Qed.

Lemma byTypeFrom_distinct (shots : list ShotStats)
  (o : JSObject.object ShotStats) :
  NoDup (map fst o ++ map shot_type shots) ->
  byTypeFrom o shots = (o ++ map (fun s => (shot_type s, s)) shots)%list.
Proof.
  revert o. induction shots as [|s shots IH]; intros o H.
  - cbn. now rewrite app_nil_r.
  - unfold byTypeFrom in *. cbn [fold_left map].
    assert (Hs : ~ In (shot_type s) (map fst o)).
    { intros I. apply NoDup_remove_2 in H. apply H.
      apply in_or_app. now left. }
    rewrite set_new by exact Hs.
    rewrite IH.
    + now rewrite <- app_assoc.
    + rewrite map_app. cbn [map fst]. rewrite <- app_assoc. exact H.
Qed.

Lemma lastOfType_None (k : string) (shots : list ShotStats) :
  lastOfType k shots = None <-> ~ In k (map shot_type shots).
Proof.
  unfold lastOfType. split.
  - intros H I. apply in_map_iff in I. destruct I as (s & <- & I).
    assert (F := find_none _ _ H s (proj1 (in_rev _ _) I)).
    cbn beta in F. rewrite String.eqb_refl in F. discriminate F.
  - intros H.
    destruct (find _ (rev shots)) as [s|] eqn:E; [|reflexivity].
    apply find_some in E. destruct E as [I E].
    apply String.eqb_eq in E. exfalso. apply H.
    apply in_map_iff. exists s. split; [exact E|]. now apply in_rev.
Qed.

Lemma byType_kept (shots : list ShotStats) (o : JSObject.object ShotStats) :
  fold_left (fun map shot => JSObject.assign map (shot_type shot) shot)
    shots o =
  byTypeFrom o (filter notProto shots).
Proof.
  revert o. induction shots as [|s shots IH]; intros o; [reflexivity|].
  cbn [fold_left filter]. rewrite IH. unfold JSObject.assign, notProto.
  now destruct (String.eqb (shot_type s) "__proto__").
Qed.

Lemma find_kept (k : string) (l : list ShotStats) :
  find (fun s => String.eqb (shot_type s) k) (filter notProto l) =
  if String.eqb k "__proto__" then None
  else find (fun s => String.eqb (shot_type s) k) l.
Proof.
  induction l as [|a l IH].
  - cbn. now destruct (String.eqb k "__proto__").
  - cbn [filter find]. unfold notProto at 1.
    destruct (String.eqb_spec (shot_type a) "__proto__") as [P|P];
      cbn [negb find];
      destruct (String.eqb_spec (shot_type a) k) as [E|E];
      destruct (String.eqb_spec k "__proto__") as [Q|Q];
      try congruence; rewrite IH;
      destruct (String.eqb_spec k "__proto__"); congruence.
Qed.

Lemma lastOfType_kept (k : string) (shots : list ShotStats) :
  lastOfType k (filter notProto shots) =
  if String.eqb k "__proto__" then None else lastOfType k shots.
Proof.
  unfold lastOfType. rewrite <- filter_rev. apply find_kept.
Qed.

(** X8: after a successful refresh the dashboard's object holds, for each
    shot type of the response other than [__proto__], the last entry of
    that type, and no other property; the list the totals run over holds
    each of these entries once, one per shot type; when the response
    names each shot type once, and none is [__proto__] or reads as an
    array index, the list is the response itself, in order.  A failed
    refresh keeps the previous object. *)
Theorem session_stats_by_type (response : list ShotStats)
  (previous : JSObject.object ShotStats) :
  let stats := refreshSessionStats (Some response) previous in
  let listed := shotStatsList stats in
  (forall k, JSObject.get stats k =
             if String.eqb k "__proto__" then None
             else lastOfType k response) /\
  NoDup (map shot_type listed) /\
  (forall s, In s listed <->
             shot_type s <> "__proto__" /\
             lastOfType (shot_type s) response = Some s) /\
  (NoDup (map shot_type response) ->
   Forall (fun s => JSObject.isArrayIndex (shot_type s) = false /\
                    shot_type s <> "__proto__") response ->
   listed = response) /\
  refreshSessionStats None previous = previous.
Proof.
  intros stats listed. subst listed stats.
  unfold refreshSessionStats, shotStatsList, JSObject.values, byType.
  rewrite byType_kept.
  set (o := byTypeFrom JSObject.empty (filter notProto response)).
  assert (G : forall k, JSObject.get o k =
                        if String.eqb k "__proto__" then None
                        else lastOfType k response).
  { intros k. subst o. rewrite byTypeFrom_get, lastOfType_kept.
    destruct (String.eqb k "__proto__"); [reflexivity|].
    now destruct (lastOfType k response). }
  assert (N : NoDup (map fst o)).
  { subst o. apply byTypeFrom_NoDup. constructor. }
  assert (K : Forall (fun p => fst p = shot_type (snd p)) o).
  { subst o. apply byTypeFrom_keyed. constructor. }
  assert (KE : Forall (fun p => fst p = shot_type (snd p))
                 (JSObject.entries o)).
  { rewrite Forall_forall in *. intros p Hp. apply K.
    now apply (Permutation_in _ (entries_perm o)). }
  assert (ME : map shot_type (map snd (JSObject.entries o)) =
               map fst (JSObject.entries o)).
  { rewrite map_map. apply map_ext_in. intros p Hp.
    rewrite Forall_forall in KE. symmetry. now apply KE. }
  assert (L : forall s, In s (map snd (JSObject.entries o)) <->
                        JSObject.get o (shot_type s) = Some s).
  { intros s. rewrite (get_In o _ _ N). split.
    - intros I. apply in_map_iff in I. destruct I as ([k v] & <- & I).
      apply (Permutation_in _ (entries_perm o)) in I.
      rewrite Forall_forall in K. specialize (K _ I). cbn in K.
      cbn [snd]. now rewrite <- K.
    - intros I. apply in_map_iff. exists (shot_type s, s).
      split; [reflexivity|].
      now apply (Permutation_in _ (Permutation_sym (entries_perm o))). }
  split; [exact G|].
  split.
  { rewrite ME.
    apply (Permutation_NoDup (l := map fst o)); [|exact N].
    apply Permutation_map. symmetry. apply entries_perm. }
  split.
  { intros s. rewrite L, G.
    destruct (String.eqb_spec (shot_type s) "__proto__") as [P|P].
    - split; [discriminate|tauto].
    - tauto. }
  split; [|reflexivity].
  intros D P.
  assert (F : filter notProto response = response).
  { apply forallb_filter_id. apply forallb_forall. intros s I.
    rewrite Forall_forall in P. destruct (P s I) as [_ Q].
    unfold notProto. now destruct (String.eqb_spec (shot_type s) "__proto__"). }
  assert (E : o = map (fun s => (shot_type s, s)) response).
  { subst o. rewrite F. now rewrite byTypeFrom_distinct. }
  rewrite entries_plain.
  - rewrite E, map_map. cbn [snd]. apply map_id.
  - rewrite E. apply Forall_map. cbn [fst].
    apply (Forall_impl _ (P := fun s => JSObject.isArrayIndex (shot_type s) = false /\
                    shot_type s <> "__proto__")); [tauto|exact P].
Qed.

Lemma session_stats_by_type_witness :
  shotStatsList
    (refreshSessionStats
       (Some [entry "Smash" 2 JS.zero; entry "Push" 1 JS.zero])
       JSObject.empty) =
  [entry "Smash" 2 JS.zero; entry "Push" 1 JS.zero].
Proof.
  apply (proj1 (proj2 (proj2 (proj2
           (session_stats_by_type
              [entry "Smash" 2 JS.zero; entry "Push" 1 JS.zero]
              JSObject.empty))))).
  - repeat constructor; cbn; intuition discriminate.
  - repeat constructor; discriminate.
Defined.

(** Array indices come first in the enumeration, a repeated shot type
    keeps the place of its first entry with the stats of its last, and an
    entry named [__proto__] is not listed. *)
Example shotStatsList_order :
  map (fun s => (shot_type s, count s))
    (shotStatsList
       (refreshSessionStats
          (Some [entry "Smash" 2 JS.zero; entry "10" 1 JS.zero;
                 entry "Push" 3 JS.zero; entry "9" 4 JS.zero;
                 entry "__proto__" 6 JS.zero;
                 entry "Smash" 7 JS.zero; entry "007" 5 JS.zero])
          JSObject.empty)) =
  [("9", 4); ("10", 1); ("Smash", 7); ("Push", 3); ("007", 5)].
Proof. reflexivity. Qed.

(** X9: each card of the dashboard grid shows the last entry the
    refreshed stats hold for its shot, and 'No swings recorded yet.'
    exactly when the response has no entry of that type. *)
Theorem dashboard_card (response : list ShotStats)
  (previous : JSObject.object ShotStats) (shot : string) :
  In shot SHOTS ->
  card (refreshSessionStats (Some response) previous) shot =
    lastOfType shot response /\
  (card (refreshSessionStats (Some response) previous) shot = None <->
   ~ In shot (map shot_type response)).
Proof.
  intros H.
  assert (E : card (refreshSessionStats (Some response) previous) shot =
              lastOfType shot response).
  { unfold card, refreshSessionStats, byType.
    rewrite byType_kept, byTypeFrom_get, lastOfType_kept.
    replace (String.eqb shot "__proto__") with false.
    - now destruct (lastOfType shot response).
    - cbn in H.
      repeat (destruct H as [<-|H]; [reflexivity|]). destruct H. }
  split; [exact E|]. rewrite E. apply lastOfType_None.
Qed.

Lemma dashboard_card_witness :
  card (refreshSessionStats
          (Some [entry "Smash" 2 JS.zero; entry "Push" 1 JS.zero;
                 entry "Smash" 5 JS.zero])
          JSObject.empty) "Smash" =
  Some (entry "Smash" 5 JS.zero).
Proof.
  apply (proj1 (dashboard_card
                  [entry "Smash" 2 JS.zero; entry "Push" 1 JS.zero;
                   entry "Smash" 5 JS.zero] JSObject.empty "Smash"
                  (or_intror (or_intror (or_introl eq_refl))))).
Defined.

End DashboardByType.

(* ================================================================== *)
(** ** ProfilePage.tsx: the per-shot aggregate and the best shot *)
(* ================================================================== *)

Section CareerFacts.
Import Api.

Lemma aggregate_step_None (shots : list ShotStats) :
  fold_left Career.aggregate_step shots None = None.
Proof. induction shots as [|s shots IH]; [reflexivity|exact IH]. Qed.

Lemma aggregate_nested_concat (sessions : list SessionStats)
  (acc : option (JSObject.object Career.Aggregate)) :
  fold_left
    (fun acc session => fold_left Career.aggregate_step (shots session) acc)
    sessions acc =
  fold_left Career.aggregate_step (Spec.allShots sessions) acc.
Proof.
  revert acc.
  induction sessions as [|session sessions IH]; intros acc; [reflexivity|].
  unfold Spec.allShots in *. cbn [fold_left map List.concat].
  now rewrite fold_left_app, IH.
Qed.

Lemma add_shot_fold (l : list ShotStats) (a : Career.Aggregate) :
  fold_left Career.add_shot l a =
  {| Career.count := countsFrom (Career.count a) l;
     Career.accSum := termsFrom average_confidence (Career.accSum a) l |}.
Proof.
  revert a. induction l as [|s l IH]; intros a.
  - now destruct a.
  - cbn [fold_left]. rewrite IH. reflexivity.
Qed.

(** The loop over a list of shots, none of an inherited name: what it
    leaves under each key. *)
Lemma aggregate_fold (l : list ShotStats)
  (o : JSObject.object Career.Aggregate) :
  Forall (fun s => JSObject.inherited (shot_type s) = false) l ->
  NoDup (map fst o) ->
  exists o',
    fold_left Career.aggregate_step l (Some o) = Some o' /\
    NoDup (map fst o') /\
    (forall k,
       JSObject.get o' k =
       match filter (fun s => String.eqb (shot_type s) k) l with
       | [] => JSObject.get o k
       | t =>
         Some (fold_left Career.add_shot t
                 match JSObject.get o k with
                 | Some e => e
                 | None =>
                   {| Career.count := JS.zero; Career.accSum := JS.zero |}
                 end)
       end).
Proof.
  intros H. revert o.
  induction H as [|s l Hs _ IH]; intros o N.
  - exists o. cbn. repeat split. exact N.
  - cbn [fold_left Career.aggregate_step]. rewrite Hs.
    set (e := match JSObject.get o (shot_type s) with
              | Some e => e
              | None =>
                {| Career.count := JS.zero; Career.accSum := JS.zero |}
              end).
    destruct (IH (JSObject.set o (shot_type s) (Career.add_shot e s)))
      as (o' & E & N' & G); [now apply set_NoDup|].
    exists o'. split; [exact E|]. split; [exact N'|].
    intros k. rewrite G. cbn [filter].
    destruct (String.eqb_spec (shot_type s) k) as [<-|D].
    + rewrite get_set_same.
      destruct (filter _ l); reflexivity.
    + rewrite get_set_other by exact D. reflexivity.
Qed.

(** The aggregates of a history without inherited names: one per shot
    type that occurs, holding the counts and the terms of the entries of
    that type, added up in order of occurrence. *)
Lemma career_aggregate (sessions : list SessionStats) :
  Forall (fun s => JSObject.inherited (shot_type s) = false)
    (Spec.allShots sessions) ->
  exists o,
    Career.perShotAggregate sessions = Some o /\
    NoDup (map fst o) /\
    (forall k,
       JSObject.get o k =
       match Career.ofType k sessions with
       | [] => None
       | t =>
         Some {| Career.count := countsFrom JS.zero t;
                 Career.accSum := Spec.weightedSum average_confidence t |}
       end).
Proof.
  intros H. unfold Career.perShotAggregate.
  rewrite aggregate_nested_concat.
  destruct (aggregate_fold _ JSObject.empty H) as (o & E & N & G);
    [constructor|].
  exists o. split; [exact E|]. split; [exact N|].
  intros k. rewrite G. unfold Career.ofType.
  destruct (filter _ (Spec.allShots sessions)) as [|s t]; [reflexivity|].
  cbn [JSObject.get JSObject.empty].
  rewrite add_shot_fold. reflexivity.
Qed.

Lemma totalCount_filter (f : ShotStats -> bool) (l : list ShotStats) :
  Forall (fun s => 0 <= count s) l ->
  Forall (fun s => 0 <= count s) (filter f l) /\
  0 <= Spec.totalCount (filter f l) <= Spec.totalCount l.
Proof.
  induction 1 as [|s l Hs H [IH1 IH2]]; [split; [constructor|cbn; lia]|].
  cbn [filter]. destruct (f s).
  - split; [now constructor|]. rewrite !totalCount_cons. lia.
  - split; [exact IH1|]. rewrite totalCount_cons. lia.
Qed.

Lemma countByTypes_nil (keys : list string) : countByTypes keys [] = 0.
Proof.
  unfold countByTypes. induction keys as [|k keys IH]; [reflexivity|].
  cbn [map fold_right]. rewrite IH. reflexivity.
Qed.

Lemma countByTypes_cons (keys : list string) (s : ShotStats)
  (l : list ShotStats) :
  countByTypes keys (s :: l) =
  fold_right Z.add 0
    (map (fun k => if String.eqb (shot_type s) k then count s else 0) keys) +
  countByTypes keys l.
Proof.
  unfold countByTypes. induction keys as [|k keys IH]; [reflexivity|].
  cbn [map fold_right]. rewrite IH. cbn [filter].
  destruct (String.eqb (shot_type s) k); [rewrite totalCount_cons|]; lia.
Qed.

Lemma indicator_sum (keys : list string) (x : string) (c : Z) :
  NoDup keys ->
  fold_right Z.add 0 (map (fun k => if String.eqb x k then c else 0) keys) =
  if in_dec string_dec x keys then c else 0.
Proof.
  induction 1 as [|k keys Hk H IH]; [reflexivity|].
  cbn [map fold_right]. rewrite IH.
  destruct (String.eqb_spec x k) as [->|N].
  - destruct (in_dec string_dec k keys) as [I|I]; [contradiction|].
    destruct (in_dec string_dec k (k :: keys)) as [J|J]; [lia|].
    exfalso. apply J. now left.
  - destruct (in_dec string_dec x keys) as [I|I];
      destruct (in_dec string_dec x (k :: keys)) as [J|J]; try lia.
    + exfalso. apply J. now right.
    + destruct J as [J|J]; [congruence|contradiction].
Qed.

(** Over shot types that are distinct and include every type of the
    list, the counts by type add up to the count of the list. *)
Lemma countByTypes_total (keys : list string) (l : list ShotStats) :
  NoDup keys ->
  Forall (fun s => In (shot_type s) keys) l ->
  countByTypes keys l = Spec.totalCount l.
Proof.
  intros N. induction 1 as [|s l Hs _ IH]; [apply countByTypes_nil|].
  rewrite countByTypes_cons, IH, totalCount_cons, (indicator_sum _ _ _ N).
  destruct (in_dec string_dec (shot_type s) keys); [reflexivity|contradiction].
Qed.

(** X10: when no shot type of the history names a member of
    [Object.prototype], the career loop leaves one aggregate per shot
    type that occurs: its count is the sum of the counts of the entries
    of that type over all the sessions, its accuracy sum their weighted
    sum, both added up in order of occurrence.  For counts that are not
    negative and sum below 2^53 each count is the integer total of its
    type, these totals add up to the total of the history, and that is
    the overall count of the page. *)
Theorem per_shot_aggregate (sessions : list SessionStats) :
  Forall (fun s => JSObject.inherited (shot_type s) = false)
    (Spec.allShots sessions) ->
  exists o,
    Career.perShotAggregate sessions = Some o /\
    NoDup (map fst o) /\
    (forall k,
       JSObject.get o k =
       match Career.ofType k sessions with
       | [] => None
       | t =>
         Some {| Career.count := countsFrom JS.zero t;
                 Career.accSum := Spec.weightedSum average_confidence t |}
       end) /\
    (Forall (fun s => 0 <= count s) (Spec.allShots sessions) ->
     Spec.totalCount (Spec.allShots sessions) < 2 ^ 53 ->
     (forall k,
        countsFrom JS.zero (Career.ofType k sessions) =
        JS.of_Z (Spec.totalCount (Career.ofType k sessions))) /\
     countByTypes (map fst o) (Spec.allShots sessions) =
       Spec.totalCount (Spec.allShots sessions) /\
     ProfilePage.overallCount sessions =
       JS.of_Z (Spec.totalCount (Spec.allShots sessions))).
Proof.
  intros H.
  destruct (career_aggregate sessions H) as (o & E & N & G).
  exists o. split; [exact E|]. split; [exact N|]. split; [exact G|].
  intros C B. split; [|split].
  - intros k. unfold Career.ofType.
    destruct (totalCount_filter (fun s => String.eqb (shot_type s) k) _ C)
      as [F T].
    apply counts_exact_zero; [exact F|lia].
  - apply countByTypes_total; [exact N|].
    apply Forall_forall. intros s I.
    destruct (in_dec string_dec (shot_type s) (map fst o)) as [J|J];
      [exact J|].
    apply get_None in J. rewrite G in J. unfold Career.ofType in J.
    destruct (filter _ (Spec.allShots sessions)) as [|x t] eqn:F;
      [|discriminate J].
    assert (I' : In s (filter (fun s0 => String.eqb (shot_type s0) (shot_type s))
                         (Spec.allShots sessions))).
    { apply filter_In. split; [exact I|apply String.eqb_refl]. }
    rewrite F in I'. destruct I'.
  - apply (profile_overall_weighted sessions C B).
Qed.

Lemma per_shot_aggregate_witness :
  exists o,
    Career.perShotAggregate from80to75 = Some o /\
    NoDup (map fst o) /\
    (forall k,
       JSObject.get o k =
       match Career.ofType k from80to75 with
       | [] => None
       | t =>
         Some {| Career.count := countsFrom JS.zero t;
                 Career.accSum := Spec.weightedSum average_confidence t |}
       end) /\
    (Forall (fun s => 0 <= count s) (Spec.allShots from80to75) ->
     Spec.totalCount (Spec.allShots from80to75) < 2 ^ 53 ->
     (forall k,
        countsFrom JS.zero (Career.ofType k from80to75) =
        JS.of_Z (Spec.totalCount (Career.ofType k from80to75))) /\
     countByTypes (map fst o) (Spec.allShots from80to75) =
       Spec.totalCount (Spec.allShots from80to75) /\
     ProfilePage.overallCount from80to75 =
       JS.of_Z (Spec.totalCount (Spec.allShots from80to75))).
Proof.
  apply (per_shot_aggregate from80to75).
  repeat constructor.
Defined.

End CareerFacts.

(* ================================================================== *)
(** ** ProfilePage.tsx: the best shot *)
(* ================================================================== *)

Section BestShot.
Import Api.

Lemma ltb_irrefl (a : JS.number) : SFltb a a = false.
Proof.
  unfold SFltb, SFcompare.
  destruct a as [s|s| |s m e]; try destruct s; try reflexivity;
    rewrite Z.compare_refl;
    change (Pos.compare_cont Eq m m) with (Pos.compare m m);
    rewrite Pos.compare_refl; reflexivity.
Qed.

Lemma ltb_trans (a b c : JS.number) :
  SFltb a b = true -> SFltb b c = true -> SFltb a c = true.
Proof.
  unfold SFltb, SFcompare.
  destruct a as [sa|sa| |sa ma ea], b as [sb|sb| |sb mb eb],
    c as [sc|sc| |sc mc ec];
    try destruct sa; try destruct sb; try destruct sc;
    try discriminate; try reflexivity; intros H1 H2;
    change (Pos.compare_cont Eq ma mb) with (Pos.compare ma mb) in *;
    change (Pos.compare_cont Eq mb mc) with (Pos.compare mb mc) in *;
    change (Pos.compare_cont Eq ma mc) with (Pos.compare ma mc) in *;
    destruct (Z.compare_spec ea eb); try discriminate;
    destruct (Z.compare_spec eb ec); try discriminate;
    destruct (Z.compare_spec ea ec); try reflexivity; try lia;
    destruct (Pos.compare_spec ma mb); try discriminate;
    destruct (Pos.compare_spec mb mc); try discriminate;
    destruct (Pos.compare_spec ma mc); try reflexivity; try lia.
Qed.

Lemma best_step_keeps (seen : list (string * Career.Aggregate))
  (best : option Career.Best) (e : string * Career.Aggregate) :
  bestOf seen best -> bestOf (seen ++ [e]) (Career.best_step best e).
Proof.
  destruct e as [shotType agg]. unfold Career.best_step.
  fold (Career.average agg).
  destruct (JS.truthy (Career.count agg)) eqn:T; cbn [negb].
  - destruct best as [b|]; cbn [bestOf].
    + intros [(a & I & C & E) M].
      destruct (JS.gt (Career.average agg) (Career.acc b)) eqn:G;
        cbn [bestOf Career.shot_type Career.acc].
      * split.
        -- exists agg. split; [apply in_or_app; right; now left|now split].
        -- intros k a' I' C'. apply in_app_or in I'.
           destruct I' as [I'|[I'|[]]].
           ++ unfold JS.gt in *.
              destruct (SFltb (Career.average agg) (Career.average a'))
                eqn:L; [|reflexivity].
              rewrite <- (M k a' I' C'). symmetry.
              now apply (ltb_trans _ (Career.average agg)).
           ++ injection I' as <- <-. apply ltb_irrefl.
      * split.
        -- exists a. split; [apply in_or_app; now left|now split].
        -- intros k a' I' C'. apply in_app_or in I'.
           destruct I' as [I'|[I'|[]]]; [now apply (M k)|].
           injection I' as <- <-. exact G.
    + intros F. cbn [Career.shot_type Career.acc]. split.
      * exists agg. split; [apply in_or_app; right; now left|now split].
      * intros k a' I' C'. apply in_app_or in I'.
        destruct I' as [I'|[I'|[]]].
        -- rewrite Forall_forall in F. specialize (F _ I'). cbn [snd] in F.
           congruence.
        -- injection I' as <- <-. apply ltb_irrefl.
  - (* an aggregate without swings is passed over *)
    destruct best as [b|]; cbn [bestOf].
    + intros [(a & I & C & E) M]. split.
      * exists a. split; [apply in_or_app; now left|now split].
      * intros k a' I' C'. apply in_app_or in I'.
        destruct I' as [I'|[I'|[]]]; [now apply (M k)|].
        injection I' as <- <-. congruence.
    + intros F. apply Forall_app. split; [exact F|].
      constructor; [exact T|constructor].
Qed.

Lemma best_fold (l seen : list (string * Career.Aggregate))
  (best : option Career.Best) :
  bestOf seen best ->
  bestOf (seen ++ l) (fold_left Career.best_step l best).
Proof.
  revert seen best. induction l as [|e l IH]; intros seen best H.
  - now rewrite app_nil_r.
  - cbn [fold_left].
    replace (seen ++ e :: l)%list with ((seen ++ [e]) ++ l)%list
      by now rewrite <- app_assoc.
    apply IH. now apply best_step_keeps.
Qed.

Lemma bestOf_perm (l l' : list (string * Career.Aggregate))
  (best : option Career.Best) :
  Permutation l l' -> bestOf l best -> bestOf l' best.
Proof.
  intros P. destruct best as [b|]; cbn [bestOf].
  - intros [(a & I & C & E) M]. split.
    + exists a. split; [now apply (Permutation_in _ P)|now split].
    + intros k a' I'. apply (M k).
      now apply (Permutation_in _ (Permutation_sym P)).
  - apply Permutation_Forall. exact P.
Qed.

Lemma bestShot_bestOf (o : JSObject.object Career.Aggregate) :
  bestOf o (Career.bestShot o).
Proof.
  apply (bestOf_perm _ _ _ (entries_perm o)).
  apply (best_fold (JSObject.entries o) [] None). constructor.
Qed.

(** X11: the best shot of the profile.  There is none exactly when no
    aggregate has swings (a count that is 0 or not a number).  Otherwise
    it names a shot type that has swings, with the average accuracy of
    that type, and no shot type with swings has an average strictly
    greater. *)
Theorem best_shot (o : JSObject.object Career.Aggregate) :
  (Career.bestShot o = None <->
   Forall (fun p => JS.truthy (Career.count (snd p)) = false) o) /\
  (forall b,
     Career.bestShot o = Some b ->
     (exists agg,
        In (Career.shot_type b, agg) o /\
        JS.truthy (Career.count agg) = true /\
        Career.acc b = Career.average agg) /\
     (forall k agg,
        In (k, agg) o -> JS.truthy (Career.count agg) = true ->
        JS.gt (Career.average agg) (Career.acc b) = false)).
Proof.
  assert (H := bestShot_bestOf o).
  destruct (Career.bestShot o) as [b|]; cbn [bestOf] in H.
  - split.
    + split; [discriminate|]. intros F.
      destruct H as [(a & I & C & _) _].
      rewrite Forall_forall in F. specialize (F _ I). cbn [snd] in F.
      congruence.
    + intros b' E. injection E as <-. exact H.
  - split; [tauto|discriminate].
Qed.

End BestShot.

(* ================================================================== *)
(** ** ProfilePage.tsx: the best shot of a history *)
(* ================================================================== *)

Section BestShotOfHistory.
Import Api.

Lemma of_Z_zero (z : Z) : JS.of_Z z = JS.zero <-> z = 0.
Proof.
  split; [|now intros ->].
  intros E. destruct (Z.eq_dec z 0) as [H|H]; [exact H|].
  destruct (of_Z_nonzero z H) as [N _]. rewrite E in N. discriminate N.
Qed.

(** X12: on a history of non-negative counts that sum below 2^53, without
    inherited names, the profile shows a best shot exactly when the
    overall count is not zero, and the accuracy it shows is the
    count-weighted mean accuracy of the entries of that shot type over
    all the sessions. *)
Theorem best_shot_of_history (sessions : list SessionStats) :
  Forall (fun s => JSObject.inherited (shot_type s) = false /\ 0 <= count s)
    (Spec.allShots sessions) ->
  Spec.totalCount (Spec.allShots sessions) < 2 ^ 53 ->
  exists o,
    Career.perShotAggregate sessions = Some o /\
    (Career.bestShot o = None <-> ProfilePage.overallCount sessions = JS.zero) /\
    (Career.bestShot o = None <-> Spec.totalCount (Spec.allShots sessions) = 0) /\
    (forall b,
       Career.bestShot o = Some b ->
       Spec.totalCount (Career.ofType (Career.shot_type b) sessions) <> 0 /\
       Career.acc b =
         Spec.weightedMean average_confidence
           (Career.ofType (Career.shot_type b) sessions)).
Proof.
  intros H B.
  assert (H1 : Forall (fun s => JSObject.inherited (shot_type s) = false)
                 (Spec.allShots sessions)).
  { apply (Forall_impl _ (P := fun s => JSObject.inherited (shot_type s) = false /\ 0 <= count s)); [tauto|exact H]. }
  assert (H2 : Forall (fun s => 0 <= count s) (Spec.allShots sessions)).
  { apply (Forall_impl _ (P := fun s => JSObject.inherited (shot_type s) = false /\ 0 <= count s)); [tauto|exact H]. }
  destruct (career_aggregate sessions H1) as (o & E & N & G).
  exists o. split; [exact E|].
  (* every aggregate is the exact total of its type *)
  assert (X : forall k,
            countsFrom JS.zero (Career.ofType k sessions) =
            JS.of_Z (Spec.totalCount (Career.ofType k sessions))).
  { intros k. unfold Career.ofType.
    destruct (totalCount_filter (fun s => String.eqb (shot_type s) k) _ H2)
      as [F T].
    apply counts_exact_zero; [exact F|lia]. }
  assert (A : forall k agg,
            In (k, agg) o ->
            agg = {| Career.count :=
                       JS.of_Z (Spec.totalCount (Career.ofType k sessions));
                     Career.accSum :=
                       Spec.weightedSum average_confidence
                         (Career.ofType k sessions) |}).
  { intros k agg I. apply (get_In o _ _ N) in I. rewrite G in I.
    destruct (Career.ofType k sessions) as [|s t] eqn:F; [discriminate I|].
    injection I as <-. rewrite <- F. now rewrite X. }
  assert (K : Forall (fun s => In (shot_type s) (map fst o))
                (Spec.allShots sessions)).
  { apply Forall_forall. intros s I.
    destruct (in_dec string_dec (shot_type s) (map fst o)) as [J|J];
      [exact J|].
    apply get_None in J. rewrite G in J. unfold Career.ofType in J.
    destruct (filter _ (Spec.allShots sessions)) as [|x t] eqn:F;
      [|discriminate J].
    assert (I' : In s (filter (fun s0 => String.eqb (shot_type s0) (shot_type s))
                         (Spec.allShots sessions))).
    { apply filter_In. split; [exact I|apply String.eqb_refl]. }
    rewrite F in I'. destruct I'. }
  assert (T : Career.bestShot o = None <->
              Spec.totalCount (Spec.allShots sessions) = 0).
  { assert (Bo := bestShot_bestOf o). split.
    - intros Eb. rewrite Eb in Bo. cbn [bestOf] in Bo.
      rewrite <- (countByTypes_total (map fst o) _ N K).
      unfold countByTypes.
      assert (Z : forall keys,
                (forall k, In k keys -> In k (map fst o)) ->
                fold_right Z.add 0
                  (map (fun k =>
                          Spec.totalCount
                            (filter (fun s => String.eqb (shot_type s) k)
                               (Spec.allShots sessions))) keys) = 0).
      { induction keys as [|k keys IH]; intros Hk; [reflexivity|].
        cbn [map fold_right]. rewrite IH by (intros; apply Hk; now right).
        assert (I : In k (map fst o)) by (apply Hk; now left).
        apply in_map_iff in I. destruct I as ([k' agg] & <- & I).
        rewrite Forall_forall in Bo. pose proof (Bo _ I) as F.
        rewrite (A _ _ I) in F. cbn [snd fst Career.count] in F.
        rewrite truthy_of_Z in F. apply negb_false_iff, Z.eqb_eq in F.
        cbn [fst]. unfold Career.ofType in F. lia. }
      apply Z. auto.
    - intros Z0.
      destruct (Career.bestShot o) as [b|]; [|reflexivity].
      cbn [bestOf] in Bo. destruct Bo as [(a & I & C & _) _].
      rewrite (A _ _ I) in C. cbn [Career.count] in C.
      rewrite truthy_of_Z in C. apply negb_true_iff, Z.eqb_neq in C.
      unfold Career.ofType in C.
      destruct (totalCount_filter
                  (fun s => String.eqb (shot_type s) (Career.shot_type b))
                  _ H2) as [_ R].
      lia. }
  split.
  { rewrite T, (proj1 (profile_overall_weighted sessions H2 B)).
    symmetry. apply of_Z_zero. }
  split; [exact T|].
  intros b Eb. assert (Bo := bestShot_bestOf o).
  rewrite Eb in Bo. cbn [bestOf] in Bo.
  destruct Bo as [(a & I & C & Ea) _].
  rewrite (A _ _ I) in C, Ea. cbn [Career.count] in C.
  rewrite truthy_of_Z in C. apply negb_true_iff, Z.eqb_neq in C.
  split; [exact C|].
  rewrite Ea. unfold Career.average, Spec.weightedMean.
  cbn [Career.count Career.accSum].
  destruct (Z.eqb_spec
              (Spec.totalCount
                 (Career.ofType (Career.shot_type b) sessions)) 0);
    [contradiction|reflexivity].
Qed.

Lemma best_shot_of_history_witness :
  exists o,
    Career.perShotAggregate from80to75 = Some o /\
    (Career.bestShot o = None <->
     ProfilePage.overallCount from80to75 = JS.zero) /\
    (Career.bestShot o = None <->
     Spec.totalCount (Spec.allShots from80to75) = 0) /\
    (forall b,
       Career.bestShot o = Some b ->
       Spec.totalCount (Career.ofType (Career.shot_type b) from80to75) <> 0 /\
       Career.acc b =
         Spec.weightedMean average_confidence
           (Career.ofType (Career.shot_type b) from80to75)).
Proof.
  apply (best_shot_of_history from80to75).
  - repeat constructor; discriminate.
  - reflexivity.
Defined.

(** Forehand at 0.80 over Block and Smash at 0.75. *)
Example best_shot_from80to75 :
  option_map Career.shot_type
    (match Career.perShotAggregate from80to75 with
     | Some o => Career.bestShot o
     | None => None
     end) = Some "Forehand".
Proof. vm_compute. reflexivity. Qed.

End BestShotOfHistory.

(* ================================================================== *)
(** ** Strings: trim, split, indexOf *)
(* ================================================================== *)

Section StringFacts.

Lemma units_eqb_eq (a b : JSString.units) :
  JSString.eqb a b = true <-> a = b.
Proof.
  revert b. induction a as [|x a IH]; intros [|y b]; cbn;
    try (split; [discriminate|discriminate]); [tauto|].
  rewrite andb_true_iff, N.eqb_eq, IH. split.
  - now intros [-> ->].
  - intros E. injection E as -> ->. tauto.
Qed.

Lemma indexOf_lower (a : list JSString.units) (x : JSString.units) :
  -1 <= JSString.indexOf a x.
Proof.
  induction a as [|y a IH]; cbn; [lia|].
  destruct (JSString.eqb y x); [lia|].
  destruct (Z.eqb_spec (JSString.indexOf a x) (-1)); lia.
Qed.

Lemma indexOf_absent (a : list JSString.units) (x : JSString.units) :
  JSString.indexOf a x = -1 <-> ~ In x a.
Proof.
  induction a as [|y a IH]; cbn; [tauto|].
  destruct (JSString.eqb y x) eqn:E.
  - apply units_eqb_eq in E. split; [discriminate|tauto].
  - assert (N : y <> x).
    { intros ->. now rewrite (proj2 (units_eqb_eq x x) eq_refl) in E. }
    assert (L := indexOf_lower a x).
    destruct (Z.eqb_spec (JSString.indexOf a x) (-1)) as [F|F].
    + split; [tauto|reflexivity].
    + split; [lia|tauto].
Qed.

(** The index found is that of the first element equal to [x]. *)
Lemma indexOf_found (a : list JSString.units) (x : JSString.units) :
  In x a ->
  exists before after,
    a = (before ++ x :: after)%list /\
    ~ In x before /\
    JSString.indexOf a x = Z.of_nat (List.length before).
Proof.
  induction a as [|y a IH]; cbn [In JSString.indexOf]; [tauto|].
  intros H. destruct (JSString.eqb y x) eqn:E.
  - apply units_eqb_eq in E. subst y.
    exists [], a. repeat split. tauto.
  - assert (N : y <> x).
    { intros ->. now rewrite (proj2 (units_eqb_eq x x) eq_refl) in E. }
    destruct H as [H|H]; [contradiction|].
    destruct (IH H) as (before & after & -> & B & I).
    exists (y :: before), after. split; [reflexivity|]. split.
    + cbn. tauto.
    + rewrite I.
      destruct (Z.eqb_spec (Z.of_nat (List.length before)) (-1)); [lia|].
      cbn [List.length]. lia.
Qed.

Lemma mapi_length {A B : Type} (f : A -> Z -> B) (i : Z) (a : list A) :
  List.length (JSString.mapi f i a) = List.length a.
Proof.
  revert i. induction a as [|x a IH]; intros i; cbn; [reflexivity|].
  now rewrite IH.
Qed.

Lemma mapi_nth {A B : Type} (f : A -> Z -> B) (i : Z) (a : list A)
  (n : nat) :
  nth_error (JSString.mapi f i a) n =
  option_map (fun x => f x (i + Z.of_nat n)) (nth_error a n).
Proof.
  revert i n. induction a as [|x a IH]; intros i [|n]; cbn [JSString.mapi nth_error option_map];
    try reflexivity.
  - now rewrite Z.add_0_r.
  - rewrite IH. destruct (nth_error a n); cbn; [|reflexivity].
    do 2 f_equal. lia.
Qed.

Lemma trimStart_idem (s : JSString.units) :
  JSString.trimStart (JSString.trimStart s) = JSString.trimStart s.
Proof.
  induction s as [|c s IH]; [reflexivity|].
  cbn [JSString.trimStart].
  destruct (JSString.isWhiteSpace c) eqn:E; [exact IH|].
  cbn [JSString.trimStart]. now rewrite E.
Qed.

Lemma trimStart_head (s : JSString.units) (c : N) (rest : JSString.units) :
  JSString.trimStart s = c :: rest -> JSString.isWhiteSpace c = false.
Proof.
  induction s as [|d s IH]; cbn [JSString.trimStart]; [discriminate|].
  destruct (JSString.isWhiteSpace d) eqn:E; [exact IH|].
  intros H. injection H as <- <-. exact E.
Qed.

Lemma trimStart_fixed (c : N) (s : JSString.units) :
  JSString.isWhiteSpace c = false -> JSString.trimStart (c :: s) = c :: s.
Proof. intros E. cbn [JSString.trimStart]. now rewrite E. Qed.

Lemma trimStart_suffix (s : JSString.units) :
  exists w, s = (w ++ JSString.trimStart s)%list.
Proof.
  induction s as [|c s [w IH]]; [now exists []|].
  cbn [JSString.trimStart]. destruct (JSString.isWhiteSpace c).
  - exists (c :: w). cbn. now rewrite <- IH.
  - now exists [].
Qed.

Lemma trimEnd_prefix (s : JSString.units) :
  exists w, s = (JSString.trimEnd s ++ w)%list.
Proof.
  unfold JSString.trimEnd.
  destruct (trimStart_suffix (rev s)) as [w E].
  exists (rev w). rewrite <- rev_app_distr, <- E. now rewrite rev_involutive.
Qed.

Lemma trimEnd_idem (s : JSString.units) :
  JSString.trimEnd (JSString.trimEnd s) = JSString.trimEnd s.
Proof.
  unfold JSString.trimEnd. now rewrite rev_involutive, trimStart_idem.
Qed.

Lemma trim_head (s : JSString.units) (c : N) (rest : JSString.units) :
  JSString.trim s = c :: rest -> JSString.isWhiteSpace c = false.
Proof.
  unfold JSString.trim. intros H.
  destruct (trimEnd_prefix (JSString.trimStart s)) as [w E].
  rewrite H in E. cbn in E. now apply trimStart_head in E.
Qed.

Lemma trim_idem (s : JSString.units) :
  JSString.trim (JSString.trim s) = JSString.trim s.
Proof.
  destruct (JSString.trim s) as [|c rest] eqn:E; [reflexivity|].
  assert (H := trim_head s c rest E).
  unfold JSString.trim at 1. rewrite (trimStart_fixed c rest H).
  rewrite <- E. unfold JSString.trim. apply trimEnd_idem.
Qed.

Lemma trimStart_snoc (s : JSString.units) (c : N) :
  JSString.isWhiteSpace c = true ->
  JSString.trimStart (s ++ [c])%list =
  match JSString.trimStart s with
  | [] => []
  | l => (l ++ [c])%list
  end.
Proof.
  intros W. induction s as [|d s IH]; cbn [app JSString.trimStart].
  - now rewrite W.
  - destruct (JSString.isWhiteSpace d); [exact IH|reflexivity].
Qed.

(** White space at the end of a string does not show after [trim]. *)
Lemma trim_snoc (s : JSString.units) (c : N) :
  JSString.isWhiteSpace c = true ->
  JSString.trim (s ++ [c])%list = JSString.trim s.
Proof.
  intros W. unfold JSString.trim, JSString.trimEnd.
  rewrite (trimStart_snoc s c W).
  destruct (JSString.trimStart s) as [|d l]; [reflexivity|].
  rewrite rev_app_distr. cbn [rev app JSString.trimStart].
  now rewrite W.
Qed.

End StringFacts.

(* ================================================================== *)
(** ** DashboardPage.tsx: the request made from a CSV *)
(* ================================================================== *)

Section CsvFacts.
Import Api DataView DashboardCsv.

Variable parseFloat : JSString.units -> JS.number.

Lemma columns_spec (header : list JSString.units) (required : list string)
  (idx : JSObject.object Z) :
  match columns header required idx with
  | Normal idx' =>
    Forall (fun c => In (JSString.ofString c) header) required /\
    idx' = columnsOf header required idx
  | Throw message =>
    exists before col after,
      required = (before ++ col :: after)%list /\
      Forall (fun c => In (JSString.ofString c) header) before /\
      ~ In (JSString.ofString col) header /\
      message = "CSV header missing required column: " ++ col
  end.
Proof.
  revert idx. induction required as [|col rest IH]; intros idx.
  - cbn. split; [constructor|reflexivity].
  - cbn [columns].
    destruct (Z.eqb_spec (JSString.indexOf header (JSString.ofString col))
                (-1)) as [E|E].
    + exists [], col, rest. repeat split; [constructor|].
      now apply indexOf_absent.
    + assert (I : In (JSString.ofString col) header).
      { destruct (in_dec (list_eq_dec N.eq_dec)
                    (JSString.ofString col) header) as [I|I]; [exact I|].
        apply indexOf_absent in I. contradiction. }
      specialize (IH (JSObject.set idx col
                        (JSString.indexOf header (JSString.ofString col)))).
      destruct (columns header rest _) as [idx'|message].
      * destruct IH as [F ->]. split; [now constructor|reflexivity].
      * destruct IH as (before & c & after & -> & F & M & ->).
        exists (col :: before), c, after.
        repeat split; [now constructor|exact M].
Qed.

Lemma reading_under (head : list JSString.units) (row : JSString.units)
  (col : string) :
  In col required ->
  reading parseFloat (columnsOf head required JSObject.empty)
    (JSString.split comma row) col =
  parseFloat (under head row col).
Proof.
  intros H. unfold reading, under, columnsOf, required. cbn [fold_left].
  cbn in H.
  repeat (destruct H as [<-|H];
          [repeat (rewrite get_set_other by discriminate);
           rewrite get_set_same; reflexivity|]).
  destruct H.
Qed.

Lemma period_is_5ms : JS.div (JS.of_Z 1) (JS.of_Z 200) = JS.dec 5 1000.
Proof. vm_compute. reflexivity. Qed.

(** X13: what [handleClassifyCsv] makes of the text of a file.  With
    fewer than two non-blank lines it stops on 'CSV file has no data
    rows.'; otherwise, if the header lacks a required column, on the
    message that names the first one missing; otherwise it makes a
    request at 200 Hz with one sample per non-blank line after the
    header, the sample of row [i] stamped [i * 0.005] and read from the
    cells under the six required header names.  No data row is ever
    rejected, and 'No valid samples parsed from CSV.' is never the
    outcome. *)
Theorem csv_request (text : JSString.units) :
  let rows := lines text in
  let head := header (hd [] rows) in
  match request parseFloat text with
  | Throw message =>
    ((List.length rows < 2)%nat /\ message = "CSV file has no data rows.") \/
    ((2 <= List.length rows)%nat /\
     exists before col after,
       required = (before ++ col :: after)%list /\
       Forall (fun c => In (JSString.ofString c) head) before /\
       ~ In (JSString.ofString col) head /\
       message = "CSV header missing required column: " ++ col)
  | Normal r =>
    (2 <= List.length rows)%nat /\
    Forall (fun c => In (JSString.ofString c) head) required /\
    player_id r = "practice_player" /\
    request_session_id r = "practice_session" /\
    sampling_rate_hz r = 200 /\
    List.length (samples r) = (List.length rows - 1)%nat /\
    forall i row,
      nth_error (tl rows) i = Some row ->
      nth_error (samples r) i =
      Some {| ax := parseFloat (under head row "acc_x");
              ay := parseFloat (under head row "acc_y");
              az := parseFloat (under head row "acc_z");
              gx := parseFloat (under head row "gyro_x");
              gy := parseFloat (under head row "gyro_y");
              gz := parseFloat (under head row "gyro_z");
              t := JS.mul (JS.of_Z (Z.of_nat i)) (JS.dec 5 1000) |}
  end.
Proof.
  intros rows head. unfold request. fold rows.
  destruct (Z.ltb_spec (Z.of_nat (List.length rows)) 2) as [L|L].
  - left. split; [lia|reflexivity].
  - unfold bind. fold head.
    assert (C := columns_spec head required JSObject.empty).
    destruct (columns head required JSObject.empty) as [idx|message].
    + destruct C as [F ->].
      rewrite mapi_length.
      assert (T : List.length (tl rows) = (List.length rows - 1)%nat).
      { destruct rows; cbn; lia. }
      destruct (Z.eqb_spec (Z.of_nat (List.length (tl rows))) 0) as [Z|Z];
        [lia|].
      cbn [player_id request_session_id sampling_rate_hz samples].
      split; [lia|]. split; [exact F|].
      repeat (split; [reflexivity|]).
      rewrite mapi_length. split; [exact T|].
      intros i row H. rewrite mapi_nth, H. cbn [option_map].
      unfold sample. rewrite Z.add_0_l, period_is_5ms.
      rewrite !reading_under by (cbn; tauto). reflexivity.
    + right. split; [lia|exact C].
Qed.

End CsvFacts.

(* ================================================================== *)
(** ** DashboardPage.tsx: line endings and blank lines of a CSV *)
(* ================================================================== *)

Section CsvLines.
Import Api DataView DashboardCsv.

Variable parseFloat : JSString.units -> JS.number.

Lemma chomp_cons (c : N) (row : JSString.units) :
  row <> [] -> chomp (c :: row) = c :: chomp row.
Proof. destruct row; [congruence|reflexivity]. Qed.

Lemma chomp_spec (row : JSString.units) :
  chomp row = row \/ row = (chomp row ++ [13%N])%list.
Proof.
  induction row as [|c row IH]; [now left|].
  destruct row as [|d row].
  - cbn. destruct (N.eqb_spec c 13) as [->|]; [now right|now left].
  - rewrite chomp_cons by discriminate.
    destruct IH as [->|E]; [now left|right].
    cbn [app]. now rewrite <- E.
Qed.

Lemma trim_chomp (row : JSString.units) :
  JSString.trim (chomp row) = JSString.trim row.
Proof.
  destruct (chomp_spec row) as [->|E]; [reflexivity|].
  rewrite E at 2. symmetry. now apply trim_snoc.
Qed.

Lemma splitLines_last (row : JSString.units) :
  ~ In 10%N row -> JSString.splitLines row = [row].
Proof.
  induction row as [|c row IH]; [reflexivity|].
  intros H. cbn [In] in H. cbn [JSString.splitLines].
  destruct (N.eqb_spec c 10) as [E|_]; [exfalso; tauto|].
  destruct row as [|d row]; [reflexivity|].
  destruct (N.eqb_spec d 10) as [E|_]; [exfalso; cbn in H; tauto|].
  rewrite andb_false_r. rewrite IH by tauto. reflexivity.
Qed.

Lemma splitLines_LF (row rest : JSString.units) :
  ~ In 10%N row ->
  JSString.splitLines (row ++ 10%N :: rest)%list =
  chomp row :: JSString.splitLines rest.
Proof.
  induction row as [|c row IH]; [reflexivity|].
  intros H. cbn [In] in H. cbn [app JSString.splitLines].
  destruct (N.eqb_spec c 10) as [E|_]; [exfalso; tauto|].
  destruct row as [|d row].
  - cbn [app]. change (10 =? 10)%N with true. rewrite andb_true_r.
    cbn [chomp]. destruct (c =? 13)%N; reflexivity.
  - cbn [app] in *.
    destruct (N.eqb_spec d 10) as [E|_]; [exfalso; cbn in H; tauto|].
    rewrite andb_false_r. rewrite IH by tauto. reflexivity.
Qed.

Lemma splitLines_CRLF (row rest : JSString.units) :
  ~ In 10%N row ->
  JSString.splitLines (row ++ 13%N :: 10%N :: rest)%list =
  row :: JSString.splitLines rest.
Proof.
  induction row as [|c row IH]; [reflexivity|].
  intros H. cbn [In] in H. cbn [app JSString.splitLines].
  destruct (N.eqb_spec c 10) as [E|_]; [exfalso; tauto|].
  destruct row as [|d row].
  - cbn [app] in *. change (13 =? 10)%N with false. rewrite andb_false_r.
    rewrite IH by tauto. reflexivity.
  - cbn [app] in *.
    destruct (N.eqb_spec d 10) as [E|_]; [exfalso; cbn in H; tauto|].
    rewrite andb_false_r. rewrite IH by tauto. reflexivity.
Qed.

Lemma trimmed_LF (rows : list JSString.units) :
  rows <> [] ->
  Forall (fun row => ~ In 10%N row) rows ->
  map JSString.trim (JSString.splitLines (joinLines [10%N] rows)) =
  map JSString.trim rows.
Proof.
  intros N F. revert N.
  induction F as [|row rows H F IH]; intros N; [contradiction|].
  destruct rows as [|row' rows].
  - cbn [joinLines]. now rewrite splitLines_last.
  - change (joinLines [10%N] (row :: row' :: rows))
      with (row ++ 10%N :: joinLines [10%N] (row' :: rows))%list.
    rewrite splitLines_LF by exact H.
    cbn [map]. rewrite IH by discriminate. now rewrite trim_chomp.
Qed.

Lemma trimmed_CRLF (rows : list JSString.units) :
  rows <> [] ->
  Forall (fun row => ~ In 10%N row) rows ->
  JSString.splitLines (joinLines [13%N; 10%N] rows) = rows.
Proof.
  intros N F. revert N.
  induction F as [|row rows H F IH]; intros N; [contradiction|].
  destruct rows as [|row' rows].
  - cbn [joinLines]. now rewrite splitLines_last.
  - change (joinLines [13%N; 10%N] (row :: row' :: rows))
      with (row ++ 13%N :: 10%N :: joinLines [13%N; 10%N] (row' :: rows))%list.
    rewrite splitLines_CRLF by exact H. now rewrite IH by discriminate.
Qed.

Lemma lines_of_rows (sep : JSString.units) (rows : list JSString.units) :
  sep = [10%N] \/ sep = [13%N; 10%N] ->
  Forall (fun row => ~ In 10%N row) rows ->
  lines (joinLines sep rows) =
  map JSString.trim (filter notBlank rows).
Proof.
  intros S F. unfold lines.
  assert (E : map JSString.trim (JSString.splitLines (joinLines sep rows)) =
              match rows with
              | [] => [[]]
              | _ => map JSString.trim rows
              end).
  { destruct rows as [|row rows]; [reflexivity|].
    destruct S as [-> | ->].
    - apply trimmed_LF; [discriminate|exact F].
    - rewrite trimmed_CRLF; [reflexivity|discriminate|exact F]. }
  rewrite E. clear E F S.
  destruct rows as [|row rows]; [reflexivity|].
  generalize (row :: rows). clear. intros l.
  induction l as [|r l IH]; [reflexivity|].
  cbn [map filter]. unfold notBlank at 1.
  destruct (0 <? Z.of_nat (List.length (JSString.trim r)));
    cbn [map]; now rewrite IH.
Qed.

(** X14: the request made from a CSV does not depend on the line
    endings, on blank lines, or on white space around the lines: rows
    written out with LF or with CR LF between them give the request of
    the non-blank rows alone, each trimmed, whichever separator these
    are then joined with. *)
Theorem csv_line_endings (rows : list JSString.units) :
  Forall (fun row => ~ In 10%N row) rows ->
  let kept := map JSString.trim (filter notBlank rows) in
  lines (joinLines [10%N] rows) = kept /\
  lines (joinLines [13%N; 10%N] rows) = kept /\
  request parseFloat (joinLines [13%N; 10%N] rows) =
    request parseFloat (joinLines [10%N] rows) /\
  request parseFloat (joinLines [10%N] kept) =
    request parseFloat (joinLines [10%N] rows).
Proof.
  intros F kept.
  assert (L1 := lines_of_rows [10%N] rows (or_introl eq_refl) F).
  assert (L2 := lines_of_rows [13%N; 10%N] rows (or_intror eq_refl) F).
  fold kept in L1, L2.
  assert (FK : Forall (fun row => ~ In 10%N row) kept).
  { subst kept. apply Forall_forall. intros r I.
    apply in_map_iff in I. destruct I as (row & <- & I).
    apply filter_In in I. destruct I as [I _].
    rewrite Forall_forall in F. specialize (F row I).
    intros H. apply F.
    unfold JSString.trim in H.
    destruct (trimEnd_prefix (JSString.trimStart row)) as [w E].
    destruct (trimStart_suffix row) as [w' E'].
    rewrite E'. apply in_or_app. right.
    rewrite E. apply in_or_app. now left. }
  assert (L3 := lines_of_rows [10%N] kept (or_introl eq_refl) FK).
  assert (K : map JSString.trim (filter notBlank kept) = kept).
  { subst kept. clear. induction rows as [|r rows IH]; [reflexivity|].
    cbn [filter]. destruct (notBlank r) eqn:B; [|exact IH].
    cbn [map filter]. unfold notBlank at 1. rewrite trim_idem.
    unfold notBlank in B. rewrite B. cbn [map].
    now rewrite trim_idem, IH. }
  rewrite K in L3.
  split; [exact L1|]. split; [exact L2|].
  unfold request. now rewrite L1, L2, L3.
Qed.

(** A header that lacks [acc_z], in a file with CR LF line endings and a
    blank line. *)
Example csv_missing_column :
  request parseFloat
    (JSString.ofString " acc_x, gyro_x ,acc_y" ++ [13; 10; 13; 10]%N ++
     JSString.ofString "1,2,3")%list =
  Throw "CSV header missing required column: acc_z".
Proof. vm_compute. reflexivity. Qed.

(** A header alone. *)
Example csv_no_rows :
  request parseFloat
    (JSString.ofString "acc_x,acc_y,acc_z,gyro_x,gyro_y,gyro_z" ++ [10]%N)%list =
  Throw "CSV file has no data rows.".
Proof. vm_compute. reflexivity. Qed.

(** Two rows under a header in another order with a column more; the
    second row is short of its last cells. *)
Example csv_two_rows :
  request parseFloat
    (JSString.ofString "gyro_z,acc_x,acc_y,acc_z,note,gyro_x,gyro_y" ++
     [10]%N ++ JSString.ofString "6,1,2,3,ok,4,5" ++
     [13; 10]%N ++ JSString.ofString "60,10,20,30" ++ [10]%N)%list =
  Normal
    {| player_id := "practice_player";
       request_session_id := "practice_session";
       sampling_rate_hz := 200;
       samples :=
         [ {| ax := parseFloat (JSString.ofString "1");
              ay := parseFloat (JSString.ofString "2");
              az := parseFloat (JSString.ofString "3");
              gx := parseFloat (JSString.ofString "4");
              gy := parseFloat (JSString.ofString "5");
              gz := parseFloat (JSString.ofString "6");
              t := JS.zero |};
           {| ax := parseFloat (JSString.ofString "10");
              ay := parseFloat (JSString.ofString "20");
              az := parseFloat (JSString.ofString "30");
              gx := parseFloat (JSString.ofString "undefined");
              gy := parseFloat (JSString.ofString "undefined");
              gz := parseFloat (JSString.ofString "60");
              t := JS.dec 5 1000 |} ] |}.
Proof. vm_compute. reflexivity. Qed.

End CsvLines.

(** A file with a blank line and padded cells, under a [parseFloat] that
    reads nothing. *)
Lemma csv_line_endings_witness :
  DashboardCsv.request (fun _ => JS.NaN)
    (joinLines [13%N; 10%N]
       [JSString.ofString "acc_x,acc_y,acc_z,gyro_x,gyro_y,gyro_z"; [];
        JSString.ofString " 1,2,3,4,5,6 "]) =
  DashboardCsv.request (fun _ => JS.NaN)
    (joinLines [10%N]
       [JSString.ofString "acc_x,acc_y,acc_z,gyro_x,gyro_y,gyro_z"; [];
        JSString.ofString " 1,2,3,4,5,6 "]).
Proof.
  apply (proj1 (proj2 (proj2
           (csv_line_endings (fun _ => JS.NaN)
              [JSString.ofString "acc_x,acc_y,acc_z,gyro_x,gyro_y,gyro_z";
               []; JSString.ofString " 1,2,3,4,5,6 "]
              ltac:(repeat constructor; cbn; intuition discriminate))))).
Defined.

(* ================================================================== *)
(** ** DashboardPage.tsx: the state after a CSV upload *)
(* ================================================================== *)

Section CsvHandler.
Import Api DataView DashboardCsv.

Variable parseFloat : JSString.units -> JS.number.

(** X15: the state [handleClassifyCsv] leaves.  The error it shows is
    never the empty string; once a file is selected the page is not left
    loading; a failure, of the file, of its contents or of the back end,
    keeps the last classification and the stats as they were; and the
    error is cleared only when the file gave a request that the back end
    classified, whose result is then shown over refreshed stats. *)
Theorem csv_handler
  (selectedFile : option (JSString.units + option string))
  (classifySwing : SwingRequest -> ClassificationResult + option string)
  (fetchSessionStats : option (list ShotStats)) (page : Page) :
  let after :=
    handleClassifyCsv parseFloat selectedFile classifySwing
      fetchSessionStats page in
  error after <> Some "" /\
  (selectedFile <> None -> loading after = false) /\
  (error after <> None ->
   lastResult after = lastResult page /\
   shotStatsByType after = shotStatsByType page) /\
  (error after = None ->
   exists text req result,
     selectedFile = Some (inl text) /\
     request parseFloat text = Normal req /\
     classifySwing req = inl result /\
     lastResult after = Some result /\
     shotStatsByType after =
       DashboardStats.refreshSessionStats fetchSessionStats
         (shotStatsByType page)).
Proof.
  assert (O : forall m,
            Some (DevicePage.orElse m "Failed to classify CSV swing.") <>
            Some "").
  { intros m H. injection H as H. revert H.
    now apply orElse_nonempty. }
  cbv zeta. unfold handleClassifyCsv.
  destruct selectedFile as [[text|message]|];
    cbn [error loading lastResult shotStatsByType].
  - destruct (request parseFloat text) as [req|message] eqn:R;
      cbn [error loading lastResult shotStatsByType].
    + destruct (classifySwing req) as [result|message] eqn:C;
        cbn [error loading lastResult shotStatsByType].
      * split; [discriminate|]. split; [reflexivity|].
        split; [congruence|].
        intros _. exists text, req, result. now repeat split.
      * repeat split; try apply O; discriminate.
    + repeat split; try apply O; discriminate.
  - repeat split; try apply O; discriminate.
  - repeat split; try discriminate; congruence.
Qed.

End CsvHandler.

(* ================================================================== *)
(** ** ProfilePage.tsx and AnalyticsPage.tsx: the player id *)
(* ================================================================== *)

Section PlayerIdFacts.

Lemma default_trimmed :
  JSString.trim (JSString.ofString "practice_player") =
  JSString.ofString "practice_player".
Proof. vm_compute. reflexivity. Qed.

Lemma onChange_trimmed (value : JSString.units) :
  JSString.trim (PlayerId.onChange value) = PlayerId.onChange value.
Proof.
  unfold PlayerId.onChange.
  destruct (JSString.trim value) as [|c rest] eqn:E.
  - apply default_trimmed.
  - rewrite <- E. apply trim_idem.
Qed.

Lemma onChange_nonempty (value : JSString.units) :
  PlayerId.onChange value <> [].
Proof.
  unfold PlayerId.onChange.
  destruct (JSString.trim value); discriminate.
Qed.

(** X16: the player id a page requests the history of is never the empty
    string, whatever is typed in the field or found in the stored
    profile; what the field sets has no white space around it, an input
    of white space alone gives 'practice_player', and typing the id the
    field has set sets it again. *)
Theorem player_id_never_empty (events : list PlayerId.Event)
  (value : JSString.units) :
  PlayerId.run events <> [] /\
  JSString.trim (PlayerId.onChange value) = PlayerId.onChange value /\
  (JSString.trim value = [] ->
   PlayerId.onChange value = JSString.ofString "practice_player") /\
  PlayerId.onChange (PlayerId.onChange value) = PlayerId.onChange value.
Proof.
  split; [|split; [apply onChange_trimmed|split]].
  - unfold PlayerId.run.
    assert (G : forall start, start <> [] ->
                  fold_left PlayerId.step events start <> []).
    { induction events as [|e events IH]; intros start H; [exact H|].
      cbn [fold_left]. apply IH.
      destruct e as [v|[[|c rest]|]]; cbn; try exact H; try discriminate.
      apply onChange_nonempty. }
    apply G. discriminate.
  - intros E. unfold PlayerId.onChange. now rewrite E.
  - assert (N := onChange_nonempty value).
    unfold PlayerId.onChange at 1. rewrite onChange_trimmed.
    destruct (PlayerId.onChange value); [contradiction|reflexivity].
Qed.

(** Spaces around a name are dropped, spaces inside it are kept. *)
Example onChange_spaces :
  PlayerId.onChange (JSString.ofString "  li na ") =
  JSString.ofString "li na".
Proof. vm_compute. reflexivity. Qed.

End PlayerIdFacts.
